(** * 5G-Stability: the data transformation pipeline, embedded and verified

    The development follows the repository module by module:
    [utils/constants.py], [models/data_models.py], [core/data_loader.py],
    [core/data_cleaner.py], [core/data_parser.py], [core/kpi_calculator.py],
    [core/evaluator.py] and the worker [ProcessingThread.run] of
    [gui/main_window.py].

    Conventions of the embedding.
    - A Python [float] (and a numpy [float64]) is a primitive binary64
      [float]; [/], [*], [+], [==], [<=] are the IEEE operations of
      [PrimFloat].  [nan] is the pandas missing marker of a numeric column.
    - A Python [str] is a [string]; its characters are 8-bit code points, for
      which the regular-expression class [\d] is exactly [0-9].
    - [None] is [None]; an [Optional[float]] is an [option float].
    - Code that can raise returns a [result]. *)

From Stdlib Require Import ZArith List String Ascii Bool Floats Lia.
From Stdlib Require Import Permutation Sorted.
From Stdlib Require OrderedTypeEx Uint63.
Import ListNotations.

Set Warnings "-inexact-float".
Local Open Scope string_scope.
Local Open Scope nat_scope.

(** ** Python values and exceptions *)

Module Py.

(** The exceptions the pipeline can meet. *)
Inductive exn : Type :=
| ValueError (msg : string)
| IndexError
| TypeError.

Inductive result (A : Type) : Type :=
| Ok (a : A)
| Raise (e : exn).
Arguments Ok {A} a.
Arguments Raise {A} e.

Definition bind {A B : Type} (m : result A) (k : A -> result B) : result B :=
  match m with
  | Ok a => k a
  | Raise e => Raise e
  end.

(** [for x in xs: ys.append(f x)], stopping at the first exception. *)
Fixpoint mapM {A B : Type} (f : A -> result B) (xs : list A) : result (list B) :=
  match xs with
  | [] => Ok []
  | x :: xs' => bind (f x) (fun y => bind (mapM f xs') (fun ys => Ok (y :: ys)))
  end.

(** [try: m  except: h] with a bare [except], which catches everything. *)
Definition try_except_all {A : Type} (m : result A) (h : A) : result A :=
  match m with
  | Ok a => Ok a
  | Raise _ => Ok h
  end.

(** [pd.isna] on an optional float: true on [None] and on [nan]. *)
Definition isna (v : option float) : bool :=
  match v with
  | None => true
  | Some x => PrimFloat.is_nan x
  end.

(** [x in xs] on a list of strings. *)
Definition str_in (x : string) (xs : list string) : bool :=
  existsb (String.eqb x) xs.

End Py.

Notation "x <- m ;; k" := (Py.bind m (fun x => k))
  (at level 61, m at next level, right associativity).

(** ** utils/constants.py *)

Module ColumnIndex.
Definition BEGIN_TIME : nat := 0.
Definition MANAGED_ELEMENT_NAME : nat := 6.
Definition SN_ADDITION_NUM : nat := 21.
Definition ABNORMAL_SN_RELEASE_NUM : nat := 24.
Definition DL_SE_MAPPING_NUM : nat := 35.
Definition DL_UE_THROUGHPUT_NUM : nat := 90.
Definition UL_UE_THROUGHPUT_NUM : nat := 91.
Definition SN_ADDITION_DEN : nat := 22.
Definition ABNORMAL_SN_RELEASE_DEN : nat := 25.
Definition DL_SE_MAPPING_DEN : nat := 36.
Definition DL_UE_THROUGHPUT_DEN : nat := 121.
Definition UL_UE_THROUGHPUT_DEN : nat := 122.
End ColumnIndex.

Module KPIThreshold.
Definition SGNB_ADD_SUCCESS_RATE_MIN : float := 95.0%float.
Definition SGNB_DROP_RATE_MAX : float := 5.0%float.
Definition DL_THROUGHPUT_MIN : float := 5.0%float.
Definition UL_THROUGHPUT_MIN : float := 1.5%float.
Definition DL_SPECTRUM_EFFICIENCY_MIN : float := 0.9%float.
End KPIThreshold.

(** ** models/data_models.py *)

(** A calendar date, [datetime.date]. *)
Record date : Type := mkdate { year : Z; month : Z; day : Z }.

Record KPIValues : Type := mkKPIValues {
  v_sgnb_add_success_rate : option float;
  v_sgnb_drop_rate : option float;
  v_dl_user_throughput : option float;
  v_ul_user_throughput : option float;
  v_dl_spectrum_efficiency : option float
}.

Record KPIStatus : Type := mkKPIStatus {
  sgnb_add_success_rate : string;
  sgnb_drop_rate : string;
  dl_user_throughput : string;
  ul_user_throughput : string;
  dl_spectrum_efficiency : string
}.

Record TowerReport : Type := mkTowerReport {
  tower_id : string;
  report_date : date;
  kpi_values : KPIValues;
  kpi_status : KPIStatus;
  overall_status : string
}.

(** ** core/evaluator.py *)

Module Evaluator.

(** [evaluate_kpi(value, threshold, compare)].  [value >= threshold] is
    [threshold <= value] on floats. *)
Definition evaluate_kpi (value : option float) (threshold : float) (compare : string)
  : string :=
  match value with
  | None => "N/A"
  | Some v =>
      if String.eqb compare ">="
      then (if PrimFloat.leb threshold v then "PASS" else "FAIL")
      else (if PrimFloat.leb v threshold then "PASS" else "FAIL")
  end.

(** The list [statuses] built from a [KPIStatus]. *)
Definition statuses (status : KPIStatus) : list string :=
  [ sgnb_add_success_rate status;
    sgnb_drop_rate status;
    dl_user_throughput status;
    ul_user_throughput status;
    dl_spectrum_efficiency status ].

(** ["FAIL" if "FAIL" in statuses else "PASS"]. *)
Definition overall (status : KPIStatus) : string :=
  if Py.str_in "FAIL" (statuses status) then "FAIL" else "PASS".

Definition evaluate_all (kv : KPIValues) : KPIStatus * string :=
  let status :=
    {| sgnb_add_success_rate :=
         evaluate_kpi (v_sgnb_add_success_rate kv)
           KPIThreshold.SGNB_ADD_SUCCESS_RATE_MIN ">=";
       sgnb_drop_rate :=
         evaluate_kpi (v_sgnb_drop_rate kv) KPIThreshold.SGNB_DROP_RATE_MAX "<=";
       dl_user_throughput :=
         evaluate_kpi (v_dl_user_throughput kv) KPIThreshold.DL_THROUGHPUT_MIN ">=";
       ul_user_throughput :=
         evaluate_kpi (v_ul_user_throughput kv) KPIThreshold.UL_THROUGHPUT_MIN ">=";
       dl_spectrum_efficiency :=
         evaluate_kpi (v_dl_spectrum_efficiency kv)
           KPIThreshold.DL_SPECTRUM_EFFICIENCY_MIN ">=" |} in
  (status, overall status).

End Evaluator.

(** ** pandas tables *)

(** A cell of a table: text, a number ([nan] is the missing number) or
    Python's [None]. *)
Inductive cell : Type :=
| CStr (s : string)
| CNum (x : float)
| CNone.

Definition row : Type := list cell.

(** A [DataFrame]: its number of columns, [len(df.columns)], and its rows in
    index order.  Columns are addressed by position ([iloc]) only. *)
Record DataFrame : Type := mkDataFrame {
  ncols : nat;
  rows : list row
}.

(** A table as [pd.read_csv(f, header=0)] reads it: the names of its header
    line, which [read_csv] makes distinct, and its rows. *)
Record Table : Type := mkTable {
  names : list string;
  body : list row
}.

Module Pandas.

(** The cell of row [r] at position [i]; a row shorter than the table reads
    as missing there. *)
Definition cell_at (i : nat) (r : row) : cell := nth i r (CNum nan).

(** [df.iloc[:, i]]: the column at position [i]; out of bounds raises. *)
Definition iloc (i : nat) (df : DataFrame) : Py.result (list cell) :=
  if i <? ncols df then Py.Ok (map (cell_at i) (rows df)) else Py.Raise Py.IndexError.

(** Apply [f] to the cell at position [i] of a row. *)
Fixpoint map_at (i : nat) (f : cell -> cell) (r : row) : row :=
  match r, i with
  | [], _ => []
  | c :: r', O => f c :: r'
  | c :: r', S i' => c :: map_at i' f r'
  end.

(** [df.iloc[:, i] = df.iloc[:, i].map(f)] for an in-range [i]. *)
Definition set_column (i : nat) (f : cell -> cell) (df : DataFrame) : DataFrame :=
  {| ncols := ncols df; rows := map (map_at i f) (rows df) |}.

(** [name in columns]. *)
Definition has_name (name : string) (columns : list string) : bool :=
  existsb (String.eqb name) columns.

(** The position of a name in a header. *)
Fixpoint position (name : string) (columns : list string) : option nat :=
  match columns with
  | [] => None
  | c :: columns' =>
      if String.eqb c name then Some 0
      else match position name columns' with
           | Some i => Some (S i)
           | None => None
           end
  end.

(** The columns of [pd.concat(dfs)]: the names of the tables, each once, in
    the order in which they first appear. *)
Definition add_name (columns : list string) (name : string) : list string :=
  if has_name name columns then columns else (columns ++ [name])%list.

Definition union_names (dfs : list Table) : list string :=
  fold_left (fun columns df => fold_left add_name (names df) columns) dfs [].

(** A row of the table [df] laid out under [columns]: under a name of [df]
    the cell it has there, under any other name the missing marker. *)
Definition align (columns : list string) (df : Table) (r : row) : row :=
  map (fun name =>
         match position name (names df) with
         | Some i => cell_at i r
         | None => CNum nan
         end) columns.

(** [pd.concat(dfs, ignore_index=True)]: the columns are matched by name,
    and the rows of each table follow those of the table before it. *)
Definition concat (dfs : list Table) : DataFrame :=
  let columns := union_names dfs in
  {| ncols := List.length columns;
     rows := flat_map (fun df => map (align columns df) (body df)) dfs |}.

(** [s.endswith(suffix)]. *)
Definition endswith (s suffix : string) : bool :=
  let n := String.length s in
  let m := String.length suffix in
  (m <=? n) && String.eqb (substring (n - m) m s) suffix.

(** [s.replace(c, "")] for a one-character [c]. *)
Fixpoint remove_char (c : ascii) (s : string) : string :=
  match s with
  | EmptyString => EmptyString
  | String a s' =>
      if Ascii.eqb a c then remove_char c s' else String a (remove_char c s')
  end.

End Pandas.

(** ** core/data_loader.py *)

Module DataLoader.

(** A member of the ZIP archive: its name, and what [pd.read_csv(f,
    header=0)] does on it: the table it reads, or the exception it raises on
    a content that is no table. *)
Record member : Type := mkmember {
  name : string;
  read_csv : Py.result Table
}.

(** The archive, in [namelist()] order. *)
Definition archive : Type := list member.

Definition eligible (f : string) : bool :=
  Pandas.endswith f ".csv" && negb (Pandas.endswith f "_KPI(Counter).csv").

Definition load_from_zip (zip_ref : archive) : Py.result DataFrame :=
  let csv_files := filter (fun m => eligible (name m)) zip_ref in
  match csv_files with
  | [] => Py.Raise (Py.ValueError "No valid CSV files found in ZIP archive")
  | _ :: _ =>
      dfs <- Py.mapM read_csv csv_files ;;
      Py.Ok (Pandas.concat dfs)
  end.

End DataLoader.

(** ** core/data_cleaner.py *)

Module DataCleaner.
Section WithLibrary.

(** [str(x)] of a float, as [astype(str)] applies it to a numeric cell. *)
Variable str_of_float : float -> string.
(** [pd.to_numeric] on one text value: the number read, or [None] where the
    text is no number (which [errors="coerce"] turns into [nan]). *)
Variable to_numeric : string -> option float.

(** [str(c)]. *)
Definition py_str (c : cell) : string :=
  match c with
  | CStr s => s
  | CNum x => str_of_float x
  | CNone => "None"
  end.

(** The first assignment of the loop body, on one cell:
    [astype(str)], the two [str.replace], then [.replace("", None)]. *)
Definition strip_cell (c : cell) : cell :=
  let s := Pandas.remove_char "," (Pandas.remove_char "%" (py_str c)) in
  if String.eqb s "" then CNone else CStr s.

(** The second assignment, [pd.to_numeric(..., errors="coerce")], on one
    cell. *)
Definition coerce_cell (c : cell) : cell :=
  match c with
  | CStr s =>
      match to_numeric s with
      | Some x => CNum x
      | None => CNum nan
      end
  | CNum x => CNum x
  | CNone => CNum nan
  end.

Definition clean_cell (c : cell) : cell := coerce_cell (strip_cell c).

(** One turn of [for col_idx in numeric_columns]. *)
Definition clean_column (df_clean : DataFrame) (col_idx : nat) : DataFrame :=
  if col_idx <? ncols df_clean
  then Pandas.set_column col_idx coerce_cell
         (Pandas.set_column col_idx strip_cell df_clean)
  else df_clean.

Definition clean_dataframe (df : DataFrame) (numeric_columns : list nat) : DataFrame :=
  fold_left clean_column numeric_columns df.

End WithLibrary.
End DataCleaner.

(** ** Regular expressions, as [re] matches them

    The fragment the pipeline uses: character classes, greedy [+] on a class,
    concatenation and ordered alternation.  [rmatch r s] lists the lengths of
    all matches of [r] at the head of [s] in the priority order of a
    backtracking matcher, so its first element is what [re.match] returns. *)

Module Re.

Inductive regex : Type :=
| Cls (p : ascii -> bool)
| Many1 (p : ascii -> bool)
| Seq (r1 r2 : regex)
| Alt (r1 r2 : regex).

(** [p+]: the longest run first, then each shorter one. *)
Fixpoint many1 (p : ascii -> bool) (s : list ascii) : list nat :=
  match s with
  | c :: s' => if p c then map S (many1 p s') ++ [1] else []
  | [] => []
  end.

Fixpoint rmatch (r : regex) (s : list ascii) : list nat :=
  match r with
  | Cls p =>
      match s with
      | c :: _ => if p c then [1] else []
      | [] => []
      end
  | Many1 p => many1 p s
  | Seq r1 r2 =>
      flat_map (fun n1 => map (Nat.add n1) (rmatch r2 (skipn n1 s))) (rmatch r1 s)
  | Alt r1 r2 => rmatch r1 s ++ rmatch r2 s
  end.

(** [re.match(r, s)]: the length of the match at the head of [s]. *)
Definition re_match (r : regex) (s : list ascii) : option nat :=
  hd_error (rmatch r s).

(** [re.search(r, s).group(0)]: the match at the leftmost position that has
    one. *)
Fixpoint search (r : regex) (s : list ascii) : option (list ascii) :=
  match re_match r s with
  | Some n => Some (firstn n s)
  | None =>
      match s with
      | [] => None
      | _ :: s' => search r s'
      end
  end.

Definition in_range (lo hi : nat) (c : ascii) : bool :=
  (lo <=? nat_of_ascii c) && (nat_of_ascii c <=? hi).

(** [[A-Z]], [\d], [-] and [\s] on 8-bit characters. *)
Definition upper : ascii -> bool := in_range 65 90.
Definition digit : ascii -> bool := in_range 48 57.
Definition chr (a : ascii) : ascii -> bool := Ascii.eqb a.
Definition space (c : ascii) : bool :=
  in_range 9 13 c || in_range 28 32 c || chr "133" c || chr "160" c.

(** Concatenation of a non-empty list of expressions. *)
Fixpoint seq (r : regex) (rs : list regex) : regex :=
  match rs with
  | [] => r
  | r' :: rs' => Seq r (seq r' rs')
  end.

End Re.

(** [TOWERID_PATTERN = r"[A-Z]+-[A-Z]+-[A-Z]+-\d+"] of [utils/constants.py]. *)
Definition TOWERID_PATTERN : Re.regex :=
  Re.seq (Re.Many1 Re.upper)
    [ Re.Cls (Re.chr "-"); Re.Many1 Re.upper;
      Re.Cls (Re.chr "-"); Re.Many1 Re.upper;
      Re.Cls (Re.chr "-"); Re.Many1 Re.digit ].

(** ** [datetime.strptime], for the directives of the four formats

    Each directive stands for the regular expression CPython's [_strptime]
    gives it; a run of white space in the format stands for [\s+]; any other
    character stands for itself.  The text must match from its start, nothing
    may remain after the match, and the fields must make a valid
    [datetime]; any failure is a [ValueError]. *)

Record datetime : Type := mkdatetime {
  dt_date : date;
  hour : Z;
  minute : Z;
  second : Z
}.

Module Strptime.

Inductive field : Type := F_Y | F_m | F_d | F_H | F_M | F_S.

Definition field_eqb (a b : field) : bool :=
  match a, b with
  | F_Y, F_Y | F_m, F_m | F_d, F_d | F_H, F_H | F_M, F_M | F_S, F_S => true
  | _, _ => false
  end.

Definition d (lo hi : ascii) : Re.regex :=
  Re.Cls (Re.in_range (nat_of_ascii lo) (nat_of_ascii hi)).
Definition any_digit : Re.regex := Re.Cls Re.digit.

(** The expressions of [TimeRE]. *)
Definition directive_regex (f : field) : Re.regex :=
  match f with
  | F_d => (* 3[0-1]|[1-2]\d|0[1-9]|[1-9]| [1-9] *)
      Re.Alt (Re.Seq (d "3" "3") (d "0" "1"))
        (Re.Alt (Re.Seq (d "1" "2") any_digit)
           (Re.Alt (Re.Seq (d "0" "0") (d "1" "9"))
              (Re.Alt (d "1" "9") (Re.Seq (Re.Cls (Re.chr " ")) (d "1" "9")))))
  | F_H => (* 2[0-3]|[0-1]\d|\d *)
      Re.Alt (Re.Seq (d "2" "2") (d "0" "3"))
        (Re.Alt (Re.Seq (d "0" "1") any_digit) any_digit)
  | F_m => (* 1[0-2]|0[1-9]|[1-9] *)
      Re.Alt (Re.Seq (d "1" "1") (d "0" "2"))
        (Re.Alt (Re.Seq (d "0" "0") (d "1" "9")) (d "1" "9"))
  | F_M => (* [0-5]\d|\d *)
      Re.Alt (Re.Seq (d "0" "5") any_digit) any_digit
  | F_S => (* 6[0-1]|[0-5]\d|\d *)
      Re.Alt (Re.Seq (d "6" "6") (d "0" "1"))
        (Re.Alt (Re.Seq (d "0" "5") any_digit) any_digit)
  | F_Y => (* \d\d\d\d *)
      Re.seq any_digit [any_digit; any_digit; any_digit]
  end.

Definition directive (c : ascii) : option field :=
  if Ascii.eqb c "Y" then Some F_Y
  else if Ascii.eqb c "m" then Some F_m
  else if Ascii.eqb c "d" then Some F_d
  else if Ascii.eqb c "H" then Some F_H
  else if Ascii.eqb c "M" then Some F_M
  else if Ascii.eqb c "S" then Some F_S
  else None.

(** One element of a compiled format. *)
Inductive item : Type :=
| Field (f : field)
| Spaces
| Lit (c : ascii).

Definition item_regex (it : item) : Re.regex :=
  match it with
  | Field f => directive_regex f
  | Spaces => Re.Many1 Re.space
  | Lit c => Re.Cls (Re.chr c)
  end.

(** The compiled format; [None] for a directive the model does not know and
    for a stray [%], where [strptime] raises [ValueError]. *)
Fixpoint compile (fmt : list ascii) : option (list item) :=
  match fmt with
  | [] => Some []
  | c :: rest =>
      if Ascii.eqb c "%" then
        match rest with
        | [] => None
        | c' :: rest' =>
            match directive c', compile rest' with
            | Some f, Some items => Some (Field f :: items)
            | _, _ => None
            end
        end
      else
        match compile rest with
        | Some items =>
            if Re.space c then
              match items with
              | Spaces :: _ => Some items
              | _ => Some (Spaces :: items)
              end
            else Some (Lit c :: items)
        | None => None
        end
  end.

(** All the ways the items match at the head of [s], in priority order: the
    text of each field, and what remains of [s]. *)
Fixpoint match_items (items : list item) (s : list ascii)
  : list (list (field * list ascii) * list ascii) :=
  match items with
  | [] => [([], s)]
  | it :: items' =>
      flat_map
        (fun n =>
           map (fun found =>
                  (match it with
                   | Field f => (f, firstn n s) :: fst found
                   | _ => fst found
                   end, snd found))
             (match_items items' (skipn n s)))
        (Re.rmatch (item_regex it) s)
  end.

(** [int(text)] of a field: its digits in base ten (the day may start with a
    blank, which [int] skips). *)
Definition int (text : list ascii) : Z :=
  fold_left
    (fun acc c =>
       if Re.digit c then (acc * 10 + (Z.of_nat (nat_of_ascii c) - 48))%Z else acc)
    text 0%Z.

(** The value of field [f], or [default] where the format has no such
    directive. *)
Fixpoint found_or (f : field) (default : Z) (found : list (field * list ascii)) : Z :=
  match found with
  | [] => default
  | (f', text) :: found' => if field_eqb f f' then int text else found_or f default found'
  end.

Definition is_leap (y : Z) : bool :=
  ((y mod 4 =? 0) && negb (y mod 100 =? 0) || (y mod 400 =? 0))%Z.

Definition days_in_month (y m : Z) : Z :=
  (if m =? 2 then (if is_leap y then 29 else 28)
   else if (m =? 4) || (m =? 6) || (m =? 9) || (m =? 11) then 30
   else 31)%Z.

(** The range checks of the [datetime] constructor. *)
Definition valid (dt : datetime) : bool :=
  let dd := dt_date dt in
  ((1 <=? year dd) && (year dd <=? 9999) &&
   (1 <=? month dd) && (month dd <=? 12) &&
   (1 <=? day dd) && (day dd <=? days_in_month (year dd) (month dd)) &&
   (0 <=? hour dt) && (hour dt <=? 23) &&
   (0 <=? minute dt) && (minute dt <=? 59) &&
   (0 <=? second dt) && (second dt <=? 59))%Z.

Definition strptime (data_string format : string) : Py.result datetime :=
  match compile (list_ascii_of_string format) with
  | None => Py.Raise (Py.ValueError "bad directive in format")
  | Some items =>
      match match_items items (list_ascii_of_string data_string) with
      | [] => Py.Raise (Py.ValueError "time data does not match format")
      | (found, rest) :: _ =>
          match rest with
          | _ :: _ => Py.Raise (Py.ValueError "unconverted data remains")
          | [] =>
              let dt :=
                {| dt_date := {| year := found_or F_Y 1900 found;
                                 month := found_or F_m 1 found;
                                 day := found_or F_d 1 found |};
                   hour := found_or F_H 0 found;
                   minute := found_or F_M 0 found;
                   second := found_or F_S 0 found |} in
              if valid dt then Py.Ok dt
              else Py.Raise (Py.ValueError "value out of range")
          end
      end
  end.

End Strptime.

(** ** core/data_parser.py *)

(** A row of the parsed table: the cells it had, and the two derived
    columns.  In [DATE], [None] is [NaT], the date that is missing. *)
Record ParsedRow : Type := mkParsedRow {
  cells : row;
  TOWERID : string;
  DATE : option date
}.

(** The table [add_parsed_columns] returns: [width] positional columns, then
    the columns [TOWERID] and [DATE]. *)
Record ParsedFrame : Type := mkParsedFrame {
  width : nat;
  prows : list ParsedRow
}.

Module DataParser.

Definition FORMATS : list string :=
  ["%m/%d/%Y %H:%M"; "%m/%d/%Y"; "%Y-%m-%d %H:%M:%S"; "%Y-%m-%d"].

(** The date [parse_date] falls back on, [datetime(2026, 1, 1).date()]. *)
Definition FALLBACK : date := {| year := 2026; month := 1; day := 1 |}.

Section WithLibrary.

(** [str(x)] of a float. *)
Variable str_of_float : float -> string.
(** [datetime.strptime(data_string, format)]. *)
Variable strptime : string -> string -> Py.result datetime.
(** [pd.to_datetime(x).date()], the generic parse of a cell: a date, [NaT]
    (here [None]) where pandas reads a missing value, or an exception. *)
Variable to_datetime : cell -> Py.result (option date).

Definition extract_tower_id (managed_element_name : cell) : string :=
  match Re.search TOWERID_PATTERN
          (list_ascii_of_string (DataCleaner.py_str str_of_float managed_element_name))
  with
  | Some m => string_of_list_ascii m
  | None => "UNKNOWN"
  end.

(** The [for fmt in ...] loop: the date of the first format that parses;
    [ValueError] moves on to the next format, any other exception leaves the
    loop; [None] when the loop ends without returning. *)
Fixpoint try_formats (s : string) (fmts : list string) : Py.result (option date) :=
  match fmts with
  | [] => Py.Ok None
  | fmt :: fmts' =>
      match strptime s fmt with
      | Py.Ok dt => Py.Ok (Some (dt_date dt))
      | Py.Raise (Py.ValueError _) => try_formats s fmts'
      | Py.Raise e => Py.Raise e
      end
  end.

Definition parse_date (date_str : cell) : Py.result (option date) :=
  Py.try_except_all
    (r <- try_formats (DataCleaner.py_str str_of_float date_str) FORMATS ;;
     match r with
     | Some dd => Py.Ok (Some dd)
     | None => to_datetime date_str
     end)
    (Some FALLBACK).

(** The rows with their two derived cells. *)
Fixpoint assign (rs : list row) (towers : list string) (dates : list (option date))
  : list ParsedRow :=
  match rs, towers, dates with
  | r :: rs', t :: towers', dd :: dates' =>
      {| cells := r; TOWERID := t; DATE := dd |} :: assign rs' towers' dates'
  | _, _, _ => []
  end.

Definition add_parsed_columns (df : DataFrame) : Py.result ParsedFrame :=
  names <- Pandas.iloc ColumnIndex.MANAGED_ELEMENT_NAME df ;;
  let towers := map extract_tower_id names in
  times <- Pandas.iloc ColumnIndex.BEGIN_TIME df ;;
  dates <- Py.mapM parse_date times ;;
  Py.Ok {| width := ncols df; prows := assign (rows df) towers dates |}.

End WithLibrary.
End DataParser.

(** ** core/kpi_calculator.py *)

Module KPICalculator.

(** [safe_divide(num, den, multiply)].  [pd.isna(None)] is true, so a
    [None] operand returns at the first two tests of the [or]. *)
Definition safe_divide (num den : option float) (multiply : float) : option float :=
  match num, den with
  | Some n, Some dn =>
      if PrimFloat.is_nan n || PrimFloat.is_nan dn || PrimFloat.eqb dn 0
      then None
      else Some (n / dn * multiply)%float
  | _, _ => None
  end.

(** [group.iloc[:, i]] on a group of the parsed table.  The layout of the
    input has 123 columns or more, so every position [calculate_kpis] reads
    is one of the [width] positional columns.  On a narrower table a read
    falls on [TOWERID] or [DATE], text and dates on which the arithmetic
    fails, or outside the table: the model makes such a read raise. *)
Definition iloc (i : nat) (group : ParsedFrame) : Py.result (list cell) :=
  if i <? width group then Py.Ok (map (fun r => Pandas.cell_at i (cells r)) (prows group))
  else if i <? width group + 2 then Py.Raise Py.TypeError
  else Py.Raise Py.IndexError.

(** What a cell adds to [Series.sum()], which skips missing values.  A
    column [clean_dataframe] has cleaned holds no text; on text the model
    raises the [TypeError] the arithmetic on it ends in. *)
Definition summand (c : cell) : Py.result float :=
  match c with
  | CNum x => Py.Ok (if PrimFloat.is_nan x then 0%float else x)
  | CNone => Py.Ok 0%float
  | CStr _ => Py.Raise Py.TypeError
  end.

(** The additions of [Series.sum()], from [0.0] in row order: the order in
    which a column of fewer than eight floats, and a column of Python
    objects of any length, is added. *)
Fixpoint sum_from (acc : float) (col : list cell) : Py.result float :=
  match col with
  | [] => Py.Ok acc
  | c :: col' => x <- summand c ;; sum_from (acc + x)%float col'
  end.

Definition sum (col : list cell) : Py.result float := sum_from 0%float col.

(** [group.iloc[:, i].sum()]. *)
Definition column_sum (i : nat) (group : ParsedFrame) : Py.result float :=
  col <- iloc i group ;; sum col.

Definition calculate_kpis (group : ParsedFrame) : Py.result KPIValues :=
  sn_add_num <- column_sum ColumnIndex.SN_ADDITION_NUM group ;;
  sn_add_den <- column_sum ColumnIndex.SN_ADDITION_DEN group ;;
  abn_rel_num <- column_sum ColumnIndex.ABNORMAL_SN_RELEASE_NUM group ;;
  abn_rel_den <- column_sum ColumnIndex.ABNORMAL_SN_RELEASE_DEN group ;;
  dl_tp_num <- column_sum ColumnIndex.DL_UE_THROUGHPUT_NUM group ;;
  dl_tp_den <- column_sum ColumnIndex.DL_UE_THROUGHPUT_DEN group ;;
  ul_tp_num <- column_sum ColumnIndex.UL_UE_THROUGHPUT_NUM group ;;
  ul_tp_den <- column_sum ColumnIndex.UL_UE_THROUGHPUT_DEN group ;;
  dl_se_num <- column_sum ColumnIndex.DL_SE_MAPPING_NUM group ;;
  dl_se_den <- column_sum ColumnIndex.DL_SE_MAPPING_DEN group ;;
  Py.Ok
    {| v_sgnb_add_success_rate := safe_divide (Some sn_add_num) (Some sn_add_den) 100;
       v_sgnb_drop_rate := safe_divide (Some abn_rel_num) (Some abn_rel_den) 100;
       v_dl_user_throughput := safe_divide (Some dl_tp_num) (Some dl_tp_den) 1;
       v_ul_user_throughput := safe_divide (Some ul_tp_num) (Some ul_tp_den) 1;
       v_dl_spectrum_efficiency := safe_divide (Some dl_se_num) (Some dl_se_den) 1 |}.

End KPICalculator.

(** ** gui/main_window.py: [ProcessingThread.run] *)

Module ProcessingThread.

(** A Group Key, [(tower_id, dt)]. *)
Definition key : Type := (string * date)%type.

(** The key of a row; a row whose [DATE] is [NaT] has none. *)
Definition key_of (r : ParsedRow) : option key :=
  match DATE r with
  | Some dt => Some (TOWERID r, dt)
  | None => None
  end.

Definition date_compare (a b : date) : comparison :=
  match Z.compare (year a) (year b) with
  | Eq =>
      match Z.compare (month a) (month b) with
      | Eq => Z.compare (day a) (day b)
      | c => c
      end
  | c => c
  end.

(** The order of the tuples [(tower_id, dt)]: by identifier, character by
    character, then by date. *)
Definition key_compare (a b : key) : comparison :=
  match String.compare (fst a) (fst b) with
  | Eq => date_compare (snd a) (snd b)
  | c => c
  end.

Definition key_eqb (a b : key) : bool :=
  match key_compare a b with
  | Eq => true
  | _ => false
  end.

(** The keys of [groupby], which sorts them and keeps each once, and drops
    the rows that have a missing value in a key column. *)
Fixpoint insert_key (k : key) (ks : list key) : list key :=
  match ks with
  | [] => [k]
  | k' :: ks' =>
      match key_compare k k' with
      | Lt => k :: ks
      | Eq => ks
      | Gt => k' :: insert_key k ks'
      end
  end.

Definition add_key (r : ParsedRow) (ks : list key) : list key :=
  match key_of r with
  | Some k => insert_key k ks
  | None => ks
  end.

Definition group_keys (rs : list ParsedRow) : list key :=
  fold_right add_key [] rs.

Definition in_group (k : key) (r : ParsedRow) : bool :=
  match key_of r with
  | Some k' => key_eqb k' k
  | None => false
  end.

(** The rows of the group of [k], in the order of the table. *)
Definition group_rows (k : key) (rs : list ParsedRow) : list ParsedRow :=
  filter (in_group k) rs.

(** [df_parsed.groupby(['TOWERID', 'DATE'])], as the loop iterates it. *)
Definition groupby (df_parsed : ParsedFrame) : list (key * ParsedFrame) :=
  map (fun k => (k, {| width := width df_parsed;
                       prows := group_rows k (prows df_parsed) |}))
    (group_keys (prows df_parsed)).

(** The body of the loop over the groups. *)
Definition report (kg : key * ParsedFrame) : Py.result TowerReport :=
  let '((tower_id, dt), group) := kg in
  kpi_values <- KPICalculator.calculate_kpis group ;;
  let '(kpi_status, overall) := Evaluator.evaluate_all kpi_values in
  Py.Ok (mkTowerReport tower_id dt kpi_values kpi_status overall).

(** Step 4 of [run]: group, calculate, evaluate. *)
Definition reports (df_parsed : ParsedFrame) : Py.result (list TowerReport) :=
  Py.mapM report (groupby df_parsed).

Definition numeric_cols : list nat :=
  [ ColumnIndex.SN_ADDITION_NUM; ColumnIndex.SN_ADDITION_DEN;
    ColumnIndex.ABNORMAL_SN_RELEASE_NUM; ColumnIndex.ABNORMAL_SN_RELEASE_DEN;
    ColumnIndex.DL_UE_THROUGHPUT_NUM; ColumnIndex.DL_UE_THROUGHPUT_DEN;
    ColumnIndex.UL_UE_THROUGHPUT_NUM; ColumnIndex.UL_UE_THROUGHPUT_DEN;
    ColumnIndex.DL_SE_MAPPING_NUM; ColumnIndex.DL_SE_MAPPING_DEN ].

Section WithLibrary.

Variable str_of_float : float -> string.
Variable to_numeric : string -> option float.
Variable strptime : string -> string -> Py.result datetime.
Variable to_datetime : cell -> Py.result (option date).

(** Steps 3 and 4 of [run]: parse, then group, calculate and evaluate. *)
Definition parse_and_report (df_clean : DataFrame) : Py.result (list TowerReport) :=
  df_parsed <- DataParser.add_parsed_columns str_of_float strptime to_datetime df_clean ;;
  reports df_parsed.

(** Steps 1 to 4 of [run]; the report is written from the list returned. *)
Definition run (zip_ref : DataLoader.archive) : Py.result (list TowerReport) :=
  df <- DataLoader.load_from_zip zip_ref ;;
  let df_clean := DataCleaner.clean_dataframe str_of_float to_numeric df numeric_cols in
  parse_and_report df_clean.

End WithLibrary.
End ProcessingThread.

(** ** gui/main_window.py: the end of [ProcessingThread.run] *)

Module Worker.

(** [sum(1 for r in reports if r.overall_status == "PASS")]. *)
Definition pass_count (reports : list TowerReport) : nat :=
  list_sum (map (fun _ => 1)
              (filter (fun r => String.eqb (overall_status r) "PASS") reports)).

(** [sum(1 for r in reports if r.overall_status == "FAIL")]. *)
Definition fail_count (reports : list TowerReport) : nat :=
  list_sum (map (fun _ => 1)
              (filter (fun r => String.eqb (overall_status r) "FAIL") reports)).

(** What [run] emits at its end: [finished] with the three counts, or
    [error] with the exception caught. *)
Inductive signal : Type :=
| Finished (total pass fail : nat)
| Error (e : Py.exn).

Section WithLibrary.

Variable str_of_float : float -> string.
Variable to_numeric : string -> option float.
Variable strptime : string -> string -> Py.result datetime.
Variable to_datetime : cell -> Py.result (option date).
(** [ExcelGenerator.create_report(reports, output_path)] as [run] sees it:
    the file is written, or the call raises. *)
Variable create_report : list TowerReport -> Py.result unit.

(** The whole of [run]: the five steps inside [try], the counts, and the
    [except Exception] that turns any exception into the [error] signal. *)
Definition run (zip_ref : DataLoader.archive) : signal :=
  match
    reports <- ProcessingThread.run str_of_float to_numeric strptime to_datetime zip_ref ;;
    _ <- create_report reports ;;
    Py.Ok reports
  with
  | Py.Ok reports =>
      Finished (List.length reports) (pass_count reports) (fail_count reports)
  | Py.Raise e => Error e
  end.

End WithLibrary.
End Worker.

(** ** openpyxl worksheets

    A worksheet as the grid of its cells, row after row, positions counted
    from 1 as [ws.cell(row=..., column=...)] counts them.  Of a cell, the
    value and the three styles the generators set.  Text is stored as it is
    given: the texts the generators write are identifiers, dates, statuses
    and labels, and what openpyxl does with control characters (it rejects
    them) and with text beyond 32767 characters (it cuts it) is outside the
    model, as are merged ranges, whose other cells cannot be written. *)

Module Openpyxl.

Inductive value : Type :=
| VNone
| VStr (s : string)
| VNum (x : float).

(** [PatternFill(fill_type="solid", ...)] by its colour; [None] is no fill. *)
Definition PatternFill : Type := option string.

Record Font : Type := mkFont {
  bold : bool;
  color : option string;
  size : option nat
}.

(** [Alignment(horizontal=..., vertical=...)]. *)
Record Alignment : Type := mkAlignment {
  horizontal : option string;
  vertical : option string
}.

Record Cell : Type := mkCell {
  value_ : value;
  fill : PatternFill;
  font : Font;
  alignment : Alignment
}.

Definition Worksheet : Type := list (list Cell).

Definition default_font : Font := mkFont false None None.
Definition default_alignment : Alignment := mkAlignment None None.

(** The cell [Cell(ws, row, column, value)] creates. *)
Definition new_cell (v : value) : Cell := mkCell v None default_font default_alignment.

(** [ws.append(iterable)]: a new row below the last one. *)
Definition append (iterable : list value) (ws : Worksheet) : Worksheet :=
  (ws ++ [map new_cell iterable])%list.

(** Replace the element at position [n] (from 0) by its image under [f],
    first extending the list with [d] up to that position, as a cell that
    does not exist yet is created on access. *)
Fixpoint update_nth {A : Type} (d : A) (n : nat) (f : A -> A) (l : list A) : list A :=
  match n, l with
  | O, [] => [f d]
  | O, x :: l' => f x :: l'
  | S n', [] => d :: update_nth d n' f []
  | S n', x :: l' => x :: update_nth d n' f l'
  end.

(** [cell = ws.cell(row=row, column=column)] followed by assignments [f] to
    attributes of [cell].  openpyxl rejects a position 0. *)
Definition cell (row column : nat) (f : Cell -> Cell) (ws : Worksheet)
  : Py.result Worksheet :=
  if (row =? 0) || (column =? 0)
  then Py.Raise (Py.ValueError "Row or column values must be at least 1")
  else Py.Ok (update_nth [] (row - 1) (update_nth (new_cell VNone) (column - 1) f) ws).

(** The cell at a position, as a read finds it. *)
Definition read (row column : nat) (ws : Worksheet) : Cell :=
  nth (column - 1) (nth (row - 1) ws []) (new_cell VNone).

(** [for x in xs: s = f(s, x)], stopping at the first exception. *)
Fixpoint foldM {A S : Type} (f : S -> A -> Py.result S) (xs : list A) (s : S)
  : Py.result S :=
  match xs with
  | [] => Py.Ok s
  | x :: xs' => s' <- f s x ;; foldM f xs' s'
  end.

Definition max_row (ws : Worksheet) : nat := List.length ws.
Definition max_column (ws : Worksheet) : nat := list_max (map (@List.length Cell) ws).

(** [ws.columns]: the columns of the used range, each from the first row to
    the last. *)
Definition columns (ws : Worksheet) : list (list Cell) :=
  map (fun column => map (fun row => read row column ws) (seq 1 (max_row ws)))
    (seq 1 (max_column ws)).

(** [max(...)] of a sequence of numbers; the empty sequence raises. *)
Definition max (xs : list nat) : Py.result nat :=
  match xs with
  | [] => Py.Raise (Py.ValueError "max() arg is an empty sequence")
  | x :: xs' => Py.Ok (fold_left Nat.max xs' x)
  end.

End Openpyxl.

(** ** core/excel_generator.py *)

Module ExcelGenerator.
Import Openpyxl.

Definition RED_FILL : PatternFill := Some "FFFFC7CE".
Definition DARK_RED_TEXT : Font := mkFont false (Some "FF9C0006") None.
Definition GREEN_FILL : PatternFill := Some "FFC6EFCE".
Definition DARK_GREEN_TEXT : Font := mkFont false (Some "FF006100") None.
Definition HEADER_FILL : PatternFill := Some "47402D".
Definition CENTER_ALIGNMENT : Alignment := mkAlignment (Some "center") (Some "center").

(** [_format_pass_fail(cell, is_pass)]. *)
Definition _format_pass_fail (is_pass : bool) (c : Cell) : Cell :=
  if is_pass
  then mkCell (VStr "PASS") GREEN_FILL DARK_GREEN_TEXT CENTER_ALIGNMENT
  else mkCell (VStr "FAIL") RED_FILL DARK_RED_TEXT CENTER_ALIGNMENT.

Definition headers : list string :=
  [ "TOWERID"; "DATE"; "STATUS";
    "SgNB Add Success Rate (status)"; "SgNB Drop Rate (status)";
    "DL User throughput (status)"; "UL User throughput (status)";
    "DL Spectrum Efficiency (status)";
    "SgNB Add Success Rate (value)"; "SgNB Drop Rate (value)";
    "DL User throughput (value)"; "UL User throughput (value)";
    "DL Spectrum Efficiency (value)" ].

(** The truth value of an optional float in [x if v else y]: [None] and
    zero are false, every other float, [nan] included, is true. *)
Definition truth (v : option float) : bool :=
  match v with
  | Some x => negb (PrimFloat.eqb x 0)
  | None => false
  end.

Section WithLibrary.

(** [d.strftime(format)]. *)
Variable strftime : date -> string -> string.
(** [round(x, 2)]. *)
Variable round2 : float -> float.
(** [str(x)] of a float. *)
Variable str_of_float : float -> string.

(** [round(v, 2) if v else ""]. *)
Definition value_or_blank (v : option float) : value :=
  match v with
  | Some x => if truth v then VNum (round2 x) else VStr ""
  | None => VStr ""
  end.

(** The list [row] of the first loop over the reports. *)
Definition row (report : TowerReport) : list value :=
  let v := kpi_values report in
  let s := kpi_status report in
  [ VStr (tower_id report);
    VStr (strftime (report_date report) "%m/%d/%Y");
    VStr (overall_status report);
    VStr (sgnb_add_success_rate s);
    VStr (sgnb_drop_rate s);
    VStr (dl_user_throughput s);
    VStr (ul_user_throughput s);
    VStr (dl_spectrum_efficiency s);
    value_or_blank (v_sgnb_add_success_rate v);
    value_or_blank (v_sgnb_drop_rate v);
    value_or_blank (v_dl_user_throughput v);
    value_or_blank (v_ul_user_throughput v);
    value_or_blank (v_dl_spectrum_efficiency v) ].

(** The body of [for cell in ws[1]]. *)
Definition header_style (c : Cell) : Cell :=
  mkCell (value_ c) HEADER_FILL (mkFont true (Some "FFFFFF") (Some 14)) CENTER_ALIGNMENT.

(** [ws[1]] is the first row; the loop restyles each of its cells. *)
Definition style_first_row (ws : Worksheet) : Worksheet :=
  match ws with
  | [] => []
  | first :: rest => map header_style first :: rest
  end.

Definition center (c : Cell) : Cell :=
  mkCell (value_ c) (fill c) (font c) CENTER_ALIGNMENT.

(** The body of [for row_idx, report in enumerate(reports, start=2)]. *)
Definition format_row (ws : Worksheet) (numbered : nat * TowerReport)
  : Py.result Worksheet :=
  let '(row_idx, report) := numbered in
  ws <- cell row_idx 3
          (_format_pass_fail (String.eqb (overall_status report) "PASS")) ws ;;
  let kpi_statuses :=
    [ (4, sgnb_add_success_rate (kpi_status report));
      (5, sgnb_drop_rate (kpi_status report));
      (6, dl_user_throughput (kpi_status report));
      (7, ul_user_throughput (kpi_status report));
      (8, dl_spectrum_efficiency (kpi_status report)) ] in
  ws <- foldM (fun ws '(col_idx, status) =>
                 cell row_idx col_idx (_format_pass_fail (String.eqb status "PASS")) ws)
          kpi_statuses ws ;;
  ws <- foldM (fun ws col_idx => cell row_idx col_idx center ws) (seq 9 5) ws ;;
  foldM (fun ws col_idx => cell row_idx col_idx center ws) (seq 1 2) ws.

(** [str(cell.value)]. *)
Definition str (v : value) : string :=
  match v with
  | VNone => "None"
  | VStr s => s
  | VNum x => str_of_float x
  end.

(** The last loop: the width of each column of the sheet. *)
Definition column_widths (ws : Worksheet) : Py.result (list nat) :=
  Py.mapM (fun column =>
             max_length <- max (map (fun c => String.length (str (value_ c))) column) ;;
             Py.Ok (Nat.min (max_length + 2) 50))
    (columns ws).

(** [create_report(reports, output_path)] up to [wb.save]: the sheet
    [Summary] and the widths of its columns. *)
Definition create_report (reports : list TowerReport)
  : Py.result (Worksheet * list nat) :=
  let ws := append (map VStr headers) [] in
  let ws := style_first_row ws in
  let ws := fold_left (fun ws report => append (row report) ws) reports ws in
  ws <- foldM format_row (combine (seq 2 (List.length reports)) reports) ws ;;
  widths <- column_widths ws ;;
  Py.Ok (ws, widths).

End WithLibrary.
End ExcelGenerator.

(** ** core/template_generator.py *)

Module TemplateGenerator.
Import Openpyxl.

(** Equality of two [datetime.date] keys. *)
Definition date_eqb (a b : date) : bool :=
  (Z.eqb (year a) (year b) && Z.eqb (month a) (month b) && Z.eqb (day a) (day b))%bool.

(** [grouped[key].append(report)] on a [defaultdict(list)], which keeps its
    keys in the order of their first use. *)
Fixpoint append_to (key : date) (report : TowerReport)
  (grouped : list (date * list TowerReport)) : list (date * list TowerReport) :=
  match grouped with
  | [] => [(key, [report])]
  | (k, l) :: rest =>
      if date_eqb k key then (k, (l ++ [report])%list) :: rest
      else (k, l) :: append_to key report rest
  end.

Definition group_reports_by_date (reports : list TowerReport)
  : list (date * list TowerReport) :=
  fold_left (fun grouped report => append_to (report_date report) report grouped)
    reports [].

Definition KPI_RESULT_START : nat := 9.

Section WithLibrary.

(** [d.strftime(format)]. *)
Variable strftime : date -> string -> string.
(** [round(x, 2)]. *)
Variable round2 : float -> float.

(** [cell.value = v]. *)
Definition set_value (v : value) (c : Cell) : Cell :=
  mkCell v (fill c) (font c) (alignment c).

(** The assignments to [result_cell]. *)
Definition result (v : option float) (c : Cell) : Cell :=
  mkCell (match v with Some x => VNum (round2 x) | None => VStr "N/A" end)
    (fill c) (font c) ExcelGenerator.CENTER_ALIGNMENT.

(** The assignments to [remark_cell]. *)
Definition remark (status : string) (c : Cell) : Cell :=
  if String.eqb status "PASS"
  then mkCell (VStr status) ExcelGenerator.GREEN_FILL ExcelGenerator.DARK_GREEN_TEXT
         ExcelGenerator.CENTER_ALIGNMENT
  else if String.eqb status "FAIL"
  then mkCell (VStr status) ExcelGenerator.RED_FILL ExcelGenerator.DARK_RED_TEXT
         ExcelGenerator.CENTER_ALIGNMENT
  else mkCell (VStr status) (fill c) (font c) ExcelGenerator.CENTER_ALIGNMENT.

Definition kpi_data (report : TowerReport) : list (option float * string) :=
  [ (v_sgnb_add_success_rate (kpi_values report), sgnb_add_success_rate (kpi_status report));
    (v_sgnb_drop_rate (kpi_values report), sgnb_drop_rate (kpi_status report));
    (v_dl_user_throughput (kpi_values report), dl_user_throughput (kpi_status report));
    (v_ul_user_throughput (kpi_values report), ul_user_throughput (kpi_status report));
    (v_dl_spectrum_efficiency (kpi_values report),
     dl_spectrum_efficiency (kpi_status report)) ].

(** The body of [for idx, (value, status) in enumerate(kpi_data)]. *)
Definition fill_kpi (start_row : nat) (ws : Worksheet)
  (numbered : nat * (option float * string)) : Py.result Worksheet :=
  let '(idx, (v, status)) := numbered in
  let row := start_row + KPI_RESULT_START - 1 + idx in
  ws <- cell row 7 (result v) ws ;;
  cell row 8 (remark status) ws.

Definition fill_tower_data (ws : Worksheet) (start_row : nat) (report : TowerReport)
  : Py.result Worksheet :=
  let tower_id_value := tower_id report in
  ws <- cell start_row 2 (set_value (VStr tower_id_value)) ws ;;
  ws <- cell (start_row + 6) 1 (set_value (VStr tower_id_value)) ws ;;
  ws <- cell (start_row + 3) 2
          (set_value (VStr (strftime (report_date report) "%d-%b-%y"))) ws ;;
  foldM (fill_kpi start_row) (combine (seq 0 5) (kpi_data report)) ws.

End WithLibrary.
End TemplateGenerator.

(** * Vocabulary of the statements *)

(** ** Numbers and cells *)

(** Python's [den == 0] on an optional float ([None == 0] is false). *)
Definition is_zero (den : option float) : bool :=
  match den with
  | Some x => PrimFloat.eqb x 0
  | None => false
  end.

(** A number that is zero or missing. *)
Definition zero_or_missing (x : float) : bool :=
  PrimFloat.eqb x 0 || PrimFloat.is_nan x.

(** What a number adds to a sum that skips missing values. *)
Definition nz (x : float) : float := if PrimFloat.is_nan x then 0%float else x.

(** A cell that holds a float: a number or the missing marker [nan]. *)
Definition is_num (c : cell) : Prop := exists x, c = CNum x.

(** A cell that holds text. *)
Definition is_text (c : cell) : bool :=
  match c with
  | CStr _ => true
  | _ => false
  end.

(** A cell that is a finite number or the missing marker. *)
Definition finite_or_missing (c : cell) : bool :=
  match c with
  | CNum x => PrimFloat.is_finite x || PrimFloat.is_nan x
  | CNone => true
  | CStr _ => false
  end.

(** The cells at position [i] of the rows [rs]. *)
Definition column (i : nat) (rs : list ParsedRow) : list cell :=
  map (fun r => Pandas.cell_at i (cells r)) rs.

(** ** Library behaviour *)

(** [strptime] rejects the text [s] in format [fmt]. *)
Definition rejects (strptime : string -> string -> Py.result datetime)
  (s fmt : string) : Prop :=
  exists msg, strptime s fmt = Py.Raise (Py.ValueError msg).

Definition lower (c : ascii) : ascii :=
  if Re.upper c then ascii_of_nat (nat_of_ascii c + 32) else c.

Fixpoint lowercase (s : string) : string :=
  match s with
  | EmptyString => EmptyString
  | String c s' => String (lower c) (lowercase s')
  end.

(** The words [pd.to_numeric] reads as infinite numbers, in any letter case:
    [inf] and [infinity], with an optional sign.  Numerals are outside this
    definition, which reads every other text as [None]. *)
Definition to_numeric_words (s : string) : option float :=
  let w := lowercase s in
  if Py.str_in w ["inf"; "+inf"; "infinity"; "+infinity"] then Some infinity
  else if Py.str_in w ["-inf"; "-infinity"] then Some neg_infinity
  else None.

(** [pd.to_datetime(x).date()] on the missing values and on text that is no
    date: pandas reads the empty text, the text [nan] and the missing number
    as [NaT], and [NaT.date()] is [NaT]; on a text it cannot read as a date
    it raises a [ValueError].  This instance serves the evaluations of
    [parse_date] on these inputs: it reads no text as a date, and the other
    numbers and [None] are not among its inputs. *)
Definition to_datetime_missing (c : cell) : Py.result (option date) :=
  match c with
  | CStr s =>
      if Py.str_in s [""; "nan"] then Py.Ok None
      else Py.Raise (Py.ValueError "Unknown datetime string format")
  | CNum x =>
      if PrimFloat.is_nan x then Py.Ok None
      else Py.Raise (Py.ValueError "Unknown datetime string format")
  | CNone => Py.Raise Py.TypeError
  end.

(** ** Regular expressions *)

(** The texts an expression denotes. *)
Inductive denotes : Re.regex -> list ascii -> Prop :=
| D_cls (p : ascii -> bool) (c : ascii) :
    p c = true -> denotes (Re.Cls p) [c]
| D_many1 (p : ascii -> bool) (c : ascii) (l : list ascii) :
    p c = true -> Forall (fun a => p a = true) l -> denotes (Re.Many1 p) (c :: l)
| D_seq (r1 r2 : Re.regex) (l1 l2 : list ascii) :
    denotes r1 l1 -> denotes r2 l2 -> denotes (Re.Seq r1 r2) (l1 ++ l2)
| D_alt_l (r1 r2 : Re.regex) (l : list ascii) :
    denotes r1 l -> denotes (Re.Alt r1 r2) l
| D_alt_r (r1 r2 : Re.regex) (l : list ascii) :
    denotes r2 l -> denotes (Re.Alt r1 r2) l.

(** ** The end-to-end scenario *)

(** The metric columns the scenario leaves open. *)
Definition other_metrics : list nat :=
  [ ColumnIndex.DL_SE_MAPPING_NUM; ColumnIndex.DL_SE_MAPPING_DEN;
    ColumnIndex.DL_UE_THROUGHPUT_NUM; ColumnIndex.DL_UE_THROUGHPUT_DEN;
    ColumnIndex.UL_UE_THROUGHPUT_NUM; ColumnIndex.UL_UE_THROUGHPUT_DEN ].

(** The cell at position [i] of a scenario row: the begin time, the element
    name, [(100, 100)] and [(1, 100)] in the first two metric pairs, the
    number [o i] in each other metric column and the cell [x i] elsewhere. *)
Definition scenario_cell (o : nat -> float) (x : nat -> cell) (i : nat) : cell :=
  if i =? ColumnIndex.BEGIN_TIME then CStr "1/6/2026 0:00"
  else if i =? ColumnIndex.MANAGED_ELEMENT_NAME then CStr "NR_SUM-SU-AKR-0011_DU"
  else if i =? ColumnIndex.SN_ADDITION_NUM then CNum 100
  else if i =? ColumnIndex.SN_ADDITION_DEN then CNum 100
  else if i =? ColumnIndex.ABNORMAL_SN_RELEASE_NUM then CNum 1
  else if i =? ColumnIndex.ABNORMAL_SN_RELEASE_DEN then CNum 100
  else if existsb (Nat.eqb i) other_metrics then CNum (o i)
  else x i.

(** A row of the layout: its 123 columns and [extra] more. *)
Definition scenario_row (extra : nat) (o : nat -> float) (x : nat -> cell) : row :=
  map (scenario_cell o x) (seq 0 (123 + extra)).

(** The cleaned table of the scenario: two rows. *)
Definition scenario (extra : nat) (o1 : nat -> float) (x1 : nat -> cell)
  (o2 : nat -> float) (x2 : nat -> cell) : DataFrame :=
  {| ncols := 123 + extra;
     rows := [scenario_row extra o1 x1; scenario_row extra o2 x2] |}.

(** The parsed table of the scenario. *)
Definition scenario_parsed (extra : nat) (o1 : nat -> float) (x1 : nat -> cell)
  (o2 : nat -> float) (x2 : nat -> cell) : ParsedFrame :=
  {| width := 123 + extra;
     prows :=
       [ mkParsedRow (scenario_row extra o1 x1) "SUM-SU-AKR-0011" (Some (mkdate 2026 1 6));
         mkParsedRow (scenario_row extra o2 x2) "SUM-SU-AKR-0011"
           (Some (mkdate 2026 1 6)) ] |}.

(** ** Grouping and exact sums *)

(** The strict order of the Group Keys. *)
Definition key_lt (a b : ProcessingThread.key) : Prop :=
  ProcessingThread.key_compare a b = Lt.

(** Addition is exact on the floats [F a] of the integers [a] up to [B] in
    magnitude: it computes [F (a + b)] without rounding. *)
Definition exact_add (F : Z -> float) (B : Z) : Prop :=
  F 0%Z = 0%float /\
  forall a b, (Z.abs a <= B)%Z -> (Z.abs b <= B)%Z -> (Z.abs (a + b) <= B)%Z ->
    (F a + F b)%float = F (a + b)%Z.

(** The integer a cell adds to a sum, read by [ival]; a missing cell adds
    none. *)
Definition cell_int (ival : float -> Z) (c : cell) : Z :=
  match c with
  | CNum x => if PrimFloat.is_nan x then 0%Z else ival x
  | _ => 0%Z
  end.

(** The number of a cell is the float of the integer [ival] reads. *)
Definition represented (F : Z -> float) (ival : float -> Z) (c : cell) : Prop :=
  match c with
  | CNum x => PrimFloat.is_nan x = false -> x = F (ival x)
  | _ => True
  end.

(** The integers of a column, added. *)
Fixpoint int_total (ival : float -> Z) (col : list cell) : Z :=
  match col with
  | [] => 0%Z
  | c :: col' => (cell_int ival c + int_total ival col')%Z
  end.

(** The magnitudes of the integers of a column, added. *)
Fixpoint abs_total (ival : float -> Z) (col : list cell) : Z :=
  match col with
  | [] => 0%Z
  | c :: col' => (Z.abs (cell_int ival c) + abs_total ival col')%Z
  end.

(** Addition is exact on the metric columns of a table: every number is the
    float of an integer, and the magnitudes of a column add up to at most
    [B]. *)
Definition exact_table (F : Z -> float) (ival : float -> Z) (B : Z)
  (rs : list ParsedRow) : Prop :=
  forall i, In i ProcessingThread.numeric_cols ->
    Forall (represented F ival) (column i rs) /\ (abs_total ival (column i rs) <= B)%Z.

(** ** Sample tables *)

(** A parsed row of the 123-column layout for the key (SUM-SU-AKR-0011,
    2026-01-06), with [n] and [dn] in the SN_ADDITION pair and zero
    elsewhere. *)
Definition addition_row (n dn : float) : ParsedRow :=
  {| cells :=
       map (fun i =>
              if i =? ColumnIndex.SN_ADDITION_NUM then CNum n
              else if i =? ColumnIndex.SN_ADDITION_DEN then CNum dn
              else CNum 0)
         (seq 0 123);
     TOWERID := "SUM-SU-AKR-0011";
     DATE := Some (mkdate 2026 1 6) |}.

(** Three rows of one group, and the same rows in another order. *)
Definition rows_big_first : list ParsedRow :=
  [addition_row 1e17 1; addition_row 3 1; addition_row (-1e17) 1].

Definition rows_big_cancel : list ParsedRow :=
  [addition_row 1e17 1; addition_row (-1e17) 1; addition_row 3 1].

(** The floats of the integers up to 8 in magnitude, on which addition is
    exact, and the integer of such a float. *)
Definition small_float (z : Z) : float :=
  match z with
  | Z0 => 0%float
  | Zpos p => PrimFloat.of_uint63 (Uint63.of_pos p)
  | Zneg p => (- PrimFloat.of_uint63 (Uint63.of_pos p))%float
  end.

Definition small_int (x : float) : Z :=
  match find (fun z => PrimFloat.eqb (small_float z) x)
          [1; 2; 3; 4; 5; 6; 7; 8; -1; -2; -3; -4; -5; -6; -7; -8]%Z with
  | Some z => z
  | None => 0%Z
  end.

(** Three rows of small counters, and the same rows in another order. *)
Definition rows_small : list ParsedRow :=
  [addition_row 3 1; addition_row 1 2; addition_row 2 1].

Definition rows_small_shuffled : list ParsedRow :=
  [addition_row 2 1; addition_row 3 1; addition_row 1 2].

(** ** Further vocabulary *)

(** A row without traffic whose begin time was empty: its date is missing. *)
Definition undated_row : ParsedRow :=
  mkParsedRow (repeat (CNum 0) 123) "SUM-SU-AKR-0011" None.

(** A row that carries a date. *)
Definition dated (r : ParsedRow) : bool :=
  match DATE r with
  | Some _ => true
  | None => false
  end.

(** The Group Key of a report. *)
Definition report_key (r : TowerReport) : ProcessingThread.key :=
  (tower_id r, report_date r).

(** A value is missing or satisfies [ok]. *)
Definition missing_or (ok : float -> bool) (v : option float) : Prop :=
  match v with
  | None => True
  | Some x => ok x = true
  end.

(** An archive of one tabular member, the two rows of the scenario with
    zeros in the open metric columns, and one member that is not a CSV
    file. *)
Definition sample_table : DataFrame :=
  scenario 0 (fun _ => 0%float) (fun _ => CStr "") (fun _ => 0%float) (fun _ => CStr "").

(** A header of [n] distinct names, one character each. *)
Definition sample_names (n : nat) : list string :=
  map (fun i => String (ascii_of_nat (33 + i)) "") (seq 0 n).

Definition sample_csv : Table :=
  {| names := sample_names 123; body := rows sample_table |}.

Definition sample_archive : DataLoader.archive :=
  [ DataLoader.mkmember "readme.txt" (Py.Raise Py.TypeError);
    DataLoader.mkmember "cells.csv" (Py.Ok sample_csv) ].

(** An archive whose table has two columns. *)
Definition narrow_archive : DataLoader.archive :=
  [ DataLoader.mkmember "cells.csv"
      (Py.Ok {| names := ["Begin Time"; "Name"];
                body := [[CStr "1/6/2026"; CStr "NR_SUM-SU-AKR-0011_DU"]] |}) ].

(** The denominator columns of the five KPIs. *)
Definition denominators : list nat :=
  [ ColumnIndex.SN_ADDITION_DEN; ColumnIndex.ABNORMAL_SN_RELEASE_DEN;
    ColumnIndex.DL_UE_THROUGHPUT_DEN; ColumnIndex.UL_UE_THROUGHPUT_DEN;
    ColumnIndex.DL_SE_MAPPING_DEN ].

(** A cell that adds nothing to a sum: zero, or a missing value. *)
Definition no_traffic (c : cell) : bool :=
  match c with
  | CNum x => zero_or_missing x
  | CNone => true
  | CStr _ => false
  end.

(** A row of 123 zeros, dated and named. *)
Definition idle_row : ParsedRow :=
  mkParsedRow (repeat (CNum 0) 123) "SUM-SU-AKR-0011" (Some (mkdate 2026 1 6)).

(** ** The Summary sheet *)

(** A cell as [_format_pass_fail] leaves it for the status [status]. *)
Definition pass_fail (status : string) : Openpyxl.Cell :=
  ExcelGenerator._format_pass_fail (String.eqb status "PASS")
    (Openpyxl.new_cell (Openpyxl.VStr status)).

(** A centred cell without fill. *)
Definition centered (v : Openpyxl.value) : Openpyxl.Cell :=
  ExcelGenerator.center (Openpyxl.new_cell v).

(** The row of a report in the finished sheet. *)
Definition summary_row (strftime : date -> string -> string) (round2 : float -> float)
  (report : TowerReport) : list Openpyxl.Cell :=
  let v := kpi_values report in
  let s := kpi_status report in
  [ centered (Openpyxl.VStr (tower_id report));
    centered (Openpyxl.VStr (strftime (report_date report) "%m/%d/%Y"));
    pass_fail (overall_status report);
    pass_fail (sgnb_add_success_rate s);
    pass_fail (sgnb_drop_rate s);
    pass_fail (dl_user_throughput s);
    pass_fail (ul_user_throughput s);
    pass_fail (dl_spectrum_efficiency s);
    centered (ExcelGenerator.value_or_blank round2 (v_sgnb_add_success_rate v));
    centered (ExcelGenerator.value_or_blank round2 (v_sgnb_drop_rate v));
    centered (ExcelGenerator.value_or_blank round2 (v_dl_user_throughput v));
    centered (ExcelGenerator.value_or_blank round2 (v_ul_user_throughput v));
    centered (ExcelGenerator.value_or_blank round2 (v_dl_spectrum_efficiency v)) ].

(** The first row of the finished sheet. *)
Definition summary_header : list Openpyxl.Cell :=
  map (fun h => ExcelGenerator.header_style (Openpyxl.new_cell (Openpyxl.VStr h)))
    ExcelGenerator.headers.

(** The five statuses of a report with the columns that show them, after
    the overall status in column 3. *)
Definition status_columns (report : TowerReport) : list (nat * string) :=
  [ (3, overall_status report);
    (4, sgnb_add_success_rate (kpi_status report));
    (5, sgnb_drop_rate (kpi_status report));
    (6, dl_user_throughput (kpi_status report));
    (7, ul_user_throughput (kpi_status report));
    (8, dl_spectrum_efficiency (kpi_status report)) ].

(** The five values of a report with the columns that show them. *)
Definition value_columns (report : TowerReport) : list (nat * option float) :=
  [ (9, v_sgnb_add_success_rate (kpi_values report));
    (10, v_sgnb_drop_rate (kpi_values report));
    (11, v_dl_user_throughput (kpi_values report));
    (12, v_ul_user_throughput (kpi_values report));
    (13, v_dl_spectrum_efficiency (kpi_values report)) ].

(** ** The detailed sheet *)

(** The positions [fill_tower_data] writes in the block that starts at
    [start_row]: [B1], [A7], [B4], and [G9:H13]. *)
Definition written (start_row : nat) : list (nat * nat) :=
  [ (start_row, 2); (start_row + 6, 1); (start_row + 3, 2);
    (start_row + 8, 7); (start_row + 8, 8);
    (start_row + 9, 7); (start_row + 9, 8);
    (start_row + 10, 7); (start_row + 10, 8);
    (start_row + 11, 7); (start_row + 11, 8);
    (start_row + 12, 7); (start_row + 12, 8) ].

(** A write: a position and what is assigned to the cell there. *)
Definition write : Type := ((nat * nat) * (Openpyxl.Cell -> Openpyxl.Cell))%type.

Definition apply_write (ws : Openpyxl.Worksheet) (w : write)
  : Py.result Openpyxl.Worksheet :=
  Openpyxl.cell (fst (fst w)) (snd (fst w)) (snd w) ws.

(** What a list of writes assigns at a position: the first write there. *)
Fixpoint written_by (row column : nat) (writes : list write)
  : option (Openpyxl.Cell -> Openpyxl.Cell) :=
  match writes with
  | [] => None
  | ((r, c), f) :: rest =>
      if (row =? r) && (column =? c) then Some f else written_by row column rest
  end.

(** The thirteen writes of [fill_tower_data], in the order of the code. *)
Definition tower_writes (strftime : date -> string -> string) (round2 : float -> float)
  (start_row : nat) (report : TowerReport) : list write :=
  let v := kpi_values report in
  let s := kpi_status report in
  [ ((start_row, 2), TemplateGenerator.set_value (Openpyxl.VStr (tower_id report)));
    ((start_row + 6, 1), TemplateGenerator.set_value (Openpyxl.VStr (tower_id report)));
    ((start_row + 3, 2),
     TemplateGenerator.set_value
       (Openpyxl.VStr (strftime (report_date report) "%d-%b-%y")));
    ((start_row + 9 - 1 + 0, 7), TemplateGenerator.result round2 (v_sgnb_add_success_rate v));
    ((start_row + 9 - 1 + 0, 8), TemplateGenerator.remark (sgnb_add_success_rate s));
    ((start_row + 9 - 1 + 1, 7), TemplateGenerator.result round2 (v_sgnb_drop_rate v));
    ((start_row + 9 - 1 + 1, 8), TemplateGenerator.remark (sgnb_drop_rate s));
    ((start_row + 9 - 1 + 2, 7), TemplateGenerator.result round2 (v_dl_user_throughput v));
    ((start_row + 9 - 1 + 2, 8), TemplateGenerator.remark (dl_user_throughput s));
    ((start_row + 9 - 1 + 3, 7), TemplateGenerator.result round2 (v_ul_user_throughput v));
    ((start_row + 9 - 1 + 3, 8), TemplateGenerator.remark (ul_user_throughput s));
    ((start_row + 9 - 1 + 4, 7), TemplateGenerator.result round2 (v_dl_spectrum_efficiency v));
    ((start_row + 9 - 1 + 4, 8), TemplateGenerator.remark (dl_spectrum_efficiency s)) ].

(** The reports of the date [d], in the order of the list. *)
Definition reports_of (d : date) (reports : list TowerReport) : list TowerReport :=
  filter (fun r => TemplateGenerator.date_eqb (report_date r) d) reports.

(** The groups, after the reports [done], hold each date once with the
    reports of that date. *)
Definition grouped_ok (done : list TowerReport) (grouped : list (date * list TowerReport))
  : Prop :=
  NoDup (map fst grouped) /\
  (forall k l, In (k, l) grouped -> l = reports_of k done /\ l <> []) /\
  (forall r, In r done -> In (report_date r) (map fst grouped)).

(** The idle row with other text in the columns no KPI reads. *)
Definition idle_row_renamed : ParsedRow :=
  mkParsedRow
    (map (fun i => if existsb (Nat.eqb i) ProcessingThread.numeric_cols
                   then CNum 0 else CStr "n/a") (seq 0 123))
    "SUM-SU-AKR-0011" (Some (mkdate 2026 1 6)).

(** A character a tower identifier is made of: a capital, a digit or the
    hyphen. *)
Definition id_char (c : ascii) : bool :=
  Re.upper c || Re.digit c || Re.chr "-" c.

(** * Verification *)

(** ** Facts on binary64 comparison *)

Lemma SFcompare_Eq_sym (a b : spec_float) :
  SFcompare a b = Some Eq -> SFcompare b a = Some Eq.
Proof.
  destruct a as [sa| sa | |sa ma ea], b as [sb|sb| |sb mb eb]; simpl;
    try discriminate; try reflexivity;
    try (destruct sa; discriminate); try (destruct sb; discriminate).
  - destruct sa, sb; intros H; try discriminate; reflexivity.
  - destruct sa, sb; try discriminate;
      destruct (Z.compare ea eb) eqn:He; try discriminate;
      apply Z.compare_eq_iff in He; subst eb; rewrite Z.compare_refl;
      destruct (Pos.compare_cont Eq ma mb) eqn:Hm; try discriminate;
      apply Pos.compare_eq in Hm; subst mb;
      fold (Pos.compare ma ma); rewrite Pos.compare_refl; reflexivity.
Qed.

(** [x == y] gives [x <= y] and [y <= x]. *)
Lemma float_eqb_leb (x y : float) :
  PrimFloat.eqb x y = true ->
  PrimFloat.leb x y = true /\ PrimFloat.leb y x = true.
Proof.
  rewrite eqb_spec, !leb_spec. unfold SFeqb, SFleb.
  destruct (SFcompare (Prim2SF x) (Prim2SF y)) as [[| |]|] eqn:H; try discriminate.
  intros _. rewrite (SFcompare_Eq_sym _ _ H). split; reflexivity.
Qed.

(** ** Safe division *)

(** C1.  [safe_divide(num, den, scale)] returns [None] exactly when
    [den == 0] or an operand is missing or not a number; in every other case
    both operands are numbers and the result is exactly the float
    [(num / den) * scale]. *)
Theorem safe_divide_none_iff (num den : option float) (scale : float) :
  (KPICalculator.safe_divide num den scale = None <->
   is_zero den = true \/ Py.isna num = true \/ Py.isna den = true) /\
  (KPICalculator.safe_divide num den scale <> None ->
   exists n dn, num = Some n /\ den = Some dn /\
     KPICalculator.safe_divide num den scale = Some (n / dn * scale)%float).
Proof.
  unfold KPICalculator.safe_divide.
  destruct num as [n|], den as [dn|]; simpl.
  - destruct (PrimFloat.is_nan n) eqn:Hn, (PrimFloat.is_nan dn) eqn:Hd,
      (PrimFloat.eqb dn 0) eqn:Hz; simpl; split;
      try (split; [auto | reflexivity]);
      try (intros H; exfalso; apply H; reflexivity).
    + split; [discriminate|]. intros [H|[H|H]]; discriminate.
    + intros _. exists n, dn. auto.
  - split; [split; auto | intros H; exfalso; apply H; reflexivity].
  - split; [split; auto | intros H; exfalso; apply H; reflexivity].
  - split; [split; auto | intros H; exfalso; apply H; reflexivity].
Qed.

(** ** Evaluation *)

(** C3.  A missing value is ["N/A"] whatever the direction; otherwise
    [">="] passes exactly when [value >= threshold] and ["<="] exactly when
    [value <= threshold], and fails in every other case; a value equal to
    the threshold passes in both directions. *)
Theorem evaluate_kpi_spec (threshold : float) :
  (forall direction, Evaluator.evaluate_kpi None threshold direction = "N/A") /\
  (forall v,
     Evaluator.evaluate_kpi (Some v) threshold ">=" =
       (if PrimFloat.leb threshold v then "PASS" else "FAIL") /\
     Evaluator.evaluate_kpi (Some v) threshold "<=" =
       (if PrimFloat.leb v threshold then "PASS" else "FAIL")) /\
  (forall v, PrimFloat.eqb v threshold = true ->
     Evaluator.evaluate_kpi (Some v) threshold ">=" = "PASS" /\
     Evaluator.evaluate_kpi (Some v) threshold "<=" = "PASS").
Proof.
  split; [reflexivity|]. split.
  - intros v. split; reflexivity.
  - intros v H. apply float_eqb_leb in H. destruct H as [H1 H2].
    simpl. rewrite H1, H2. split; reflexivity.
Qed.

(** C10.  Any [compare] other than [">="] is treated as ["<="]: a
    non-missing value passes exactly when [value <= threshold] and fails
    otherwise. *)
Theorem evaluate_kpi_other_compare (v threshold : float) (compare : string) :
  compare <> ">=" ->
  Evaluator.evaluate_kpi (Some v) threshold compare =
    Evaluator.evaluate_kpi (Some v) threshold "<=" /\
  (Evaluator.evaluate_kpi (Some v) threshold compare = "PASS" <->
     PrimFloat.leb v threshold = true) /\
  (Evaluator.evaluate_kpi (Some v) threshold compare = "FAIL" <->
     PrimFloat.leb v threshold = false).
Proof.
  intros H. unfold Evaluator.evaluate_kpi.
  destruct (String.eqb_spec compare ">=") as [E|_]; [contradiction|].
  simpl. destruct (PrimFloat.leb v threshold); repeat split; auto; discriminate.
Qed.

Lemma evaluate_kpi_other_compare_witness :
  Evaluator.evaluate_kpi (Some 7%float) 5%float "==" =
    Evaluator.evaluate_kpi (Some 7%float) 5%float "<=" /\
  (Evaluator.evaluate_kpi (Some 7%float) 5%float "==" = "PASS" <->
     PrimFloat.leb 7 5 = true) /\
  (Evaluator.evaluate_kpi (Some 7%float) 5%float "==" = "FAIL" <->
     PrimFloat.leb 7 5 = false).
Proof.
  apply (evaluate_kpi_other_compare 7 5 "=="). discriminate.
Defined.

(** The overall status of any five statuses. *)
Lemma overall_cases (status : KPIStatus) :
  (Evaluator.overall status = "FAIL" <->
     sgnb_add_success_rate status = "FAIL" \/ sgnb_drop_rate status = "FAIL" \/
     dl_user_throughput status = "FAIL" \/ ul_user_throughput status = "FAIL" \/
     dl_spectrum_efficiency status = "FAIL") /\
  (Evaluator.overall status <> "FAIL" -> Evaluator.overall status = "PASS").
Proof.
  destruct status as [s1 s2 s3 s4 s5].
  unfold Evaluator.overall, Evaluator.statuses, Py.str_in.
  cbn [existsb sgnb_add_success_rate sgnb_drop_rate dl_user_throughput
         ul_user_throughput dl_spectrum_efficiency].
  destruct (String.eqb_spec "FAIL" s1) as [E1|N1];
    [split; [split; auto | intros H; exfalso; apply H; reflexivity] |].
  destruct (String.eqb_spec "FAIL" s2) as [E2|N2];
    [split; [split; auto | intros H; exfalso; apply H; reflexivity] |].
  destruct (String.eqb_spec "FAIL" s3) as [E3|N3];
    [split; [split; auto | intros H; exfalso; apply H; reflexivity] |].
  destruct (String.eqb_spec "FAIL" s4) as [E4|N4];
    [split; [split; auto 6 | intros H; exfalso; apply H; reflexivity] |].
  destruct (String.eqb_spec "FAIL" s5) as [E5|N5];
    [split; [split; auto 6 | intros H; exfalso; apply H; reflexivity] |].
  simpl. split; [|reflexivity].
  split; [discriminate|].
  intros [H|[H|[H|[H|H]]]]; symmetry in H; contradiction.
Qed.

(** C2.  For the statuses [evaluate_all] computes, and for any five
    statuses, the overall status is ["FAIL"] exactly when one of the five is
    ["FAIL"], and ["PASS"] otherwise; five missing values give five ["N/A"]
    and overall ["PASS"]. *)
Theorem overall_fail_iff_some_fail (kv : KPIValues) :
  let status := fst (Evaluator.evaluate_all kv) in
  let overall := snd (Evaluator.evaluate_all kv) in
  (overall = "FAIL" <->
     sgnb_add_success_rate status = "FAIL" \/ sgnb_drop_rate status = "FAIL" \/
     dl_user_throughput status = "FAIL" \/ ul_user_throughput status = "FAIL" \/
     dl_spectrum_efficiency status = "FAIL") /\
  (overall <> "FAIL" -> overall = "PASS") /\
  (forall st : KPIStatus,
     (Evaluator.overall st = "FAIL" <->
        sgnb_add_success_rate st = "FAIL" \/ sgnb_drop_rate st = "FAIL" \/
        dl_user_throughput st = "FAIL" \/ ul_user_throughput st = "FAIL" \/
        dl_spectrum_efficiency st = "FAIL") /\
     (Evaluator.overall st <> "FAIL" -> Evaluator.overall st = "PASS")) /\
  Evaluator.evaluate_all (mkKPIValues None None None None None) =
    (mkKPIStatus "N/A" "N/A" "N/A" "N/A" "N/A", "PASS").
Proof.
  intros status overall.
  assert (E : overall = Evaluator.overall status) by reflexivity.
  rewrite E. destruct (overall_cases status) as [H1 H2].
  split; [exact H1|]. split; [exact H2|]. split; [exact overall_cases|reflexivity].
Qed.

(** ** Archive loader *)


Lemma filter_nil_iff {A : Type} (f : A -> bool) (l : list A) :
  filter f l = [] <-> (forall x, In x l -> f x = false).
Proof.
  induction l as [|a l IH]; simpl.
  - split; [intros _ x []| reflexivity].
  - destruct (f a) eqn:Ha.
    + split; [discriminate|]. intros H. specialize (H a (or_introl eq_refl)). congruence.
    + rewrite IH. split.
      * intros H x [<-|Hx]; auto.
      * intros H x Hx. apply H. right. exact Hx.
Qed.

Lemma substring_all (s : string) : substring 0 (String.length s) s = s.
Proof. induction s as [|c s IH]; simpl; [reflexivity|]. rewrite IH. reflexivity. Qed.

Lemma substring_append_suffix (p s : string) :
  substring (String.length p) (String.length s) (p ++ s) = s.
Proof.
  induction p as [|c p IH]; simpl.
  - apply substring_all.
  - exact IH.
Qed.

Lemma append_length (p s : string) :
  String.length (p ++ s) = String.length p + String.length s.
Proof. induction p as [|c p IH]; simpl; [reflexivity|]. rewrite IH. reflexivity. Qed.

Lemma substring_split (k : nat) (s : string) :
  k <= String.length s ->
  s = (substring 0 k s ++ substring k (String.length s - k) s)%string.
Proof.
  revert s. induction k as [|k IH]; intros s H.
  - rewrite Nat.sub_0_r, substring_all. destruct s; reflexivity.
  - destruct s as [|c s]; simpl in *; [lia|].
    rewrite <- IH by lia. reflexivity.
Qed.

(** [endswith] holds exactly of the texts that end with the suffix. *)
Lemma endswith_iff (s suffix : string) :
  Pandas.endswith s suffix = true <-> exists p, s = (p ++ suffix)%string.
Proof.
  unfold Pandas.endswith. rewrite andb_true_iff, Nat.leb_le, String.eqb_eq. split.
  - intros [Hle Hs]. exists (substring 0 (String.length s - String.length suffix) s).
    pose proof (substring_split (String.length s - String.length suffix) s) as H.
    replace (String.length s - (String.length s - String.length suffix))
      with (String.length suffix) in H by lia.
    rewrite Hs in H. apply H. lia.
  - intros [p ->]. rewrite append_length. split; [lia|].
    replace (String.length p + String.length suffix - String.length suffix)
      with (String.length p) by lia.
    apply substring_append_suffix.
Qed.

(** The eligible names: those that end with [.csv] and not with the reserved
    suffix. *)
Lemma eligible_iff (f : string) :
  DataLoader.eligible f = true <->
  (exists p, f = (p ++ ".csv")%string) /\
  ~ (exists p, f = (p ++ "_KPI(Counter).csv")%string).
Proof.
  unfold DataLoader.eligible.
  rewrite andb_true_iff, negb_true_iff, <- !endswith_iff.
  destruct (Pandas.endswith f "_KPI(Counter).csv"); intuition congruence.
Qed.

Lemma mapM_all_ok {A B : Type} (f : A -> Py.result B) (l : list A) :
  (forall x, In x l -> exists y, f x = Py.Ok y) ->
  exists ys, Py.mapM f l = Py.Ok ys /\ Forall2 (fun x y => f x = Py.Ok y) l ys.
Proof.
  induction l as [|x l IH]; intros H; simpl.
  - exists []. split; [reflexivity|constructor].
  - destruct (H x (or_introl eq_refl)) as [y Hy].
    destruct IH as [ys [Hys HF]]; [intros z Hz; apply H; right; exact Hz|].
    exists (y :: ys). rewrite Hy, Hys. split; [reflexivity|].
    constructor; assumption.
Qed.

Lemma mapM_raises {A B : Type} (f : A -> Py.result B) (l : list A) :
  (exists e, Py.mapM f l = Py.Raise e) <-> (exists x e, In x l /\ f x = Py.Raise e).
Proof.
  induction l as [|x l IH]; simpl.
  - split; [intros [e H]; discriminate|intros (x & e & [] & _)].
  - destruct (f x) as [y|e] eqn:Hx; cbn [Py.bind].
    + destruct (Py.mapM f l) as [ys|e'] eqn:Hl; cbn [Py.bind].
      * split; [intros [e H]; discriminate|].
        intros (z & e & [<-|Hz] & He); [congruence|].
        destruct (proj2 IH) as [e' He']; [exists z, e; split; assumption|discriminate].
      * split; [|intros _; eexists; reflexivity].
        intros _. destruct (proj1 IH) as (z & e & Hz & He); [eexists; reflexivity|].
        exists z, e. split; [right; exact Hz|exact He].
    + split; [|intros _; eexists; reflexivity].
      intros _. exists x, e. split; [left; reflexivity|exact Hx].
Qed.

(** *** Tables joined by the names of their columns *)

Lemma position_nth (name : string) (columns : list string) (j : nat) :
  Pandas.position name columns = Some j ->
  j < List.length columns /\ nth j columns "" = name.
Proof.
  revert j. induction columns as [|c columns IH]; intros j; simpl; [discriminate|].
  destruct (String.eqb_spec c name) as [->|Hne].
  - intros H. injection H as <-. split; [lia|reflexivity].
  - destruct (Pandas.position name columns) as [i|]; [|discriminate].
    intros H. injection H as <-. destruct (IH i eq_refl) as [Hlt Hn]. split; [lia|exact Hn].
Qed.

Lemma position_in (name : string) (columns : list string) :
  In name columns -> exists j, Pandas.position name columns = Some j.
Proof.
  induction columns as [|c columns IH]; intros H; [destruct H|]. simpl.
  destruct (String.eqb_spec c name) as [->|Hne]; [eexists; reflexivity|].
  destruct H as [E|H]; [contradiction|]. destruct (IH H) as [j ->]. eexists. reflexivity.
Qed.

(** Under a name, an aligned row holds the cell the row has under that name
    in its own table, and the missing marker if the table lacks the name. *)
Lemma cell_at_align (columns : list string) (df : Table) (r : row) (name : string)
  (j : nat) :
  Pandas.position name columns = Some j ->
  Pandas.cell_at j (Pandas.align columns df r) =
    match Pandas.position name (names df) with
    | Some i => Pandas.cell_at i r
    | None => CNum nan
    end.
Proof.
  intros H. apply position_nth in H. destruct H as [Hlt Hn].
  unfold Pandas.align.
  set (under := fun name => match Pandas.position name (names df) with
                            | Some i => Pandas.cell_at i r
                            | None => CNum nan
                            end).
  change (Pandas.cell_at j (map under columns) = under name).
  unfold Pandas.cell_at at 1.
  rewrite (nth_indep _ (CNum nan) (under ""%string)) by (rewrite length_map; exact Hlt).
  rewrite map_nth, Hn. reflexivity.
Qed.

Lemma add_name_in (columns : list string) (name x : string) :
  In x (Pandas.add_name columns name) <-> In x columns \/ x = name.
Proof.
  unfold Pandas.add_name, Pandas.has_name.
  destruct (existsb (String.eqb name) columns) eqn:E.
  - apply existsb_exists in E. destruct E as [y [Hy E]]. apply String.eqb_eq in E. subst y.
    split; [auto|]. intros [H| ->]; assumption.
  - rewrite in_app_iff. simpl. split; [intros [H|[<-|[]]]; auto|intros [H| ->]; auto].
Qed.

Lemma add_names_in (more columns : list string) (x : string) :
  In x (fold_left Pandas.add_name more columns) <-> In x columns \/ In x more.
Proof.
  revert columns. induction more as [|n more IH]; intros columns; simpl; [tauto|].
  rewrite IH, add_name_in. split; [intros [[H|H]|H]|intros [H|[H|H]]]; auto.
Qed.

Lemma union_names_in (dfs : list Table) (columns : list string) (x : string) :
  In x (fold_left (fun columns df => fold_left Pandas.add_name (names df) columns)
          dfs columns) <->
  In x columns \/ exists df, In df dfs /\ In x (names df).
Proof.
  revert columns. induction dfs as [|df dfs IH]; intros columns; simpl.
  - split; [auto|]. intros [H|(df & [] & _)]. exact H.
  - rewrite IH, add_names_in. split.
    + intros [[H|H]|(df' & Hdf & H)]; [auto| |].
      * right. exists df. split; [left; reflexivity|exact H].
      * right. exists df'. split; [right; exact Hdf|exact H].
    + intros [H|(df' & [<-|Hdf] & H)]; [auto|auto|].
      right. exists df'. split; assumption.
Qed.

Lemma add_names_known (more columns : list string) :
  (forall x, In x more -> In x columns) -> fold_left Pandas.add_name more columns = columns.
Proof.
  revert columns. induction more as [|n more IH]; intros columns H; simpl; [reflexivity|].
  assert (E : Pandas.add_name columns n = columns).
  { unfold Pandas.add_name, Pandas.has_name.
    assert (Hn : existsb (String.eqb n) columns = true).
    { apply existsb_exists. exists n. split; [apply H; left; reflexivity|apply String.eqb_refl]. }
    rewrite Hn. reflexivity. }
  rewrite E. apply IH. intros x Hx. apply H. right. exact Hx.
Qed.

Lemma add_names_fresh (more : list string) :
  NoDup more -> fold_left Pandas.add_name more [] = more.
Proof.
  assert (G : forall columns, NoDup (columns ++ more) ->
                fold_left Pandas.add_name more columns = (columns ++ more)%list).
  { induction more as [|n more IH]; intros columns H; simpl; [rewrite app_nil_r; reflexivity|].
    assert (E : Pandas.add_name columns n = (columns ++ [n])%list).
    { unfold Pandas.add_name, Pandas.has_name.
      destruct (existsb (String.eqb n) columns) eqn:Hn; [|reflexivity].
      apply existsb_exists in Hn. destruct Hn as [y [Hy Hn]]. apply String.eqb_eq in Hn. subst y.
      apply NoDup_remove_2 in H. exfalso. apply H. apply in_or_app. left. exact Hy. }
    rewrite E, IH; rewrite <- app_assoc; [reflexivity|exact H]. }
  intros H. exact (G [] H).
Qed.

(** A row laid out under the header of its own table is the row itself. *)
Lemma align_own_header (df : Table) (r : row) :
  NoDup (names df) -> List.length r = List.length (names df) ->
  Pandas.align (names df) df r = r.
Proof.
  destruct df as [header rs]. cbn [names]. intros Hnd. unfold Pandas.align. cbn [names].
  revert r.
  induction header as [|n h IH]; intros [|c r] Hlen; simpl in Hlen; try lia; [reflexivity|].
  inversion Hnd as [|? ? Hnotin Hnd']; subst.
  cbn [map Pandas.position]. rewrite String.eqb_refl. cbn [Pandas.cell_at nth].
  f_equal. etransitivity; [|apply (IH Hnd' r); lia].
  apply map_ext_in. intros name Hin.
  destruct (String.eqb_spec n name) as [->|Hne]; [contradiction|].
  destruct (Pandas.position name h); reflexivity.
Qed.

(** C7, as stated, fails: this archive has an eligible member, a tabular one
    even, and [load_from_zip] raises, on the eligible member before it that
    [read_csv] cannot read. *)
Lemma load_from_zip_unreadable_counterexample :
  let zip_ref :=
    [ DataLoader.mkmember "a.csv" (Py.Raise (Py.ValueError "No columns to parse from file"));
      DataLoader.mkmember "b.csv" (Py.Ok {| names := ["Begin Time"]; body := [[CStr "1/6/2026"]] |}) ] in
  (exists m t, In m zip_ref /\ DataLoader.eligible (DataLoader.name m) = true /\
               DataLoader.read_csv m = Py.Ok t) /\
  DataLoader.load_from_zip zip_ref = Py.Raise (Py.ValueError "No columns to parse from file").
Proof.
  cbv zeta. split; [|reflexivity].
  eexists _, _. split; [right; left; reflexivity|]. split; reflexivity.
Qed.

(** C7, amended.  Without an eligible member [load_from_zip] raises its
    [ValueError]; so does an archive whose only member is
    [X_KPI(Counter).csv]; the eligible names are those that end with [.csv]
    and not with [_KPI(Counter).csv].  It raises exactly when there is no
    eligible member or [read_csv] fails on an eligible member.  Otherwise it
    returns a table whose columns are the names of the members' headers and
    whose rows are the rows of the eligible members, member after member in
    archive order, each row holding under a name the cell it had under that
    name and the missing marker under a name its member lacks; when the
    members have one header, the rows are the members' rows as they are. *)
Theorem load_from_zip_raises_iff (zip_ref : DataLoader.archive) :
  let csv_files := filter (fun m => DataLoader.eligible (DataLoader.name m)) zip_ref in
  ((forall m, In m zip_ref -> DataLoader.eligible (DataLoader.name m) = false) ->
   DataLoader.load_from_zip zip_ref =
     Py.Raise (Py.ValueError "No valid CSV files found in ZIP archive")) /\
  (forall content, DataLoader.load_from_zip [DataLoader.mkmember "X_KPI(Counter).csv" content] =
     Py.Raise (Py.ValueError "No valid CSV files found in ZIP archive")) /\
  (forall f, DataLoader.eligible f = true <->
     (exists p, f = (p ++ ".csv")%string) /\
     ~ (exists p, f = (p ++ "_KPI(Counter).csv")%string)) /\
  ((exists e, DataLoader.load_from_zip zip_ref = Py.Raise e) <->
   (forall m, In m zip_ref -> DataLoader.eligible (DataLoader.name m) = false) \/
   (exists m e, In m zip_ref /\ DataLoader.eligible (DataLoader.name m) = true /\
                DataLoader.read_csv m = Py.Raise e)) /\
  (forall tables,
     csv_files <> [] ->
     Forall2 (fun m t => DataLoader.read_csv m = Py.Ok t) csv_files tables ->
     let columns := Pandas.union_names tables in
     exists chunks,
       DataLoader.load_from_zip zip_ref =
         Py.Ok {| ncols := List.length columns; rows := List.concat chunks |} /\
       (forall name, In name columns <-> exists t, In t tables /\ In name (names t)) /\
       Forall2 (fun t chunk =>
                  Forall2 (fun r r' =>
                             List.length r' = List.length columns /\
                             forall name j, Pandas.position name columns = Some j ->
                               Pandas.cell_at j r' =
                                 match Pandas.position name (names t) with
                                 | Some i => Pandas.cell_at i r
                                 | None => CNum nan
                                 end)
                    (body t) chunk)
         tables chunks /\
       (forall header,
          NoDup header ->
          Forall (fun t => names t = header /\
                           Forall (fun r => List.length r = List.length header) (body t))
            tables ->
          columns = header /\ List.concat chunks = flat_map body tables)).
Proof.
  intros csv_files. unfold DataLoader.load_from_zip. fold csv_files.
  pose proof (filter_nil_iff (fun m => DataLoader.eligible (DataLoader.name m)) zip_ref) as Hnil.
  fold csv_files in Hnil.
  assert (Hin : forall m, In m csv_files <->
                  In m zip_ref /\ DataLoader.eligible (DataLoader.name m) = true)
    by (intros m; apply filter_In).
  clearbody csv_files.
  split; [|split; [|split; [|split]]].
  - intros H. apply Hnil in H. rewrite H. reflexivity.
  - intros content. reflexivity.
  - exact eligible_iff.
  - assert (Hm : (exists e, Py.mapM DataLoader.read_csv csv_files = Py.Raise e) <->
                 (exists m e, In m zip_ref /\ DataLoader.eligible (DataLoader.name m) = true /\
                              DataLoader.read_csv m = Py.Raise e)).
    { rewrite mapM_raises.
      split; intros (m & e & H1 & H2); exists m, e.
      - apply Hin in H1. tauto.
      - split; [apply Hin; tauto|tauto]. }
    destruct csv_files as [|m0 ms].
    + split; [intros _; left; apply Hnil; reflexivity|intros _; eexists; reflexivity].
    + split.
      * intros [e He]. right. apply Hm.
        destruct (Py.mapM DataLoader.read_csv (m0 :: ms)) as [dfs|e'];
          [discriminate|eexists; reflexivity].
      * intros [H|H].
        -- apply Hnil in H. discriminate.
        -- apply Hm in H. destruct H as [e ->]. eexists. reflexivity.
  - intros tables Hne HF. set (columns := Pandas.union_names tables).
    assert (Hread : Py.mapM DataLoader.read_csv csv_files = Py.Ok tables).
    { clear Hne Hnil Hin. induction HF as [|m t ms ts Hmt _ IH]; [reflexivity|].
      simpl. rewrite Hmt, IH. reflexivity. }
    assert (Hts : tables <> []).
    { intros E. rewrite E in HF. inversion HF. subst. contradiction. }
    destruct csv_files as [|m0 ms]; [contradiction|].
    rewrite Hread. cbn [Py.bind]. clear Hne Hnil Hin Hread HF.
    exists (map (fun t => map (Pandas.align columns t) (body t)) tables).
    split; [|split; [|split]].
    + unfold Pandas.concat. fold columns. rewrite flat_map_concat_map. reflexivity.
    + intros name. unfold columns, Pandas.union_names. rewrite union_names_in.
      split; [intros [[]|H]; exact H|intros H; right; exact H].
    + clear Hts. generalize columns. intros cols.
      induction tables as [|t tables IH]; constructor; [|exact IH].
      induction (body t) as [|r rs IHr]; constructor; [|exact IHr].
      split; [unfold Pandas.align; apply length_map|].
      intros name j Hj. apply cell_at_align. exact Hj.
    + intros header Hnd Hall.
      assert (Hcols : columns = header).
      { unfold columns, Pandas.union_names.
        destruct tables as [|t ts]; [contradiction|].
        inversion Hall as [|? ? [Ht _] Hrest]; subst.
        cbn [fold_left]. rewrite add_names_fresh by exact Hnd.
        clear Hall Hts. induction ts as [|t' ts IH]; [reflexivity|].
        inversion Hrest as [|? ? [Ht' _] Hrest']; subst. cbn [fold_left].
        rewrite add_names_known by (rewrite Ht'; auto). apply IH. exact Hrest'. }
      split; [exact Hcols|]. rewrite Hcols. rewrite <- flat_map_concat_map.
      clear Hts Hcols. induction Hall as [|t ts [Ht Hrows] _ IH]; [reflexivity|].
      cbn [flat_map]. rewrite IH. f_equal.
      induction Hrows as [|r rs Hr _ IHr]; [reflexivity|].
      cbn [map]. rewrite IHr. f_equal. rewrite <- Ht in Hnd, Hr |- *.
      apply align_own_header; assumption.
Qed.

(** ** Field normalizer *)

Lemma map_at_length (i : nat) (f : cell -> cell) (r : row) :
  List.length (Pandas.map_at i f r) = List.length r.
Proof.
  revert i. induction r as [|c r IH]; intros [|i]; simpl; auto.
Qed.

Lemma cell_at_map_at_same (i : nat) (f : cell -> cell) (r : row) :
  i < List.length r ->
  Pandas.cell_at i (Pandas.map_at i f r) = f (Pandas.cell_at i r).
Proof.
  unfold Pandas.cell_at. revert i.
  induction r as [|c r IH]; intros [|i] H; simpl in *; try lia; auto.
  apply IH. lia.
Qed.

Lemma map_at_short (i : nat) (f : cell -> cell) (r : row) :
  List.length r <= i -> Pandas.map_at i f r = r.
Proof.
  revert i. induction r as [|c r IH]; intros [|i] H; simpl in *; try lia; auto.
  f_equal. apply IH. lia.
Qed.

Lemma cell_at_map_at_other (i j : nat) (f : cell -> cell) (r : row) :
  i <> j -> Pandas.cell_at i (Pandas.map_at j f r) = Pandas.cell_at i r.
Proof.
  unfold Pandas.cell_at. revert i j.
  induction r as [|c r IH]; intros [|i] [|j] H; simpl; auto; try congruence.
Qed.

Section Cleaner.

Variable str_of_float : float -> string.
Variable to_numeric : string -> option float.

Local Abbreviation clean_cell := (DataCleaner.clean_cell str_of_float to_numeric).
Local Abbreviation clean_column := (DataCleaner.clean_column str_of_float to_numeric).
Local Abbreviation clean_dataframe := (DataCleaner.clean_dataframe str_of_float to_numeric).

Lemma coerce_cell_num (c : cell) : is_num (DataCleaner.coerce_cell to_numeric c).
Proof.
  destruct c as [s|x|]; simpl; [destruct (to_numeric s)| |]; eexists; reflexivity.
Qed.

Lemma clean_column_ncols (df : DataFrame) (j : nat) :
  ncols (clean_column df j) = ncols df.
Proof.
  unfold DataCleaner.clean_column. destruct (j <? ncols df); reflexivity.
Qed.

Lemma clean_dataframe_ncols (cols : list nat) (df : DataFrame) :
  ncols (clean_dataframe df cols) = ncols df.
Proof.
  unfold DataCleaner.clean_dataframe. revert df.
  induction cols as [|j cols IH]; intros df; simpl; [reflexivity|].
  rewrite IH. apply clean_column_ncols.
Qed.

(** The rows of the table after one turn of the loop. *)
Lemma clean_column_rows (df : DataFrame) (j : nat) :
  rows (clean_column df j) =
    if j <? ncols df
    then map (fun r => Pandas.map_at j (DataCleaner.coerce_cell to_numeric)
                         (Pandas.map_at j (DataCleaner.strip_cell str_of_float) r))
           (rows df)
    else rows df.
Proof.
  unfold DataCleaner.clean_column. destruct (j <? ncols df); [|reflexivity].
  unfold Pandas.set_column. cbn [rows]. apply map_map.
Qed.

Lemma cell_at_num_default (i : nat) (r : row) :
  List.length r <= i -> is_num (Pandas.cell_at i r).
Proof.
  intros H. unfold Pandas.cell_at. rewrite nth_overflow by exact H.
  eexists. reflexivity.
Qed.

(** A turn of the loop on column [i] leaves floats in column [i]. *)
Lemma clean_column_num (df : DataFrame) (i : nat) :
  i < ncols df ->
  Forall (fun r => is_num (Pandas.cell_at i r)) (rows (clean_column df i)).
Proof.
  intros Hi. rewrite clean_column_rows.
  apply Nat.ltb_lt in Hi. rewrite Hi.
  apply Forall_forall. intros r' Hr'. apply in_map_iff in Hr'.
  destruct Hr' as [r [<- _]].
  destruct (Nat.lt_ge_cases i (List.length r)) as [Hlt|Hge].
  - rewrite cell_at_map_at_same by (rewrite map_at_length; exact Hlt).
    apply coerce_cell_num.
  - apply cell_at_num_default. rewrite !map_at_length. exact Hge.
Qed.

(** A turn of the loop on any column keeps floats in column [i]. *)
Lemma clean_column_keeps_num (df : DataFrame) (i j : nat) :
  Forall (fun r => is_num (Pandas.cell_at i r)) (rows df) ->
  Forall (fun r => is_num (Pandas.cell_at i r)) (rows (clean_column df j)).
Proof.
  intros H. destruct (Nat.eq_dec j i) as [->|Hji].
  - destruct (Nat.lt_ge_cases i (ncols df)) as [Hlt|Hge].
    + apply clean_column_num. exact Hlt.
    + rewrite clean_column_rows. apply Nat.ltb_ge in Hge. rewrite Hge. exact H.
  - rewrite clean_column_rows. destruct (j <? ncols df); [|exact H].
    apply Forall_forall. intros r' Hr'. apply in_map_iff in Hr'.
    destruct Hr' as [r [<- Hr]].
    rewrite !cell_at_map_at_other by congruence.
    rewrite Forall_forall in H. apply H. exact Hr.
Qed.

Lemma clean_dataframe_keeps_num (cols : list nat) (df : DataFrame) (i : nat) :
  Forall (fun r => is_num (Pandas.cell_at i r)) (rows df) ->
  Forall (fun r => is_num (Pandas.cell_at i r)) (rows (clean_dataframe df cols)).
Proof.
  unfold DataCleaner.clean_dataframe. revert df.
  induction cols as [|j cols IH]; intros df H; simpl; [exact H|].
  apply IH. apply clean_column_keeps_num. exact H.
Qed.

Lemma clean_dataframe_num (cols : list nat) (df : DataFrame) (i : nat) :
  In i cols -> i < ncols df ->
  Forall (fun r => is_num (Pandas.cell_at i r)) (rows (clean_dataframe df cols)).
Proof.
  revert df. induction cols as [|j cols IH]; intros df Hin Hi; [destruct Hin|].
  destruct (Nat.eq_dec j i) as [->|Hji].
  - change (clean_dataframe df (i :: cols))
      with (clean_dataframe (clean_column df i) cols).
    apply clean_dataframe_keeps_num. apply clean_column_num. exact Hi.
  - destruct Hin as [E|Hin]; [congruence|].
    change (clean_dataframe df (j :: cols))
      with (clean_dataframe (clean_column df j) cols).
    apply IH; [exact Hin|]. rewrite clean_column_ncols. exact Hi.
Qed.

(** A turn of the loop on another column leaves column [i] as it was. *)
Lemma clean_column_other (df : DataFrame) (i j : nat) :
  i <> j ->
  map (Pandas.cell_at i) (rows (clean_column df j)) = map (Pandas.cell_at i) (rows df).
Proof.
  intros H. rewrite clean_column_rows. destruct (j <? ncols df); [|reflexivity].
  rewrite map_map. apply map_ext. intros r.
  rewrite !cell_at_map_at_other by exact H. reflexivity.
Qed.

Lemma clean_dataframe_other (cols : list nat) (df : DataFrame) (i : nat) :
  ~ In i cols ->
  map (Pandas.cell_at i) (rows (clean_dataframe df cols)) = map (Pandas.cell_at i) (rows df).
Proof.
  unfold DataCleaner.clean_dataframe. revert df.
  induction cols as [|j cols IH]; intros df H; simpl; [reflexivity|].
  rewrite IH by (intros Hi; apply H; right; exact Hi).
  apply clean_column_other. intros ->. apply H. left. reflexivity.
Qed.

Lemma clean_column_same (df : DataFrame) (i : nat) :
  i < ncols df ->
  Forall (fun r => i < List.length r) (rows df) ->
  map (Pandas.cell_at i) (rows (clean_column df i)) =
    map (fun r => clean_cell (Pandas.cell_at i r)) (rows df).
Proof.
  intros Hi Hlen. rewrite clean_column_rows.
  apply Nat.ltb_lt in Hi. rewrite Hi. rewrite map_map.
  apply map_ext_in. intros r Hr. rewrite Forall_forall in Hlen.
  rewrite cell_at_map_at_same by (rewrite map_at_length; auto).
  rewrite cell_at_map_at_same by auto. reflexivity.
Qed.

Lemma clean_column_lengths (df : DataFrame) (i j : nat) :
  Forall (fun r => i < List.length r) (rows df) ->
  Forall (fun r => i < List.length r) (rows (clean_column df j)).
Proof.
  intros H. rewrite clean_column_rows. destruct (j <? ncols df); [|exact H].
  apply Forall_forall. intros r' Hr'. apply in_map_iff in Hr'.
  destruct Hr' as [r [<- Hr]]. rewrite !map_at_length.
  rewrite Forall_forall in H. auto.
Qed.

(** Column [i], listed once, holds the cleaned cells of the column it was. *)
Lemma clean_dataframe_same (cols : list nat) (df : DataFrame) (i : nat) :
  NoDup cols -> In i cols -> i < ncols df ->
  Forall (fun r => i < List.length r) (rows df) ->
  map (Pandas.cell_at i) (rows (clean_dataframe df cols)) =
    map (fun r => clean_cell (Pandas.cell_at i r)) (rows df).
Proof.
  revert df. induction cols as [|j cols IH]; intros df Hnd Hin Hi Hlen; [destruct Hin|].
  inversion Hnd as [|? ? Hnotin Hnd']; subst.
  change (clean_dataframe df (j :: cols))
    with (clean_dataframe (clean_column df j) cols).
  destruct (Nat.eq_dec j i) as [->|Hji].
  - rewrite clean_dataframe_other by exact Hnotin.
    apply clean_column_same; assumption.
  - destruct Hin as [E|Hin]; [congruence|].
    rewrite IH; try assumption.
    + rewrite <- !(map_map (Pandas.cell_at i) clean_cell).
      f_equal. apply clean_column_other. congruence.
    + rewrite clean_column_ncols. exact Hi.
    + apply clean_column_lengths. exact Hlen.
Qed.

End Cleaner.

(** C9, as stated, fails: the text [inf] holds no [%] and no [,] and is read
    as the float infinity, which is neither finite nor the missing marker. *)
Lemma clean_dataframe_inf_counterexample :
  (forall str_of_float,
     Pandas.iloc 0
       (DataCleaner.clean_dataframe str_of_float to_numeric_words
          {| ncols := 1; rows := [[CStr "inf"]] |} [0]) =
     Py.Ok [CNum infinity]) /\
  finite_or_missing (CNum infinity) = false.
Proof.
  split; [intros sof|]; reflexivity.
Qed.

(** C9, amended.  After [clean_dataframe], every cell of a designated
    in-range column holds a float (a number, finite or infinite, or the
    missing marker [nan]) and never text; a column designated once holds,
    row by row, the cleaned cell of the cell it held; and cleaning a cell
    never raises: text that is empty once [%] and [,] are removed, and text
    [to_numeric] cannot read, become the missing marker. *)
Theorem clean_dataframe_numeric
  (str_of_float : float -> string) (to_numeric : string -> option float)
  (df : DataFrame) (numeric_columns : list nat) (i : nat) :
  In i numeric_columns -> i < ncols df ->
  (exists col,
     Pandas.iloc i (DataCleaner.clean_dataframe str_of_float to_numeric df numeric_columns)
       = Py.Ok col /\
     Forall is_num col) /\
  (NoDup numeric_columns -> Forall (fun r => i < List.length r) (rows df) ->
   map (Pandas.cell_at i)
     (rows (DataCleaner.clean_dataframe str_of_float to_numeric df numeric_columns)) =
   map (fun r => DataCleaner.clean_cell str_of_float to_numeric (Pandas.cell_at i r))
     (rows df)) /\
  (forall c,
     is_num (DataCleaner.clean_cell str_of_float to_numeric c) /\
     (DataCleaner.strip_cell str_of_float c = CNone ->
      DataCleaner.clean_cell str_of_float to_numeric c = CNum nan) /\
     (forall s, DataCleaner.strip_cell str_of_float c = CStr s ->
        to_numeric s = None ->
        DataCleaner.clean_cell str_of_float to_numeric c = CNum nan)).
Proof.
  intros Hin Hi. split; [|split].
  - unfold Pandas.iloc. rewrite clean_dataframe_ncols.
    apply Nat.ltb_lt in Hi. rewrite Hi. eexists. split; [reflexivity|].
    apply Forall_map. apply clean_dataframe_num; [exact Hin|].
    apply Nat.ltb_lt. exact Hi.
  - intros Hnd Hlen. apply clean_dataframe_same; assumption.
  - intros c. unfold DataCleaner.clean_cell. split; [apply coerce_cell_num|]. split.
    + intros ->. reflexivity.
    + intros s -> Hs. simpl. rewrite Hs. reflexivity.
Qed.

Lemma clean_dataframe_numeric_witness :
  exists col,
    Pandas.iloc 1
      (DataCleaner.clean_dataframe (fun _ => "nan") to_numeric_words
         {| ncols := 2; rows := [[CStr "a"; CStr "1,5%"]; [CStr "b"; CStr "%"]] |} [1])
      = Py.Ok col /\
    Forall is_num col.
Proof.
  apply (clean_dataframe_numeric (fun _ => "nan") to_numeric_words
           {| ncols := 2; rows := [[CStr "a"; CStr "1,5%"]; [CStr "b"; CStr "%"]] |}
           [1] 1).
  - simpl. left. reflexivity.
  - simpl. lia.
Defined.

(** ** Date parsing *)

Section ParseDate.

Variable str_of_float : float -> string.
Variable strptime : string -> string -> Py.result datetime.
Variable to_datetime : cell -> Py.result (option date).

Local Abbreviation try_formats := (DataParser.try_formats strptime).
Local Abbreviation parse_date := (DataParser.parse_date str_of_float strptime to_datetime).
Local Abbreviation rejects := (rejects strptime).

Lemma try_formats_all_rejected (s : string) (fmts : list string) :
  (forall fmt, In fmt fmts -> rejects s fmt) ->
  try_formats s fmts = Py.Ok None.
Proof.
  induction fmts as [|fmt fmts IH]; intros H; simpl; [reflexivity|].
  destruct (H fmt (or_introl eq_refl)) as [msg ->].
  apply IH. intros f Hf. apply H. right. exact Hf.
Qed.

Lemma try_formats_first_accepted (s : string) (before after : list string)
  (fmt : string) (dt : datetime) :
  (forall f, In f before -> rejects s f) ->
  strptime s fmt = Py.Ok dt ->
  try_formats s (before ++ fmt :: after) = Py.Ok (Some (dt_date dt)).
Proof.
  induction before as [|f before IH]; intros H Hfmt; simpl.
  - rewrite Hfmt. reflexivity.
  - destruct (H f (or_introl eq_refl)) as [msg ->].
    apply IH; [|exact Hfmt]. intros g Hg. apply H. right. exact Hg.
Qed.

Lemma parse_date_total (c : cell) : exists dd, parse_date c = Py.Ok dd.
Proof.
  unfold DataParser.parse_date, Py.try_except_all.
  match goal with |- exists dd, match ?m with _ => _ end = _ => destruct m as [dd|e] end;
    eexists; reflexivity.
Qed.

End ParseDate.

Lemma strptime_only_ValueError (s fmt : string) (e : Py.exn) :
  Strptime.strptime s fmt = Py.Raise e -> exists msg, e = Py.ValueError msg.
Proof.
  unfold Strptime.strptime.
  destruct (Strptime.compile _) as [items|]; [|intros H; injection H as <-; eauto].
  destruct (Strptime.match_items _ _) as [|[found rest] ms];
    [intros H; injection H as <-; eauto|].
  destruct rest; [|intros H; injection H as <-; eauto].
  destruct (Strptime.valid _); [discriminate|].
  intros H; injection H as <-; eauto.
Qed.

(** C6.  [parse_date] never raises: on every input it returns a date or
    [NaT].  The formats are tried in the order month/day/year hour:minute,
    month/day/year, year-month-day hour:minute:second, year-month-day: the
    first one [strptime] accepts, those before it being rejected, gives the
    date of its parse, the time of day dropped.  When all four are rejected
    the generic parse decides: what it returns is returned, a date or
    [NaT], and when it raises the result is 2026-01-01.  So the fallback
    covers the exceptions of the generic parse and not its [NaT], which is
    the only way to a result that is no date.  The last part runs the four
    formats and a text none of them accepts through the [strptime] of this
    development, and then the three missing values, which pandas reads as
    [NaT]: on the empty text, on the text [nan] and on the missing number
    [parse_date] returns [NaT], neither a date nor 2026-01-01. *)
Theorem parse_date_never_raises
  (str_of_float : float -> string) (strptime : string -> string -> Py.result datetime)
  (to_datetime : cell -> Py.result (option date)) (s : string) :
  let parse_date := DataParser.parse_date str_of_float strptime to_datetime in
  (forall c, exists dd, parse_date c = Py.Ok dd) /\
  DataParser.FORMATS = ["%m/%d/%Y %H:%M"; "%m/%d/%Y"; "%Y-%m-%d %H:%M:%S"; "%Y-%m-%d"] /\
  (forall (before : list string) fmt after dt,
     DataParser.FORMATS = (before ++ fmt :: after)%list ->
     (forall f, In f before -> rejects strptime s f) ->
     strptime s fmt = Py.Ok dt ->
     parse_date (CStr s) = Py.Ok (Some (dt_date dt))) /\
  ((forall fmt, In fmt DataParser.FORMATS -> rejects strptime s fmt) ->
   (forall dd, to_datetime (CStr s) = Py.Ok dd -> parse_date (CStr s) = Py.Ok dd) /\
   (forall e, to_datetime (CStr s) = Py.Raise e ->
      parse_date (CStr s) = Py.Ok (Some {| year := 2026; month := 1; day := 1 |}))) /\
  (forall c, parse_date c = Py.Ok None -> to_datetime c = Py.Ok None) /\
  (let parse := DataParser.parse_date (fun _ => "nan") Strptime.strptime
                  to_datetime_missing in
   parse (CStr "1/6/2026 0:00") = Py.Ok (Some {| year := 2026; month := 1; day := 6 |}) /\
   parse (CStr "1/6/2026") = Py.Ok (Some {| year := 2026; month := 1; day := 6 |}) /\
   parse (CStr "2026-01-06 00:00:00") =
     Py.Ok (Some {| year := 2026; month := 1; day := 6 |}) /\
   parse (CStr "2026-01-06") = Py.Ok (Some {| year := 2026; month := 1; day := 6 |}) /\
   parse (CStr "not a date") = Py.Ok (Some {| year := 2026; month := 1; day := 1 |}) /\
   parse (CStr "") = Py.Ok None /\
   parse (CStr "nan") = Py.Ok None /\
   parse (CNum nan) = Py.Ok None).
Proof.
  intros parse_date. subst parse_date.
  split; [intros c; apply parse_date_total|].
  split; [reflexivity|]. split; [|split; [|split]].
  - intros before fmt after dt HF Hrej Hok.
    unfold DataParser.parse_date. cbn [DataCleaner.py_str]. rewrite HF.
    rewrite (try_formats_first_accepted strptime s before after fmt dt Hrej Hok).
    reflexivity.
  - intros Hrej. unfold DataParser.parse_date. cbn [DataCleaner.py_str].
    rewrite (try_formats_all_rejected strptime s _ Hrej). cbn [Py.bind].
    split.
    + intros dd ->. reflexivity.
    + intros e ->. reflexivity.
  - intros c. unfold DataParser.parse_date, Py.try_except_all.
    destruct (DataParser.try_formats strptime (DataCleaner.py_str str_of_float c)
                DataParser.FORMATS) as [[dd|]|e]; cbn [Py.bind]; try discriminate.
    destruct (to_datetime c) as [[dd|]|e]; try discriminate. reflexivity.
  - repeat split; vm_compute; reflexivity.
Qed.

(** ** Site-identifier extraction *)

Lemma many1_pos (p : ascii -> bool) (s : list ascii) (n : nat) :
  In n (Re.many1 p s) -> 1 <= n.
Proof.
  revert n. induction s as [|c s IH]; intros n; simpl; [intros []|].
  destruct (p c); [|intros []].
  rewrite in_app_iff, in_map_iff. intros [[k [<- _]]|[<-|[]]]; lia.
Qed.

Lemma filter_le_map_S (k : nat) (l : list nat) :
  filter (fun n => n <=? S k) (map S l) = map S (filter (fun n => n <=? k) l).
Proof.
  induction l as [|a l IH]; simpl; [reflexivity|].
  change (S a <=? S k) with (a <=? k).
  destruct (a <=? k); simpl; rewrite IH; reflexivity.
Qed.

Lemma filter_le_map_add (a k : nat) (l : list nat) :
  a <= k ->
  filter (fun n => n <=? k) (map (Nat.add a) l) =
    map (Nat.add a) (filter (fun n => n <=? k - a) l).
Proof.
  intros Ha. induction l as [|x l IH]; simpl; [reflexivity|].
  destruct (Nat.leb_spec (a + x) k), (Nat.leb_spec x (k - a)); try lia;
    simpl; rewrite IH; reflexivity.
Qed.

Lemma filter_le_map_add_gt (a k : nat) (l : list nat) :
  k < a -> filter (fun n => n <=? k) (map (Nat.add a) l) = [].
Proof.
  intros Ha. induction l as [|x l IH]; simpl; [reflexivity|].
  destruct (Nat.leb_spec (a + x) k); [lia|exact IH].
Qed.

Lemma filter_none {A : Type} (f : A -> bool) (l : list A) :
  (forall x, In x l -> f x = false) -> filter f l = [].
Proof. apply filter_nil_iff. Qed.

(** The matches of [r] on a prefix [m] of a text are the matches on the text
    that end inside [m], in the same order. *)
Lemma rmatch_prefix (r : Re.regex) (m t : list ascii) :
  Re.rmatch r m = filter (fun n => n <=? List.length m) (Re.rmatch r (m ++ t)).
Proof.
  revert m t. induction r as [p|p|r1 IH1 r2 IH2|r1 IH1 r2 IH2]; intros m t.
  - destruct m as [|c m]; simpl.
    + destruct t as [|c t]; [reflexivity|]. destruct (p c); reflexivity.
    + destruct (p c); reflexivity.
  - cbn [Re.rmatch]. induction m as [|c m IHm].
    + simpl. symmetry. apply filter_none. intros n Hn.
      apply many1_pos in Hn. apply Nat.leb_gt. lia.
    + simpl. destruct (p c); [|reflexivity].
      rewrite filter_app, filter_le_map_S, <- IHm. reflexivity.
  - cbn [Re.rmatch]. rewrite (IH1 m t).
    induction (Re.rmatch r1 (m ++ t)) as [|a l IHl]; [reflexivity|].
    cbn [flat_map filter]. rewrite filter_app, <- IHl.
    destruct (Nat.leb_spec a (List.length m)) as [Ha|Ha].
    + cbn [flat_map]. f_equal.
      rewrite filter_le_map_add by exact Ha. f_equal.
      rewrite (IH2 (skipn a m) t), length_skipn, skipn_app.
      replace (a - List.length m) with 0 by lia. reflexivity.
    + rewrite filter_le_map_add_gt by exact Ha. reflexivity.
  - cbn [Re.rmatch]. rewrite filter_app, <- IH1, <- IH2. reflexivity.
Qed.

Lemma rmatch_le (r : Re.regex) (s : list ascii) (n : nat) :
  In n (Re.rmatch r s) -> n <= List.length s.
Proof.
  revert s n. induction r as [p|p|r1 IH1 r2 IH2|r1 IH1 r2 IH2]; intros s n.
  - destruct s as [|c s]; simpl; [intros []|].
    destruct (p c); [intros [<-|[]]; lia|intros []].
  - cbn [Re.rmatch]. revert n. induction s as [|c s IHs]; intros n; simpl; [intros []|].
    destruct (p c); [|intros []].
    rewrite in_app_iff, in_map_iff. intros [[k [<- Hk]]|[<-|[]]]; [|lia].
    apply IHs in Hk. lia.
  - cbn [Re.rmatch]. rewrite in_flat_map. intros [n1 [H1 H2]].
    apply in_map_iff in H2. destruct H2 as [n2 [<- H2]].
    apply IH1 in H1. apply IH2 in H2. rewrite length_skipn in H2. lia.
  - cbn [Re.rmatch]. rewrite in_app_iff. intros [H|H]; auto.
Qed.

(** The match [re.match] finds is again what it finds on the matched text. *)
Lemma re_match_on_match (r : Re.regex) (s : list ascii) (n : nat) :
  Re.re_match r s = Some n -> Re.re_match r (firstn n s) = Some n.
Proof.
  unfold Re.re_match. intros H.
  assert (Hle : n <= List.length s).
  { apply (rmatch_le r). destruct (Re.rmatch r s); [discriminate|].
    injection H as ->. left. reflexivity. }
  rewrite (rmatch_prefix r (firstn n s) (skipn n s)), firstn_skipn.
  rewrite length_firstn, Nat.min_l by exact Hle.
  destruct (Re.rmatch r s) as [|a l]; [discriminate|].
  injection H as ->. simpl. rewrite Nat.leb_refl. reflexivity.
Qed.

(** Searching the text a search returned returns that text. *)
Lemma search_on_match (r : Re.regex) (s m : list ascii) :
  Re.search r s = Some m -> Re.search r m = Some m.
Proof.
  induction s as [|c s IH]; simpl.
  - destruct (Re.re_match r []) as [n|] eqn:Hn; [|discriminate].
    intros H. injection H as <-. destruct n; simpl; rewrite Hn; reflexivity.
  - destruct (Re.re_match r (c :: s)) as [n|] eqn:Hn; [|exact IH].
    intros H. injection H as <-.
    pose proof (re_match_on_match r _ _ Hn) as Hm.
    assert (Hs : Re.search r (firstn n (c :: s)) =
                 Some (firstn n (firstn n (c :: s)))).
    { destruct (firstn n (c :: s)); simpl; rewrite Hm; reflexivity. }
    rewrite Hs, firstn_firstn, Nat.min_id. reflexivity.
Qed.

(** *** The matcher against the texts an expression denotes *)

Lemma firstn_add {A : Type} (a b : nat) (l : list A) :
  firstn (a + b) l = (firstn a l ++ firstn b (skipn a l))%list.
Proof.
  revert l. induction a as [|a IH]; intros l; simpl; [reflexivity|].
  destruct l as [|x l]; simpl; [rewrite firstn_nil; reflexivity|].
  rewrite IH. reflexivity.
Qed.

Lemma many1_sound (p : ascii -> bool) (s : list ascii) (n : nat) :
  In n (Re.many1 p s) -> denotes (Re.Many1 p) (firstn n s).
Proof.
  revert n. induction s as [|c s IH]; intros n; simpl; [intros []|].
  destruct (p c) eqn:Hc; [|intros []].
  rewrite in_app_iff, in_map_iff. intros [[k [<- Hk]]|[<-|[]]].
  - specialize (IH k Hk). simpl. inversion IH as [|q c' l Hc' Hl| | |]; subst.
    apply D_many1; [exact Hc|]. constructor; assumption.
  - simpl. apply D_many1; [exact Hc|constructor].
Qed.

Lemma rmatch_sound (r : Re.regex) (s : list ascii) (n : nat) :
  In n (Re.rmatch r s) -> denotes r (firstn n s).
Proof.
  revert s n. induction r as [p|p|r1 IH1 r2 IH2|r1 IH1 r2 IH2]; intros s n.
  - destruct s as [|c s]; simpl; [intros []|].
    destruct (p c) eqn:Hc; [|intros []]. intros [<-|[]].
    simpl. constructor. exact Hc.
  - apply many1_sound.
  - cbn [Re.rmatch]. rewrite in_flat_map. intros [n1 [H1 H2]].
    apply in_map_iff in H2. destruct H2 as [n2 [<- H2]].
    rewrite firstn_add. constructor; auto.
  - cbn [Re.rmatch]. rewrite in_app_iff. intros [H|H].
    + apply D_alt_l. auto.
    + apply D_alt_r. auto.
Qed.

Lemma many1_complete (p : ascii -> bool) (c : ascii) (l t : list ascii) :
  p c = true -> Forall (fun a => p a = true) l ->
  In (S (List.length l)) (Re.many1 p (c :: l ++ t)).
Proof.
  revert c. induction l as [|c' l IH]; intros c Hc Hl; simpl; rewrite Hc.
  - apply in_or_app. right. left. reflexivity.
  - inversion Hl as [|? ? Hc' Hl']; subst.
    apply in_or_app. left. apply in_map. exact (IH c' Hc' Hl').
Qed.

Lemma rmatch_complete (r : Re.regex) (l : list ascii) :
  denotes r l -> forall t, In (List.length l) (Re.rmatch r (l ++ t)).
Proof.
  induction 1 as [p c Hc|p c l Hc Hl|r1 r2 l1 l2 _ IH1 _ IH2
                 |r1 r2 l _ IH|r1 r2 l _ IH]; intros t.
  - simpl. rewrite Hc. left. reflexivity.
  - apply many1_complete; assumption.
  - cbn [Re.rmatch]. apply in_flat_map. exists (List.length l1). split.
    + rewrite <- app_assoc. apply IH1.
    + rewrite length_app. apply in_map.
      rewrite <- app_assoc, skipn_app, skipn_all, Nat.sub_diag. simpl. apply IH2.
  - cbn [Re.rmatch]. apply in_or_app. left. apply IH.
  - cbn [Re.rmatch]. apply in_or_app. right. apply IH.
Qed.

(** [search] returns a text the expression denotes, found inside the text
    searched; it returns nothing only where no part of the text is denoted. *)
Lemma search_sound (r : Re.regex) (s m : list ascii) :
  Re.search r s = Some m ->
  denotes r m /\ exists before after, s = (before ++ m ++ after)%list.
Proof.
  induction s as [|c s IH]; simpl.
  - unfold Re.re_match. destruct (Re.rmatch r []) as [|n l] eqn:Hn; [discriminate|].
    simpl. intros H. injection H as <-. split.
    + apply rmatch_sound. rewrite Hn. left. reflexivity.
    + exists [], []. rewrite firstn_nil. reflexivity.
  - unfold Re.re_match at 1. destruct (Re.rmatch r (c :: s)) as [|n l] eqn:Hn.
    + simpl. intros H. destruct (IH H) as [Hd [b [a ->]]].
      split; [exact Hd|]. exists (c :: b), a. reflexivity.
    + simpl. intros H. injection H as <-. split.
      * apply rmatch_sound. rewrite Hn. left. reflexivity.
      * exists [], (skipn n (c :: s)). simpl app. symmetry. apply firstn_skipn.
Qed.

Lemma search_complete (r : Re.regex) (before m after : list ascii) :
  denotes r m -> Re.search r (before ++ m ++ after) <> None.
Proof.
  intros Hd. induction before as [|c before IH].
  - pose proof (rmatch_complete r m Hd after) as Hin. simpl app.
    assert (Hm : Re.re_match r (m ++ after) <> None).
    { unfold Re.re_match. destruct (Re.rmatch r (m ++ after)); [destruct Hin|discriminate]. }
    destruct (m ++ after)%list; simpl; destruct (Re.re_match r _); congruence.
  - simpl. destruct (Re.re_match r (c :: before ++ m ++ after)); [discriminate|exact IH].
Qed.

(** C8.  Extraction is idempotent on every text.  Where the pattern is
    found, the result is the text found, which has the shape of the pattern
    and is returned as it is when extracted from again; the pattern is
    found wherever a part of the text has its shape, and where none has,
    the result is the sentinel [UNKNOWN], which is returned as it is too. *)
Theorem extract_tower_id_idempotent (str_of_float : float -> string) (s : string) :
  let extract := DataParser.extract_tower_id str_of_float in
  extract (CStr (extract (CStr s))) = extract (CStr s) /\
  (forall m, Re.search TOWERID_PATTERN (list_ascii_of_string s) = Some m ->
     denotes TOWERID_PATTERN m /\
     extract (CStr s) = string_of_list_ascii m /\
     extract (CStr (string_of_list_ascii m)) = string_of_list_ascii m) /\
  ((forall before m after,
      list_ascii_of_string s = (before ++ m ++ after)%list ->
      ~ denotes TOWERID_PATTERN m) ->
   extract (CStr s) = "UNKNOWN") /\
  ((exists before m after,
      list_ascii_of_string s = (before ++ m ++ after)%list /\
      denotes TOWERID_PATTERN m) ->
   exists found, Re.search TOWERID_PATTERN (list_ascii_of_string s) = Some found) /\
  extract (CStr "UNKNOWN") = "UNKNOWN" /\
  extract (CStr "NR_SUM-SU-AKR-0011_DU") = "SUM-SU-AKR-0011".
Proof.
  intros extract. subst extract.
  assert (Hm : forall m, Re.search TOWERID_PATTERN (list_ascii_of_string s) = Some m ->
     DataParser.extract_tower_id str_of_float (CStr s) = string_of_list_ascii m /\
     DataParser.extract_tower_id str_of_float (CStr (string_of_list_ascii m)) =
       string_of_list_ascii m).
  { intros m H. unfold DataParser.extract_tower_id. cbn [DataCleaner.py_str].
    rewrite H, list_ascii_of_string_of_list_ascii.
    rewrite (search_on_match _ _ _ H). split; reflexivity. }
  split; [|split; [|split; [|split; [|split; reflexivity]]]].
  - destruct (Re.search TOWERID_PATTERN (list_ascii_of_string s)) as [m|] eqn:H.
    + destruct (Hm m eq_refl) as [-> ->]. reflexivity.
    + unfold DataParser.extract_tower_id at 2 3. cbn [DataCleaner.py_str].
      rewrite H. reflexivity.
  - intros m H. split; [exact (proj1 (search_sound _ _ _ H))|exact (Hm m H)].
  - intros Hno. unfold DataParser.extract_tower_id. cbn [DataCleaner.py_str].
    destruct (Re.search TOWERID_PATTERN (list_ascii_of_string s)) as [m|] eqn:H;
      [|reflexivity].
    destruct (search_sound _ _ _ H) as [Hd [b [a E]]].
    exfalso. exact (Hno b m a E Hd).
  - intros (b & m & a & E & Hd).
    pose proof (search_complete TOWERID_PATTERN b m a Hd) as H.
    rewrite <- E in H.
    destruct (Re.search TOWERID_PATTERN (list_ascii_of_string s)) as [found|];
      [exists found; reflexivity|contradiction].
Qed.

(** ** End-to-end scenario *)

Lemma float_eqb_zero (x : float) :
  PrimFloat.eqb x 0 = true -> x = 0%float \/ x = (-0)%float.
Proof.
  rewrite eqb_spec. unfold SFeqb.
  destruct (Prim2SF x) as [s| s | |s m e] eqn:E; vm_compute; try discriminate.
  - intros _. destruct s; [right|left]; apply Prim2SF_inj; rewrite E; reflexivity.
  - destruct s; discriminate.
  - destruct s; discriminate.
Qed.

Lemma nz_zero_or_missing (x : float) :
  zero_or_missing x = true -> nz x = 0%float \/ nz x = (-0)%float.
Proof.
  unfold zero_or_missing, nz. destruct (PrimFloat.is_nan x); [left; reflexivity|].
  rewrite orb_false_r. apply float_eqb_zero.
Qed.

Lemma sum_of_zeros (a b : float) :
  (a = 0 \/ a = -0)%float -> (b = 0 \/ b = -0)%float -> (0 + a + b = 0)%float.
Proof.
  intros [->| ->] [->| ->]; reflexivity.
Qed.

Lemma evaluate_kpi_values (value : option float) (threshold : float) (compare : string) :
  Evaluator.evaluate_kpi value threshold compare = "N/A" \/
  Evaluator.evaluate_kpi value threshold compare = "PASS" \/
  Evaluator.evaluate_kpi value threshold compare = "FAIL".
Proof.
  unfold Evaluator.evaluate_kpi. destruct value as [v|]; [|auto].
  destruct (String.eqb compare ">="); [destruct (PrimFloat.leb threshold v)|
                                       destruct (PrimFloat.leb v threshold)]; auto.
Qed.

Section Scenario.

Variable str_of_float : float -> string.
Variable to_datetime : cell -> Py.result (option date).
Variable extra : nat.
Variables o1 o2 : nat -> float.
Variables x1 x2 : nat -> cell.

Local Abbreviation scenario_parsed := (scenario_parsed extra o1 x1 o2 x2).

Lemma scenario_parse :
  DataParser.add_parsed_columns str_of_float Strptime.strptime to_datetime
    (scenario extra o1 x1 o2 x2) = Py.Ok scenario_parsed.
Proof. vm_compute. reflexivity. Qed.

Lemma scenario_groupby :
  ProcessingThread.groupby scenario_parsed =
    [(("SUM-SU-AKR-0011", mkdate 2026 1 6), scenario_parsed)].
Proof. vm_compute. reflexivity. Qed.

Lemma scenario_fixed_sums :
  KPICalculator.column_sum ColumnIndex.SN_ADDITION_NUM scenario_parsed = Py.Ok 200%float /\
  KPICalculator.column_sum ColumnIndex.SN_ADDITION_DEN scenario_parsed = Py.Ok 200%float /\
  KPICalculator.column_sum ColumnIndex.ABNORMAL_SN_RELEASE_NUM scenario_parsed = Py.Ok 2%float /\
  KPICalculator.column_sum ColumnIndex.ABNORMAL_SN_RELEASE_DEN scenario_parsed = Py.Ok 200%float.
Proof. repeat split; vm_compute; reflexivity. Qed.

Lemma scenario_open_sums (i : nat) :
  In i other_metrics ->
  KPICalculator.column_sum i scenario_parsed = Py.Ok (0 + nz (o1 i) + nz (o2 i))%float.
Proof.
  intros H. repeat (destruct H as [<-|H]; [reflexivity|]). destruct H.
Qed.

End Scenario.

(** C4.  The two rows of the scenario, in a table of the 123 columns of the
    layout or more, give exactly one Tower Report, keyed
    (SUM-SU-AKR-0011, 2026-01-06), with SgNB Add Success Rate 100.0 and
    SgNB Drop Rate 1.0, both ["PASS"]; its overall status is ["PASS"]
    exactly when each of the other three statuses is ["N/A"] or ["PASS"];
    and when the other metric columns hold zero or a missing number, the
    other three values are missing, their statuses ["N/A"], and the overall
    status ["PASS"]. *)
Theorem scenario_single_report
  (str_of_float : float -> string) (to_datetime : cell -> Py.result (option date))
  (extra : nat) (o1 o2 : nat -> float) (x1 x2 : nat -> cell) :
  exists kv st ov,
    ProcessingThread.parse_and_report str_of_float Strptime.strptime to_datetime
      (scenario extra o1 x1 o2 x2) =
      Py.Ok [mkTowerReport "SUM-SU-AKR-0011" (mkdate 2026 1 6) kv st ov] /\
    v_sgnb_add_success_rate kv = Some 100%float /\
    sgnb_add_success_rate st = "PASS" /\
    v_sgnb_drop_rate kv = Some 1%float /\
    sgnb_drop_rate st = "PASS" /\
    (ov = "PASS" <->
       (dl_user_throughput st = "N/A" \/ dl_user_throughput st = "PASS") /\
       (ul_user_throughput st = "N/A" \/ ul_user_throughput st = "PASS") /\
       (dl_spectrum_efficiency st = "N/A" \/ dl_spectrum_efficiency st = "PASS")) /\
    ((forall i, In i other_metrics ->
        zero_or_missing (o1 i) = true /\ zero_or_missing (o2 i) = true) ->
     v_dl_user_throughput kv = None /\ v_ul_user_throughput kv = None /\
     v_dl_spectrum_efficiency kv = None /\
     dl_user_throughput st = "N/A" /\ ul_user_throughput st = "N/A" /\
     dl_spectrum_efficiency st = "N/A" /\ ov = "PASS").
Proof.
  destruct (scenario_fixed_sums extra o1 o2 x1 x2) as (S21 & S22 & S24 & S25).
  pose proof (scenario_open_sums extra o1 o2 x1 x2) as So.
  eexists _, _, _. split.
  { unfold ProcessingThread.parse_and_report.
    rewrite scenario_parse. cbn [Py.bind].
    unfold ProcessingThread.reports. rewrite scenario_groupby.
    cbn [Py.mapM ProcessingThread.report]. unfold KPICalculator.calculate_kpis.
    rewrite S21, S22, S24, S25.
    rewrite !So by (simpl; tauto).
    cbn [Py.bind]. unfold Evaluator.evaluate_all. cbn [Py.bind]. reflexivity. }
  cbn [v_sgnb_add_success_rate v_sgnb_drop_rate v_dl_user_throughput
         v_ul_user_throughput v_dl_spectrum_efficiency
         sgnb_add_success_rate sgnb_drop_rate dl_user_throughput
         ul_user_throughput dl_spectrum_efficiency].
  split; [reflexivity|]. split; [reflexivity|].
  split; [reflexivity|]. split; [reflexivity|]. split.
  - match goal with |- Evaluator.overall ?s = _ <-> _ =>
      destruct (overall_cases s) as [Hf Hp]; revert Hf Hp end.
    cbn [sgnb_add_success_rate sgnb_drop_rate dl_user_throughput
           ul_user_throughput dl_spectrum_efficiency].
    change (Evaluator.evaluate_kpi
              (KPICalculator.safe_divide (Some 200%float) (Some 200%float) 100)
              KPIThreshold.SGNB_ADD_SUCCESS_RATE_MIN ">=") with "PASS".
    change (Evaluator.evaluate_kpi
              (KPICalculator.safe_divide (Some 2%float) (Some 200%float) 100)
              KPIThreshold.SGNB_DROP_RATE_MAX "<=") with "PASS".
    intros Hf Hp. split.
    + intros Hov.
      assert (Hnf : forall s, s = "N/A" \/ s = "PASS" \/ s = "FAIL" ->
                 (s = "FAIL" -> False) -> s = "N/A" \/ s = "PASS") by tauto.
      repeat split; (apply Hnf; [apply evaluate_kpi_values|]);
        intros E; destruct Hf as [_ Hf]; rewrite Hf in Hov by tauto; discriminate.
    + intros (H3 & H4 & H5). apply Hp. intros Hov. apply Hf in Hov.
      destruct Hov as [H|[H|[H|[H|H]]]]; try discriminate;
        [destruct H3 as [E|E]|destruct H4 as [E|E]|destruct H5 as [E|E]];
        rewrite E in H; discriminate.
  - intros Hz.
    assert (Hs : forall i, In i other_metrics -> (0 + nz (o1 i) + nz (o2 i) = 0)%float).
    { intros i Hi. destruct (Hz i Hi) as [Z1 Z2].
      apply sum_of_zeros; apply nz_zero_or_missing; assumption. }
    rewrite !Hs by (simpl; tauto).
    repeat split; reflexivity.
Qed.

(** The report of the scenario with zeros in the other metric columns of the
    first row and missing numbers in those of the second. *)
Example scenario_report_zero_and_missing
  (str_of_float : float -> string) (to_datetime : cell -> Py.result (option date)) :
  ProcessingThread.parse_and_report str_of_float Strptime.strptime to_datetime
    (scenario 7 (fun _ => 0%float) (fun _ => CStr "") (fun _ => nan) (fun _ => CNone)) =
  Py.Ok [ mkTowerReport "SUM-SU-AKR-0011" (mkdate 2026 1 6)
            (mkKPIValues (Some 100%float) (Some 1%float) None None None)
            (mkKPIStatus "PASS" "PASS" "N/A" "N/A" "N/A")
            "PASS" ].
Proof. vm_compute. reflexivity. Qed.

(** ** Grouping *)

(** *** The order of the Group Keys *)

Ltac z_compare_cases :=
  repeat match goal with
         | H : context [Z.compare ?x ?y] |- _ => destruct (Z.compare_spec x y)
         | |- context [Z.compare ?x ?y] => destruct (Z.compare_spec x y)
         end;
  subst; try discriminate; try lia; auto.

Lemma date_compare_eq (a b : date) :
  ProcessingThread.date_compare a b = Eq <-> a = b.
Proof.
  destruct a as [y1 m1 d1], b as [y2 m2 d2]. unfold ProcessingThread.date_compare.
  cbn [year month day]. split.
  - intros H. z_compare_cases.
  - intros H. injection H as -> -> ->. rewrite !Z.compare_refl. reflexivity.
Qed.

Lemma date_compare_antisym (a b : date) :
  ProcessingThread.date_compare b a = CompOpp (ProcessingThread.date_compare a b).
Proof.
  destruct a as [y1 m1 d1], b as [y2 m2 d2]. unfold ProcessingThread.date_compare.
  cbn [year month day].
  rewrite (Z.compare_antisym y1 y2), (Z.compare_antisym m1 m2), (Z.compare_antisym d1 d2).
  destruct (y1 ?= y2)%Z, (m1 ?= m2)%Z, (d1 ?= d2)%Z; reflexivity.
Qed.

Lemma date_compare_trans (a b c : date) :
  ProcessingThread.date_compare a b = Lt -> ProcessingThread.date_compare b c = Lt ->
  ProcessingThread.date_compare a c = Lt.
Proof.
  destruct a as [y1 m1 d1], b as [y2 m2 d2], c as [y3 m3 d3].
  unfold ProcessingThread.date_compare. cbn [year month day].
  intros H1 H2. z_compare_cases.
Qed.

Lemma string_compare_refl (s : string) : String.compare s s = Eq.
Proof. apply OrderedTypeEx.String_as_OT.cmp_eq. reflexivity. Qed.

Lemma key_compare_eq (a b : ProcessingThread.key) :
  ProcessingThread.key_compare a b = Eq <-> a = b.
Proof.
  destruct a as [s1 d1], b as [s2 d2]. unfold ProcessingThread.key_compare.
  cbn [fst snd]. split.
  - destruct (String.compare s1 s2) eqn:Hs; try discriminate.
    apply String.compare_eq_iff in Hs. rewrite date_compare_eq. congruence.
  - intros H. injection H as -> ->.
    rewrite string_compare_refl. apply date_compare_eq. reflexivity.
Qed.

Lemma key_compare_antisym (a b : ProcessingThread.key) :
  ProcessingThread.key_compare b a = CompOpp (ProcessingThread.key_compare a b).
Proof.
  destruct a as [s1 d1], b as [s2 d2]. unfold ProcessingThread.key_compare.
  cbn [fst snd]. rewrite (String.compare_antisym s2 s1), (date_compare_antisym d1 d2).
  destruct (String.compare s1 s2); reflexivity.
Qed.

Lemma string_compare_trans (a b c : string) :
  String.compare a b = Lt -> String.compare b c = Lt -> String.compare a c = Lt.
Proof.
  intros H1 H2. apply OrderedTypeEx.String_as_OT.cmp_lt.
  apply OrderedTypeEx.String_as_OT.cmp_lt in H1, H2.
  exact (OrderedTypeEx.String_as_OT.lt_trans _ _ _ H1 H2).
Qed.

Lemma key_lt_trans (a b c : ProcessingThread.key) :
  key_lt a b -> key_lt b c -> key_lt a c.
Proof.
  destruct a as [s1 d1], b as [s2 d2], c as [s3 d3].
  unfold key_lt, ProcessingThread.key_compare. cbn [fst snd].
  destruct (String.compare s1 s2) eqn:H12; try discriminate;
    destruct (String.compare s2 s3) eqn:H23; try discriminate; intros H1 H2.
  - apply String.compare_eq_iff in H12, H23. subst.
    rewrite string_compare_refl. exact (date_compare_trans _ _ _ H1 H2).
  - apply String.compare_eq_iff in H12. subst. rewrite H23. reflexivity.
  - apply String.compare_eq_iff in H23. subst. rewrite H12. reflexivity.
  - rewrite (string_compare_trans _ _ _ H12 H23). reflexivity.
Qed.

Lemma key_lt_irrefl (a : ProcessingThread.key) : ~ key_lt a a.
Proof.
  unfold key_lt. intros H.
  assert (E : ProcessingThread.key_compare a a = Eq) by (apply key_compare_eq; reflexivity).
  congruence.
Qed.

Lemma key_eqb_eq (a b : ProcessingThread.key) :
  ProcessingThread.key_eqb a b = true <-> a = b.
Proof.
  unfold ProcessingThread.key_eqb. rewrite <- key_compare_eq.
  destruct (ProcessingThread.key_compare a b); split; congruence.
Qed.

(** *** The keys of [groupby] *)

Lemma in_insert_key (x k : ProcessingThread.key) (ks : list ProcessingThread.key) :
  In x (ProcessingThread.insert_key k ks) <-> x = k \/ In x ks.
Proof.
  induction ks as [|k' ks IH]; simpl; [intuition congruence|].
  destruct (ProcessingThread.key_compare k k') eqn:Hc; simpl.
  - apply key_compare_eq in Hc. subst k'. intuition congruence.
  - intuition congruence.
  - rewrite IH. intuition congruence.
Qed.

Lemma sorted_insert_key (k : ProcessingThread.key) (ks : list ProcessingThread.key) :
  StronglySorted key_lt ks -> StronglySorted key_lt (ProcessingThread.insert_key k ks).
Proof.
  induction ks as [|k' ks IH]; intros Hs; simpl.
  - constructor; constructor.
  - apply StronglySorted_inv in Hs. destruct Hs as [Hs Hall].
    destruct (ProcessingThread.key_compare k k') eqn:Hc.
    + constructor; assumption.
    + constructor; [constructor; assumption|].
      constructor; [exact Hc|].
      eapply Forall_impl; [|exact Hall]. intros x Hx. exact (key_lt_trans _ _ _ Hc Hx).
    + constructor; [apply IH; exact Hs|].
      apply Forall_forall. intros x Hx. apply in_insert_key in Hx.
      destruct Hx as [->|Hx].
      * unfold key_lt. rewrite key_compare_antisym, Hc. reflexivity.
      * rewrite Forall_forall in Hall. apply Hall. exact Hx.
Qed.

Lemma in_group_keys (k : ProcessingThread.key) (rs : list ParsedRow) :
  In k (ProcessingThread.group_keys rs) <->
  exists r, In r rs /\ ProcessingThread.key_of r = Some k.
Proof.
  unfold ProcessingThread.group_keys.
  induction rs as [|r rs IH]; simpl; [split; [intros []|intros (r & [] & _)]|].
  unfold ProcessingThread.add_key at 1.
  destruct (ProcessingThread.key_of r) as [k'|] eqn:Hr.
  - rewrite in_insert_key, IH. split.
    + intros [->|(r' & Hin & Hk)]; [exists r; auto|exists r'; auto].
    + intros (r' & [<-|Hin] & Hk); [left; congruence|right; exists r'; auto].
  - rewrite IH. split.
    + intros (r' & Hin & Hk). exists r'. auto.
    + intros (r' & [<-|Hin] & Hk); [congruence|exists r'; auto].
Qed.

Lemma sorted_group_keys (rs : list ParsedRow) :
  StronglySorted key_lt (ProcessingThread.group_keys rs).
Proof.
  unfold ProcessingThread.group_keys.
  induction rs as [|r rs IH]; simpl; [constructor|].
  unfold ProcessingThread.add_key at 1.
  destruct (ProcessingThread.key_of r); [apply sorted_insert_key|]; exact IH.
Qed.

(** Two strictly sorted lists of keys with the same members are equal. *)
Lemma sorted_keys_unique (l1 l2 : list ProcessingThread.key) :
  StronglySorted key_lt l1 -> StronglySorted key_lt l2 ->
  (forall x, In x l1 <-> In x l2) -> l1 = l2.
Proof.
  revert l2. induction l1 as [|a l1 IH]; intros [|b l2] H1 H2 Hin.
  - reflexivity.
  - destruct (proj2 (Hin b) (or_introl eq_refl)).
  - destruct (proj1 (Hin a) (or_introl eq_refl)).
  - apply StronglySorted_inv in H1, H2.
    destruct H1 as [H1 Ha], H2 as [H2 Hb].
    rewrite Forall_forall in Ha, Hb.
    assert (E : a = b).
    { destruct (proj1 (Hin a) (or_introl eq_refl)) as [E|Hab]; [congruence|].
      destruct (proj2 (Hin b) (or_introl eq_refl)) as [E|Hba]; [congruence|].
      exfalso. apply (key_lt_irrefl a).
      exact (key_lt_trans _ _ _ (Ha b Hba) (Hb a Hab)). }
    subst b. f_equal. apply IH; [exact H1|exact H2|].
    intros x. split; intros Hx.
    + destruct (proj1 (Hin x) (or_intror Hx)) as [E|Hx']; [|exact Hx'].
      subst x. exfalso. exact (key_lt_irrefl a (Ha a Hx)).
    + destruct (proj2 (Hin x) (or_intror Hx)) as [E|Hx']; [|exact Hx'].
      subst x. exfalso. exact (key_lt_irrefl a (Hb a Hx)).
Qed.

Lemma group_keys_permutation (rs rs' : list ParsedRow) :
  Permutation rs rs' -> ProcessingThread.group_keys rs = ProcessingThread.group_keys rs'.
Proof.
  intros HP. apply sorted_keys_unique; try apply sorted_group_keys.
  intros x. rewrite !in_group_keys.
  split; intros (r & Hin & Hk); exists r; (split; [|exact Hk]).
  - exact (Permutation_in r HP Hin).
  - exact (Permutation_in r (Permutation_sym HP) Hin).
Qed.

Lemma filter_permutation {A : Type} (f : A -> bool) (l l' : list A) :
  Permutation l l' -> Permutation (filter f l) (filter f l').
Proof.
  induction 1 as [|x l l' _ IH|x y l|l l' l'' _ IH1 _ IH2]; simpl.
  - constructor.
  - destruct (f x); [constructor|]; exact IH.
  - destruct (f x), (f y); try reflexivity. constructor.
  - exact (Permutation_trans IH1 IH2).
Qed.

(** *** Sums of a column *)

Lemma sum_from_text (acc : float) (col : list cell) :
  existsb is_text col = true -> KPICalculator.sum_from acc col = Py.Raise Py.TypeError.
Proof.
  revert acc. induction col as [|c col IH]; intros acc; simpl; [discriminate|].
  destruct c as [s|x|]; simpl; [reflexivity| |]; intros H; apply IH; exact H.
Qed.

Lemma abs_total_nonneg (ival : float -> Z) (col : list cell) :
  (0 <= abs_total ival col)%Z.
Proof. induction col as [|c col IH]; simpl; lia. Qed.

Lemma summand_represented (F : Z -> float) (ival : float -> Z) (B : Z) (c : cell) :
  exact_add F B -> represented F ival c -> is_text c = false ->
  KPICalculator.summand c = Py.Ok (F (cell_int ival c)).
Proof.
  intros [F0 _] Hr Ht. destruct c as [s|x|]; simpl in *; [discriminate| |].
  - destruct (PrimFloat.is_nan x); [rewrite F0; reflexivity|].
    rewrite <- Hr; reflexivity.
  - rewrite F0. reflexivity.
Qed.

Lemma sum_from_exact (F : Z -> float) (ival : float -> Z) (B : Z)
  (col : list cell) (a0 : Z) :
  exact_add F B -> Forall (represented F ival) col -> existsb is_text col = false ->
  (Z.abs a0 + abs_total ival col <= B)%Z ->
  KPICalculator.sum_from (F a0) col = Py.Ok (F (a0 + int_total ival col)%Z).
Proof.
  intros Hex. revert a0.
  induction col as [|c col IH]; intros a0 Hr Ht Hb; simpl.
  - rewrite Z.add_0_r. reflexivity.
  - inversion Hr as [|? ? Hc Hr']; subst.
    simpl in Ht. apply orb_false_iff in Ht. destruct Ht as [Htc Ht].
    rewrite (summand_represented F ival B c Hex Hc Htc). cbn [Py.bind].
    simpl in Hb. pose proof (abs_total_nonneg ival col) as Hn.
    destruct Hex as [F0 Hadd]. rewrite Hadd by lia.
    rewrite IH; [rewrite Z.add_assoc; reflexivity|exact Hr'|exact Ht|lia].
Qed.

Lemma existsb_permutation {A : Type} (f : A -> bool) (l l' : list A) :
  Permutation l l' -> existsb f l = existsb f l'.
Proof.
  induction 1 as [|x l l' _ IH|x y l|l l' l'' _ IH1 _ IH2]; simpl.
  - reflexivity.
  - rewrite IH. reflexivity.
  - destruct (f x), (f y); reflexivity.
  - congruence.
Qed.

Lemma int_total_permutation (ival : float -> Z) (l l' : list cell) :
  Permutation l l' -> int_total ival l = int_total ival l'.
Proof.
  induction 1 as [|x l l' _ IH|x y l|l l' l'' _ IH1 _ IH2]; simpl; lia.
Qed.

Lemma abs_total_permutation (ival : float -> Z) (l l' : list cell) :
  Permutation l l' -> abs_total ival l = abs_total ival l'.
Proof.
  induction 1 as [|x l l' _ IH|x y l|l l' l'' _ IH1 _ IH2]; simpl; lia.
Qed.

(** Where addition is exact, the sum of a column does not depend on the
    order of its cells. *)
Lemma sum_permutation_exact (F : Z -> float) (ival : float -> Z) (B : Z)
  (col col' : list cell) :
  exact_add F B -> Permutation col col' ->
  Forall (represented F ival) col -> (abs_total ival col <= B)%Z ->
  KPICalculator.sum col = KPICalculator.sum col'.
Proof.
  intros Hex HP Hr Hb. unfold KPICalculator.sum.
  destruct (existsb is_text col) eqn:Ht.
  - rewrite (sum_from_text _ col Ht).
    rewrite (existsb_permutation _ _ _ HP) in Ht.
    rewrite (sum_from_text _ col' Ht). reflexivity.
  - pose proof (proj1 Hex) as F0. rewrite <- F0.
    rewrite (sum_from_exact F ival B col 0 Hex Hr Ht) by (simpl; lia).
    rewrite (existsb_permutation _ _ _ HP) in Ht.
    rewrite (sum_from_exact F ival B col' 0 Hex) ;
      [|exact (Permutation_Forall HP Hr)|exact Ht
       |rewrite <- (abs_total_permutation ival _ _ HP); simpl; lia].
    rewrite (int_total_permutation ival _ _ HP). reflexivity.
Qed.

(** *** Groups *)

Lemma column_filter_represented (F : Z -> float) (ival : float -> Z)
  (f : ParsedRow -> bool) (i : nat) (rs : list ParsedRow) :
  Forall (represented F ival) (column i rs) ->
  Forall (represented F ival) (column i (filter f rs)).
Proof.
  unfold column. rewrite !Forall_map, !Forall_forall.
  intros H r Hr. apply filter_In in Hr. apply H. tauto.
Qed.

Lemma column_filter_abs_total (ival : float -> Z) (f : ParsedRow -> bool)
  (i : nat) (rs : list ParsedRow) :
  (abs_total ival (column i (filter f rs)) <= abs_total ival (column i rs))%Z.
Proof.
  induction rs as [|r rs IH]; simpl; [lia|].
  destruct (f r); simpl; lia.
Qed.

Lemma column_sum_group (F : Z -> float) (ival : float -> Z) (B : Z)
  (w : nat) (k : ProcessingThread.key) (rs rs' : list ParsedRow) (i : nat) :
  exact_add F B -> exact_table F ival B rs -> Permutation rs rs' ->
  In i ProcessingThread.numeric_cols ->
  KPICalculator.column_sum i {| width := w; prows := ProcessingThread.group_rows k rs |} =
  KPICalculator.column_sum i {| width := w; prows := ProcessingThread.group_rows k rs' |}.
Proof.
  intros Hex Ht HP Hi. unfold KPICalculator.column_sum, KPICalculator.iloc.
  cbn [width prows]. destruct (i <? w); [|reflexivity]. cbn [Py.bind].
  destruct (Ht i Hi) as [Hr Hb].
  apply (sum_permutation_exact F ival B); [exact Hex| | |].
  - apply Permutation_map. apply filter_permutation. exact HP.
  - apply column_filter_represented. exact Hr.
  - pose proof (column_filter_abs_total ival (ProcessingThread.in_group k) i rs).
    unfold column, ProcessingThread.group_rows in *. lia.
Qed.

Lemma calculate_kpis_ext (g g' : ParsedFrame) :
  (forall i, In i ProcessingThread.numeric_cols ->
     KPICalculator.column_sum i g = KPICalculator.column_sum i g') ->
  KPICalculator.calculate_kpis g = KPICalculator.calculate_kpis g'.
Proof.
  intros H. unfold KPICalculator.calculate_kpis.
  rewrite !H by (unfold ProcessingThread.numeric_cols; simpl; auto 15).
  reflexivity.
Qed.

Lemma mapM_map_ext {K A B : Type} (f : A -> Py.result B) (h h' : K -> A) (ks : list K) :
  (forall k, f (h k) = f (h' k)) ->
  Py.mapM f (map h ks) = Py.mapM f (map h' ks).
Proof.
  intros H. induction ks as [|k ks IH]; simpl; [reflexivity|].
  rewrite H, IH. reflexivity.
Qed.

(** *** Row order *)

(** C5, as stated, fails: the same three rows in two orders give the sums 0
    and 3 in the SN_ADDITION numerator column, hence the rates 0.0 and
    100.0 and different statuses. *)
Lemma row_order_counterexample :
  Permutation rows_big_first rows_big_cancel /\
  KPICalculator.column_sum ColumnIndex.SN_ADDITION_NUM
    {| width := 123; prows := rows_big_first |} = Py.Ok 0%float /\
  KPICalculator.column_sum ColumnIndex.SN_ADDITION_NUM
    {| width := 123; prows := rows_big_cancel |} = Py.Ok 3%float /\
  ProcessingThread.reports {| width := 123; prows := rows_big_first |} =
    Py.Ok [ mkTowerReport "SUM-SU-AKR-0011" (mkdate 2026 1 6)
              (mkKPIValues (Some 0%float) None None None None)
              (mkKPIStatus "FAIL" "N/A" "N/A" "N/A" "N/A") "FAIL" ] /\
  ProcessingThread.reports {| width := 123; prows := rows_big_cancel |} =
    Py.Ok [ mkTowerReport "SUM-SU-AKR-0011" (mkdate 2026 1 6)
              (mkKPIValues (Some 100%float) None None None None)
              (mkKPIStatus "PASS" "N/A" "N/A" "N/A" "N/A") "PASS" ].
Proof.
  split; [apply perm_skip; apply perm_swap|].
  repeat split; vm_compute; reflexivity.
Qed.

(** C5, amended.  For every table and every permutation of its rows,
    grouping yields the same Group Keys in the same order, and under each
    key a group with the same rows up to their order; and where the
    additions of the metric columns are exact, the per-group sums are
    identical, and so are the reports with their KPI Values. *)
Theorem groupby_permutation (df_parsed : ParsedFrame) (shuffled : list ParsedRow) :
  Permutation (prows df_parsed) shuffled ->
  let df_shuffled := {| width := width df_parsed; prows := shuffled |} in
  map fst (ProcessingThread.groupby df_parsed) =
    map fst (ProcessingThread.groupby df_shuffled) /\
  (forall k g g',
     In (k, g) (ProcessingThread.groupby df_parsed) ->
     In (k, g') (ProcessingThread.groupby df_shuffled) ->
     width g = width g' /\ Permutation (prows g) (prows g')) /\
  (forall F ival B,
     exact_add F B -> exact_table F ival B (prows df_parsed) ->
     (forall k i, In i ProcessingThread.numeric_cols ->
        KPICalculator.column_sum i
          {| width := width df_parsed;
             prows := ProcessingThread.group_rows k (prows df_parsed) |} =
        KPICalculator.column_sum i
          {| width := width df_parsed;
             prows := ProcessingThread.group_rows k shuffled |}) /\
     ProcessingThread.reports df_parsed = ProcessingThread.reports df_shuffled).
Proof.
  intros HP df_shuffled. subst df_shuffled.
  pose proof (group_keys_permutation _ _ HP) as Hk.
  unfold ProcessingThread.groupby. cbn [width prows]. split; [|split].
  - rewrite !map_map. cbn [fst]. rewrite Hk. reflexivity.
  - intros k g g' Hg Hg'. apply in_map_iff in Hg, Hg'.
    destruct Hg as [k1 [E1 _]], Hg' as [k2 [E2 _]].
    injection E1 as -> <-. injection E2 as -> <-. cbn [width prows].
    split; [reflexivity|]. apply filter_permutation. exact HP.
  - intros F ival B Hex Ht.
    split; [intros k i Hi; apply (column_sum_group F ival B); assumption|].
    unfold ProcessingThread.reports, ProcessingThread.groupby.
    cbn [width prows]. rewrite <- Hk. apply mapM_map_ext. intros [tid dt].
    cbn [ProcessingThread.report].
    rewrite (calculate_kpis_ext
               {| width := width df_parsed;
                  prows := ProcessingThread.group_rows (tid, dt) (prows df_parsed) |}
               {| width := width df_parsed;
                  prows := ProcessingThread.group_rows (tid, dt) shuffled |});
      [reflexivity|].
    intros i Hi. apply (column_sum_group F ival B); assumption.
Qed.

Lemma small_float_exact : exact_add small_float 8.
Proof.
  split; [reflexivity|]. intros a b Ha Hb _.
  assert (Ea : (a = -8 \/ a = -7 \/ a = -6 \/ a = -5 \/ a = -4 \/ a = -3 \/ a = -2 \/
                a = -1 \/ a = 0 \/ a = 1 \/ a = 2 \/ a = 3 \/ a = 4 \/ a = 5 \/
                a = 6 \/ a = 7 \/ a = 8)%Z) by lia.
  assert (Eb : (b = -8 \/ b = -7 \/ b = -6 \/ b = -5 \/ b = -4 \/ b = -3 \/ b = -2 \/
                b = -1 \/ b = 0 \/ b = 1 \/ b = 2 \/ b = 3 \/ b = 4 \/ b = 5 \/
                b = 6 \/ b = 7 \/ b = 8)%Z) by lia.
  clear Ha Hb.
  repeat (destruct Ea as [->|Ea]); subst;
    repeat (destruct Eb as [->|Eb]); subst; reflexivity.
Qed.

Lemma rows_small_exact : exact_table small_float small_int 8 rows_small.
Proof.
  intros i Hi. unfold ProcessingThread.numeric_cols in Hi.
  repeat (destruct Hi as [<-|Hi];
          [split; [repeat constructor; intros _; vm_compute; reflexivity
                  |vm_compute; discriminate]|]).
  destruct Hi.
Qed.

Lemma groupby_permutation_witness :
  ProcessingThread.reports {| width := 123; prows := rows_small |} =
  ProcessingThread.reports {| width := 123; prows := rows_small_shuffled |}.
Proof.
  assert (HP : Permutation rows_small rows_small_shuffled).
  { unfold rows_small, rows_small_shuffled.
    apply Permutation_sym. apply (Permutation_cons_app [_; _] []). reflexivity. }
  destruct (groupby_permutation {| width := 123; prows := rows_small |}
              rows_small_shuffled HP) as (_ & _ & H).
  exact (proj2 (H small_float small_int 8%Z small_float_exact rows_small_exact)).
Defined.

(** * Further properties of the pipeline *)

(** ** Parsed columns *)

Lemma assign_cells (f : cell -> string) (parse : cell -> Py.result (option date))
  (rs : list row) (dates : list (option date)) :
  Forall2 (fun c dd => parse c = Py.Ok dd)
    (map (Pandas.cell_at ColumnIndex.BEGIN_TIME) rs) dates ->
  let prs := DataParser.assign rs
               (map f (map (Pandas.cell_at ColumnIndex.MANAGED_ELEMENT_NAME) rs)) dates in
  map cells prs = rs /\
  Forall (fun r =>
            TOWERID r = f (Pandas.cell_at ColumnIndex.MANAGED_ELEMENT_NAME (cells r)) /\
            parse (Pandas.cell_at ColumnIndex.BEGIN_TIME (cells r)) = Py.Ok (DATE r)) prs.
Proof.
  revert dates. induction rs as [|r rs IH]; intros dates H; simpl in *.
  - split; constructor.
  - inversion H as [|c dd cs dates' Hc Hrest]; subst. simpl.
    destruct (IH dates' Hrest) as [E F]. split.
    + rewrite E. reflexivity.
    + constructor; [split; [reflexivity|exact Hc]|exact F].
Qed.

(** A table wider than the position of the element name is parsed, row by
    row. *)
Lemma add_parsed_columns_ok
  (str_of_float : float -> string) (strptime : string -> string -> Py.result datetime)
  (to_datetime : cell -> Py.result (option date)) (df : DataFrame) :
  ColumnIndex.MANAGED_ELEMENT_NAME < ncols df ->
  exists df_parsed,
    DataParser.add_parsed_columns str_of_float strptime to_datetime df = Py.Ok df_parsed /\
    width df_parsed = ncols df /\
    map cells (prows df_parsed) = rows df /\
    Forall (fun r =>
              TOWERID r =
                DataParser.extract_tower_id str_of_float
                  (Pandas.cell_at ColumnIndex.MANAGED_ELEMENT_NAME (cells r)) /\
              DataParser.parse_date str_of_float strptime to_datetime
                (Pandas.cell_at ColumnIndex.BEGIN_TIME (cells r)) = Py.Ok (DATE r))
      (prows df_parsed).
Proof.
  unfold DataParser.add_parsed_columns, Pandas.iloc.
  unfold ColumnIndex.MANAGED_ELEMENT_NAME, ColumnIndex.BEGIN_TIME.
  intros H. assert (H0 : 0 < ncols df) by lia.
  apply Nat.ltb_lt in H, H0. rewrite H, H0. cbn [Py.bind].
  destruct (mapM_all_ok (DataParser.parse_date str_of_float strptime to_datetime)
              (map (Pandas.cell_at 0) (rows df))) as [dates [Hd HF]].
  { intros c _. apply parse_date_total. }
  rewrite Hd. cbn [Py.bind]. eexists. split; [reflexivity|]. cbn [width prows].
  split; [reflexivity|].
  exact (assign_cells _ _ (rows df) dates HF).
Qed.

(** X1.  [add_parsed_columns] raises [IndexError] on a table of six columns
    or fewer; on any wider table it returns a table of the same width with
    one row per input row, in order, each holding the cells it had, the
    identifier extracted from its element name and the date parsed from its
    begin time. *)
Theorem add_parsed_columns_rows
  (str_of_float : float -> string) (strptime : string -> string -> Py.result datetime)
  (to_datetime : cell -> Py.result (option date)) (df : DataFrame) :
  let parsed := DataParser.add_parsed_columns str_of_float strptime to_datetime df in
  (ncols df <= ColumnIndex.MANAGED_ELEMENT_NAME -> parsed = Py.Raise Py.IndexError) /\
  (ColumnIndex.MANAGED_ELEMENT_NAME < ncols df ->
   exists df_parsed,
     parsed = Py.Ok df_parsed /\
     width df_parsed = ncols df /\
     map cells (prows df_parsed) = rows df /\
     Forall (fun r =>
               TOWERID r =
                 DataParser.extract_tower_id str_of_float
                   (Pandas.cell_at ColumnIndex.MANAGED_ELEMENT_NAME (cells r)) /\
               DataParser.parse_date str_of_float strptime to_datetime
                 (Pandas.cell_at ColumnIndex.BEGIN_TIME (cells r)) = Py.Ok (DATE r))
       (prows df_parsed)).
Proof.
  intros parsed. subst parsed. split.
  - unfold DataParser.add_parsed_columns, Pandas.iloc.
    intros H. apply Nat.ltb_ge in H. rewrite H. reflexivity.
  - apply add_parsed_columns_ok.
Qed.

(** ** Groups *)

Lemma sorted_keys_nodup (ks : list ProcessingThread.key) :
  StronglySorted key_lt ks -> NoDup ks.
Proof.
  induction 1 as [|k ks _ IH Hall]; constructor; [|exact IH].
  intros Hin. rewrite Forall_forall in Hall. exact (key_lt_irrefl k (Hall k Hin)).
Qed.

Lemma key_eqb_refl (k : ProcessingThread.key) : ProcessingThread.key_eqb k k = true.
Proof. apply key_eqb_eq. reflexivity. Qed.

Lemma key_eqb_neq (a b : ProcessingThread.key) :
  a <> b -> ProcessingThread.key_eqb a b = false.
Proof.
  intros H. destruct (ProcessingThread.key_eqb a b) eqn:E; [|reflexivity].
  apply key_eqb_eq in E. contradiction.
Qed.

(** Adding a row of key [k0] to the table adds it to the group of [k0]. *)
Lemma groups_add_row {A : Type} (k0 : ProcessingThread.key) (r : A)
  (G : ProcessingThread.key -> list A) (ks : list ProcessingThread.key) :
  NoDup ks -> In k0 ks ->
  Permutation
    (flat_map (fun k => if ProcessingThread.key_eqb k0 k then r :: G k else G k) ks)
    (r :: flat_map G ks).
Proof.
  induction ks as [|k ks IH]; intros Hnd Hin; [destruct Hin|].
  inversion Hnd as [|? ? Hnotin Hnd']; subst. simpl.
  destruct (ProcessingThread.key_eqb k0 k) eqn:E.
  - apply key_eqb_eq in E. subst k0. simpl. apply perm_skip. apply Permutation_app_head.
    rewrite !flat_map_concat_map. apply Permutation_refl'. f_equal.
    apply map_ext_in. intros k' Hk'. rewrite key_eqb_neq; [reflexivity|].
    intros ->. contradiction.
  - destruct Hin as [->|Hin]; [rewrite key_eqb_refl in E; discriminate|].
    etransitivity; [apply Permutation_app_head; exact (IH Hnd' Hin)|].
    symmetry. apply Permutation_middle.
Qed.

Lemma key_of_dated (r : ParsedRow) :
  dated r = true <-> exists k, ProcessingThread.key_of r = Some k.
Proof.
  unfold dated, ProcessingThread.key_of. destruct (DATE r) as [dt|].
  - split; [intros _; eexists; reflexivity|reflexivity].
  - split; [discriminate|intros [k H]; discriminate].
Qed.

Lemma in_group_iff (k : ProcessingThread.key) (r : ParsedRow) :
  ProcessingThread.in_group k r = true <-> ProcessingThread.key_of r = Some k.
Proof.
  unfold ProcessingThread.in_group. destruct (ProcessingThread.key_of r) as [k'|].
  - rewrite key_eqb_eq. split; congruence.
  - split; discriminate.
Qed.

Lemma groups_partition (ks : list ProcessingThread.key) (rs : list ParsedRow) :
  NoDup ks ->
  (forall r k, In r rs -> ProcessingThread.key_of r = Some k -> In k ks) ->
  Permutation (flat_map (fun k => ProcessingThread.group_rows k rs) ks) (filter dated rs).
Proof.
  intros Hnd. induction rs as [|r rs IH]; intros Hin.
  - unfold ProcessingThread.group_rows. simpl. clear Hnd Hin.
    induction ks as [|k ks IHk]; simpl; [constructor|exact IHk].
  - assert (IH' : Permutation (flat_map (fun k => ProcessingThread.group_rows k rs) ks)
                    (filter dated rs)).
    { apply IH. intros r0 k Hr0. apply Hin. right. exact Hr0. }
    unfold ProcessingThread.group_rows in *. cbn [filter].
    destruct (ProcessingThread.key_of r) as [k0|] eqn:Hr.
    + assert (Hd : dated r = true) by (apply key_of_dated; exists k0; exact Hr).
      rewrite Hd.
      assert (E : forall k, ProcessingThread.in_group k r = ProcessingThread.key_eqb k0 k).
      { intros k. unfold ProcessingThread.in_group. rewrite Hr. reflexivity. }
      etransitivity; [|apply perm_skip; exact IH'].
      etransitivity;
        [|apply (groups_add_row k0 r
                   (fun k => filter (ProcessingThread.in_group k) rs) ks Hnd);
          apply (Hin r k0); [left; reflexivity|exact Hr]].
      match goal with |- Permutation ?a ?b => replace a with b; [reflexivity|] end.
      apply flat_map_ext. intros k. rewrite E. reflexivity.
    + assert (Hd : dated r = false).
      { destruct (dated r) eqn:Hd; [|reflexivity].
        apply key_of_dated in Hd. destruct Hd as [k Hk]. congruence. }
      rewrite Hd. etransitivity; [|exact IH'].
      match goal with |- Permutation ?a ?b => replace a with b; [reflexivity|] end.
      apply flat_map_ext. intros k.
      assert (E : ProcessingThread.in_group k r = false)
        by (unfold ProcessingThread.in_group; rewrite Hr; reflexivity).
      rewrite E. reflexivity.
Qed.

(** X2.  The groups of [groupby] partition the rows of the table that carry
    a date: taken together they hold these rows, each row once, and no row
    whose date is missing; no group is empty; the rows of a group are those
    of its key, in the order of the table; and the keys are in strictly
    increasing order, so no key comes twice.  Where every row carries a
    date, the groups partition the table. *)
Theorem groupby_partition (df_parsed : ParsedFrame) :
  let groups := ProcessingThread.groupby df_parsed in
  Permutation (flat_map (fun kg => prows (snd kg)) groups)
    (filter dated (prows df_parsed)) /\
  (Forall (fun r => DATE r <> None) (prows df_parsed) ->
   Permutation (flat_map (fun kg => prows (snd kg)) groups) (prows df_parsed)) /\
  Forall (fun kg =>
            prows (snd kg) <> [] /\
            width (snd kg) = width df_parsed /\
            prows (snd kg) =
              filter (fun r => match ProcessingThread.key_of r with
                               | Some k => ProcessingThread.key_eqb k (fst kg)
                               | None => false
                               end)
                (prows df_parsed) /\
            Forall (fun r => ProcessingThread.key_of r = Some (fst kg)) (prows (snd kg)))
    groups /\
  StronglySorted key_lt (map fst groups) /\
  NoDup (map fst groups).
Proof.
  intros groups. subst groups. unfold ProcessingThread.groupby.
  pose proof (sorted_group_keys (prows df_parsed)) as Hs.
  pose proof (sorted_keys_nodup _ Hs) as Hnd.
  rewrite map_map. cbn [fst]. rewrite map_id.
  assert (HP : Permutation
                 (flat_map (fun kg : ProcessingThread.key * ParsedFrame => prows (snd kg))
                    (map (fun k => (k, {| width := width df_parsed;
                                          prows := ProcessingThread.group_rows k
                                                     (prows df_parsed) |}))
                       (ProcessingThread.group_keys (prows df_parsed))))
                 (filter dated (prows df_parsed))).
  { rewrite flat_map_concat_map, map_map. cbn [snd prows].
    rewrite <- flat_map_concat_map. apply groups_partition; [exact Hnd|].
    intros r k Hr Hk. apply in_group_keys. exists r. split; assumption. }
  split; [exact HP|]. split; [|split; [|split; assumption]].
  - intros Hall. etransitivity; [exact HP|].
    match goal with |- Permutation ?a ?b => replace a with b; [reflexivity|] end.
    clear HP Hs Hnd. symmetry. induction Hall as [|r rs Hr _ IH]; [reflexivity|].
    cbn [filter]. unfold dated at 1. destruct (DATE r); [|contradiction].
    rewrite IH. reflexivity.
  - apply Forall_forall. intros kg Hkg. apply in_map_iff in Hkg.
    destruct Hkg as [k [<- Hk]]. cbn [fst snd width prows].
    apply in_group_keys in Hk. destruct Hk as [r [Hin Hr]].
    repeat split.
    + intros E. assert (Hf : In r (ProcessingThread.group_rows k (prows df_parsed))).
      { apply filter_In. split; [exact Hin|]. apply in_group_iff. exact Hr. }
      rewrite E in Hf. destruct Hf.
    + apply Forall_forall. intros r0 Hr0. apply filter_In in Hr0.
      apply in_group_iff. tauto.
Qed.

(** ** Reports *)

Lemma mapM_Forall2 {A B : Type} (f : A -> Py.result B) (l : list A) (ys : list B) :
  Py.mapM f l = Py.Ok ys -> Forall2 (fun x y => f x = Py.Ok y) l ys.
Proof.
  revert ys. induction l as [|x l IH]; intros ys; simpl.
  - intros H. injection H as <-. constructor.
  - destruct (f x) as [y|e] eqn:Hx; [|discriminate]. cbn [Py.bind].
    destruct (Py.mapM f l) as [ys'|e]; [|discriminate]. cbn [Py.bind].
    intros H. injection H as <-. constructor; [exact Hx|]. apply IH. reflexivity.
Qed.

(** What the body of the loop makes of a group. *)
Lemma report_fields (k : ProcessingThread.key) (g : ParsedFrame) (r : TowerReport) :
  ProcessingThread.report (k, g) = Py.Ok r ->
  report_key r = k /\
  KPICalculator.calculate_kpis g = Py.Ok (kpi_values r) /\
  Evaluator.evaluate_all (kpi_values r) = (kpi_status r, overall_status r).
Proof.
  destruct k as [tid dt]. cbn [ProcessingThread.report].
  destruct (KPICalculator.calculate_kpis g) as [kv|e]; [|discriminate].
  cbn [Py.bind]. unfold Evaluator.evaluate_all. intros H. injection H as <-.
  repeat split.
Qed.

Lemma Forall2_map_l {A B C : Type} (h : A -> B) (P : B -> C -> Prop)
  (l : list A) (ys : list C) :
  Forall2 P (map h l) ys <-> Forall2 (fun x y => P (h x) y) l ys.
Proof.
  revert ys. induction l as [|x l IH]; intros ys; simpl.
  - split; intros H; inversion H; constructor.
  - split; intros H; inversion H; subst; constructor; auto; apply IH; auto.
Qed.

(** The reports of a table, against its keys. *)
Lemma reports_by_key (df_parsed : ParsedFrame) (reports : list TowerReport) :
  ProcessingThread.reports df_parsed = Py.Ok reports ->
  Forall2
    (fun k r =>
       report_key r = k /\
       KPICalculator.calculate_kpis
         {| width := width df_parsed;
            prows := ProcessingThread.group_rows k (prows df_parsed) |} =
         Py.Ok (kpi_values r) /\
       Evaluator.evaluate_all (kpi_values r) = (kpi_status r, overall_status r))
    (ProcessingThread.group_keys (prows df_parsed)) reports.
Proof.
  unfold ProcessingThread.reports, ProcessingThread.groupby. intros H.
  apply mapM_Forall2 in H. apply Forall2_map_l in H.
  eapply Forall2_impl; [|exact H]. intros k r Hr. exact (report_fields _ _ _ Hr).
Qed.

Lemma Forall2_map_eq {A B : Type} (h : B -> A) (l : list A) (ys : list B) :
  Forall2 (fun x y => h y = x) l ys -> map h ys = l.
Proof.
  induction 1 as [|x y l ys Hxy _ IH]; simpl; [reflexivity|]. rewrite Hxy, IH. reflexivity.
Qed.

(** X3.  When step 4 of [run] succeeds it returns one report per Group Key
    of the table, in the increasing order of the keys and without repeating
    a key.  The keys are those of the rows that carry a date: a key is
    reported exactly when some row has that identifier and that date, and a
    row whose date is missing is counted in no report.  Each report holds the
    KPI Values calculated from the rows of its key and the statuses
    [evaluate_all] gives them. *)
Theorem reports_one_per_key (df_parsed : ParsedFrame) (reports : list TowerReport) :
  ProcessingThread.reports df_parsed = Py.Ok reports ->
  map report_key reports = ProcessingThread.group_keys (prows df_parsed) /\
  StronglySorted key_lt (map report_key reports) /\
  NoDup (map report_key reports) /\
  (forall k, In k (map report_key reports) <->
             exists row, In row (prows df_parsed) /\
                         TOWERID row = fst k /\ DATE row = Some (snd k)) /\
  (forall row, In row (prows df_parsed) -> DATE row = None ->
     forall r, In r reports ->
       ~ In row (ProcessingThread.group_rows (report_key r) (prows df_parsed))) /\
  Forall
    (fun r =>
       KPICalculator.calculate_kpis
         {| width := width df_parsed;
            prows := ProcessingThread.group_rows (report_key r) (prows df_parsed) |} =
         Py.Ok (kpi_values r) /\
       Evaluator.evaluate_all (kpi_values r) = (kpi_status r, overall_status r))
    reports.
Proof.
  intros H. apply reports_by_key in H.
  assert (E : map report_key reports = ProcessingThread.group_keys (prows df_parsed)).
  { apply Forall2_map_eq. eapply Forall2_impl; [|exact H]. intros k r Hr. cbv beta in Hr. exact (proj1 Hr). }
  rewrite E. pose proof (sorted_group_keys (prows df_parsed)) as Hs.
  split; [reflexivity|]. split; [exact Hs|]. split; [exact (sorted_keys_nodup _ Hs)|].
  split; [|split].
  - intros k. rewrite in_group_keys. destruct k as [tid dt]. cbn [fst snd].
    unfold ProcessingThread.key_of.
    split; intros [row [H1 H2]]; exists row; (split; [exact H1|]).
    + destruct (DATE row) as [dt'|]; [|discriminate]. injection H2 as -> ->. auto.
    + destruct H2 as [-> ->]. reflexivity.
  - intros row _ Hd r _ Hin. apply filter_In in Hin. destruct Hin as [_ Hin].
    apply in_group_iff in Hin. unfold ProcessingThread.key_of in Hin.
    rewrite Hd in Hin. discriminate.
  - clear E Hs. induction H as [|k r ks rs Hkr _ IH]; constructor; [|exact IH].
    destruct Hkr as (-> & Hc & He). split; assumption.
Qed.

Lemma reports_one_per_key_witness :
  let reports :=
    [ mkTowerReport "SUM-SU-AKR-0011" (mkdate 2026 1 6)
        (mkKPIValues (Some 100%float) None None None None)
        (mkKPIStatus "PASS" "N/A" "N/A" "N/A" "N/A") "PASS" ] in
  ProcessingThread.reports {| width := 123; prows := undated_row :: rows_big_cancel |} =
    Py.Ok reports /\
  map report_key reports = ProcessingThread.group_keys (undated_row :: rows_big_cancel).
Proof.
  cbv zeta.
  assert (H : ProcessingThread.reports
                {| width := 123; prows := undated_row :: rows_big_cancel |} =
              Py.Ok [ mkTowerReport "SUM-SU-AKR-0011" (mkdate 2026 1 6)
                        (mkKPIValues (Some 100%float) None None None None)
                        (mkKPIStatus "PASS" "N/A" "N/A" "N/A" "N/A") "PASS" ])
    by (vm_compute; reflexivity).
  split; [exact H|].
  exact (proj1 (reports_one_per_key _ _ H)).
Defined.

Lemma list_sum_ones {A : Type} (l : list A) : list_sum (map (fun _ => 1) l) = List.length l.
Proof. induction l as [|x l IH]; simpl; [reflexivity|]. rewrite IH. reflexivity. Qed.

(** Reports that all read PASS or FAIL are counted once each. *)
Lemma counts_add_up (reports : list TowerReport) :
  Forall (fun r => overall_status r = "PASS" \/ overall_status r = "FAIL") reports ->
  Worker.pass_count reports + Worker.fail_count reports = List.length reports.
Proof.
  unfold Worker.pass_count, Worker.fail_count. rewrite !list_sum_ones.
  induction 1 as [|r rs Hr _ IH]; simpl; [reflexivity|].
  destruct Hr as [-> | ->]; simpl; lia.
Qed.

Lemma reports_pass_or_fail (df_parsed : ParsedFrame) (reports : list TowerReport) :
  ProcessingThread.reports df_parsed = Py.Ok reports ->
  Forall (fun r => overall_status r = "PASS" \/ overall_status r = "FAIL") reports.
Proof.
  intros H. apply reports_by_key in H.
  induction H as [|k r ks rs Hkr _ IH]; constructor; [|exact IH].
  destruct Hkr as (_ & _ & He). unfold Evaluator.evaluate_all in He.
  injection He as _ E. rewrite <- E.
  match goal with |- Evaluator.overall ?s = _ \/ _ =>
    destruct (overall_cases s) as [_ Hp];
    destruct (string_dec (Evaluator.overall s) "FAIL") as [F|F]; [right; exact F|left; auto]
  end.
Qed.

(** ** Cleaning keeps the shape of the table *)

Lemma clean_dataframe_nrows (str_of_float : float -> string)
  (to_numeric : string -> option float) (cols : list nat) (df : DataFrame) :
  List.length (rows (DataCleaner.clean_dataframe str_of_float to_numeric df cols)) =
  List.length (rows df).
Proof.
  unfold DataCleaner.clean_dataframe. revert df.
  induction cols as [|j cols IH]; intros df; simpl; [reflexivity|].
  rewrite IH, clean_column_rows. destruct (j <? ncols df); [apply length_map|reflexivity].
Qed.

(** ** The pipeline as a whole *)

Lemma sum_from_num (acc : float) (col : list cell) :
  Forall is_num col -> exists x, KPICalculator.sum_from acc col = Py.Ok x.
Proof.
  intros H. revert acc. induction H as [|c col [x ->] _ IH]; intros acc; simpl.
  - eexists. reflexivity.
  - apply IH.
Qed.

Lemma column_sum_ok (i : nat) (g : ParsedFrame) :
  i < width g ->
  Forall (fun r => is_num (Pandas.cell_at i (cells r))) (prows g) ->
  exists x, KPICalculator.column_sum i g = Py.Ok x.
Proof.
  intros Hi H. unfold KPICalculator.column_sum, KPICalculator.iloc.
  apply Nat.ltb_lt in Hi. rewrite Hi. cbn [Py.bind].
  apply sum_from_num. apply Forall_map. exact H.
Qed.

Lemma calculate_kpis_ok (g : ParsedFrame) :
  122 < width g ->
  (forall i, In i ProcessingThread.numeric_cols ->
     Forall (fun r => is_num (Pandas.cell_at i (cells r))) (prows g)) ->
  exists kv, KPICalculator.calculate_kpis g = Py.Ok kv.
Proof.
  intros Hw H. unfold KPICalculator.calculate_kpis.
  repeat match goal with
  | |- context [KPICalculator.column_sum ?i g] =>
      let x := fresh "x" in let E := fresh "E" in
      destruct (column_sum_ok i g) as [x E];
      [ unfold i; lia
      | apply H; unfold ProcessingThread.numeric_cols; simpl; auto 15
      | rewrite E; cbn [Py.bind] ]
  end.
  eexists. reflexivity.
Qed.

Lemma reports_ok (df_parsed : ParsedFrame) :
  122 < width df_parsed ->
  (forall i, In i ProcessingThread.numeric_cols ->
     Forall (fun r => is_num (Pandas.cell_at i (cells r))) (prows df_parsed)) ->
  exists reports, ProcessingThread.reports df_parsed = Py.Ok reports.
Proof.
  intros Hw H. unfold ProcessingThread.reports.
  destruct (mapM_all_ok ProcessingThread.report (ProcessingThread.groupby df_parsed))
    as [reports [E _]]; [|exists reports; exact E].
  intros [[tid dt] g] Hin. unfold ProcessingThread.groupby in Hin.
  apply in_map_iff in Hin. destruct Hin as [k [Hk _]]. injection Hk as _ <-.
  cbn [ProcessingThread.report].
  destruct (calculate_kpis_ok
              {| width := width df_parsed;
                 prows := ProcessingThread.group_rows k (prows df_parsed) |})
    as [kv E]; [exact Hw| |].
  - intros i Hi. cbn [prows]. unfold ProcessingThread.group_rows.
    specialize (H i Hi). rewrite Forall_forall in H. apply Forall_forall.
    intros r Hr. apply filter_In in Hr. apply H, Hr.
  - rewrite E. cbn [Py.bind]. unfold Evaluator.evaluate_all. eexists. reflexivity.
Qed.

Lemma group_keys_length (rs : list ParsedRow) :
  List.length (ProcessingThread.group_keys rs) <= List.length rs.
Proof.
  assert (Hins : forall k ks,
             List.length (ProcessingThread.insert_key k ks) <= S (List.length ks)).
  { intros k ks. induction ks as [|k' ks IH]; simpl; [lia|].
    destruct (ProcessingThread.key_compare k k'); simpl; lia. }
  induction rs as [|r rs IH]; [simpl; lia|].
  cbn [ProcessingThread.group_keys fold_right].
  fold (ProcessingThread.group_keys rs). unfold ProcessingThread.add_key.
  destruct (ProcessingThread.key_of r) as [k|].
  - specialize (Hins k (ProcessingThread.group_keys rs)). simpl. lia.
  - simpl. lia.
Qed.

Section Pipeline.

Variable str_of_float : float -> string.
Variable to_numeric : string -> option float.
Variable strptime : string -> string -> Py.result datetime.
Variable to_datetime : cell -> Py.result (option date).

Local Abbreviation run := (ProcessingThread.run str_of_float to_numeric strptime to_datetime).
Local Abbreviation clean := (DataCleaner.clean_dataframe str_of_float to_numeric).
Local Abbreviation parse := (DataParser.add_parsed_columns str_of_float strptime to_datetime).

(** What [run] returns is the reports of a parsed table. *)
Lemma run_reports (zip_ref : DataLoader.archive) (reports : list TowerReport) :
  run zip_ref = Py.Ok reports ->
  exists df df_parsed,
    DataLoader.load_from_zip zip_ref = Py.Ok df /\
    parse (clean df ProcessingThread.numeric_cols) = Py.Ok df_parsed /\
    ProcessingThread.reports df_parsed = Py.Ok reports.
Proof.
  unfold ProcessingThread.run, ProcessingThread.parse_and_report.
  destruct (DataLoader.load_from_zip zip_ref) as [df|e]; [|discriminate].
  cbn [Py.bind]. cbv zeta.
  destruct (parse (clean df ProcessingThread.numeric_cols)) as [pf|e] eqn:Hp;
    [|discriminate].
  cbn [Py.bind]. intros H. exists df, pf. split; [reflexivity|]. split; [exact Hp|exact H].
Qed.

(** X4.  On an archive that loads to a table of the 123 columns of the
    layout or more, steps 1 to 4 of [run] raise nothing, whatever the cells
    hold: cleaning leaves floats in the ten summed columns, parsing raises
    on no row, and every group is summed and evaluated.  The list returned
    has at most one report per row of the table. *)
Theorem run_succeeds_on_layout (zip_ref : DataLoader.archive) (df : DataFrame) :
  DataLoader.load_from_zip zip_ref = Py.Ok df ->
  122 < ncols df ->
  exists reports,
    run zip_ref = Py.Ok reports /\
    List.length reports <= List.length (rows df).
Proof.
  intros Hload Hw. unfold ProcessingThread.run, ProcessingThread.parse_and_report.
  rewrite Hload. cbn [Py.bind]. cbv zeta.
  destruct (add_parsed_columns_ok str_of_float strptime to_datetime
              (clean df ProcessingThread.numeric_cols))
    as (pf & Hp & Hwd & Hcells & _).
  { rewrite clean_dataframe_ncols. unfold ColumnIndex.MANAGED_ELEMENT_NAME. lia. }
  rewrite Hp. cbn [Py.bind].
  rewrite clean_dataframe_ncols in Hwd.
  destruct (reports_ok pf) as [reports Hr].
  { rewrite Hwd. exact Hw. }
  { intros i Hi.
    assert (Hn : Forall (fun r => is_num (Pandas.cell_at i r))
                   (rows (clean df ProcessingThread.numeric_cols))).
    { apply clean_dataframe_num; [exact Hi|].
      unfold ProcessingThread.numeric_cols in Hi. simpl in Hi.
      repeat (destruct Hi as [<-|Hi];
              [unfold ColumnIndex.SN_ADDITION_NUM, ColumnIndex.SN_ADDITION_DEN,
                 ColumnIndex.ABNORMAL_SN_RELEASE_NUM, ColumnIndex.ABNORMAL_SN_RELEASE_DEN,
                 ColumnIndex.DL_UE_THROUGHPUT_NUM, ColumnIndex.DL_UE_THROUGHPUT_DEN,
                 ColumnIndex.UL_UE_THROUGHPUT_NUM, ColumnIndex.UL_UE_THROUGHPUT_DEN,
                 ColumnIndex.DL_SE_MAPPING_NUM, ColumnIndex.DL_SE_MAPPING_DEN; lia|]).
      destruct Hi. }
    rewrite <- Hcells in Hn. rewrite Forall_map in Hn. exact Hn. }
  exists reports. split; [exact Hr|].
  rewrite <- (Forall2_length (reports_by_key pf reports Hr)).
  rewrite <- (clean_dataframe_nrows str_of_float to_numeric ProcessingThread.numeric_cols df).
  rewrite <- Hcells, length_map. apply group_keys_length.
Qed.

(** X5.  A table of six columns or fewer stops the pipeline at step 3: the
    element name, at position 6, is outside the table, [run] raises
    [IndexError] and the worker emits [error] instead of [finished],
    without calling [create_report]. *)
Theorem run_narrow_table (create_report : list TowerReport -> Py.result unit)
  (zip_ref : DataLoader.archive) (df : DataFrame) :
  DataLoader.load_from_zip zip_ref = Py.Ok df ->
  ncols df <= ColumnIndex.MANAGED_ELEMENT_NAME ->
  run zip_ref = Py.Raise Py.IndexError /\
  Worker.run str_of_float to_numeric strptime to_datetime create_report zip_ref =
    Worker.Error Py.IndexError.
Proof.
  intros Hload Hw.
  assert (H : run zip_ref = Py.Raise Py.IndexError).
  { unfold ProcessingThread.run, ProcessingThread.parse_and_report.
    rewrite Hload. cbn [Py.bind]. cbv zeta.
    unfold DataParser.add_parsed_columns, Pandas.iloc.
    rewrite clean_dataframe_ncols. apply Nat.ltb_ge in Hw. rewrite Hw. reflexivity. }
  split; [exact H|]. unfold Worker.run. rewrite H. reflexivity.
Qed.

(** X6.  When the worker finishes, the counts it emits add up: every report
    is counted as passed or as failed, since an overall status is one of the
    two; and it finishes only if steps 1 to 4 returned the reports counted and
    the report was written. *)
Theorem worker_counts (create_report : list TowerReport -> Py.result unit)
  (zip_ref : DataLoader.archive) (total pass fail : nat) :
  Worker.run str_of_float to_numeric strptime to_datetime create_report zip_ref =
    Worker.Finished total pass fail ->
  pass + fail = total /\
  exists reports,
    run zip_ref = Py.Ok reports /\
    create_report reports = Py.Ok tt /\
    total = List.length reports /\
    pass = List.length (filter (fun r => String.eqb (overall_status r) "PASS") reports) /\
    fail = List.length (filter (fun r => negb (String.eqb (overall_status r) "PASS")) reports).
Proof.
  unfold Worker.run.
  destruct (run zip_ref) as [reports|e] eqn:Hrun; cbn [Py.bind]; [|discriminate].
  destruct (create_report reports) as [[]|e] eqn:Hc; cbn [Py.bind]; [|discriminate].
  intros H. injection H as <- <- <-.
  destruct (run_reports zip_ref reports Hrun) as (df & pf & _ & _ & Hr).
  pose proof (reports_pass_or_fail pf reports Hr) as Hpf.
  split; [apply counts_add_up; exact Hpf|].
  exists reports. split; [reflexivity|]. split; [exact Hc|]. split; [reflexivity|].
  unfold Worker.pass_count, Worker.fail_count. rewrite !list_sum_ones.
  split; [reflexivity|]. f_equal. apply filter_ext_in. intros r Hr'.
  rewrite Forall_forall in Hpf. destruct (Hpf r Hr') as [-> | ->]; reflexivity.
Qed.

End Pipeline.

Lemma run_succeeds_on_layout_witness :
  exists reports,
    ProcessingThread.run (fun _ => "nan") to_numeric_words Strptime.strptime
      (fun _ => Py.Raise Py.TypeError) sample_archive = Py.Ok reports /\
    List.length reports <= 2.
Proof.
  apply (run_succeeds_on_layout (fun _ => "nan") to_numeric_words Strptime.strptime
           (fun _ => Py.Raise Py.TypeError) sample_archive sample_table).
  - reflexivity.
  - simpl. lia.
Defined.

Lemma run_narrow_table_witness :
  ProcessingThread.run (fun _ => "nan") to_numeric_words Strptime.strptime
    (fun _ => Py.Raise Py.TypeError) narrow_archive = Py.Raise Py.IndexError /\
  Worker.run (fun _ => "nan") to_numeric_words Strptime.strptime
    (fun _ => Py.Raise Py.TypeError) (fun _ => Py.Ok tt) narrow_archive =
    Worker.Error Py.IndexError.
Proof.
  apply (run_narrow_table (fun _ => "nan") to_numeric_words Strptime.strptime
           (fun _ => Py.Raise Py.TypeError) (fun _ => Py.Ok tt) narrow_archive
           {| ncols := 2; rows := [[CStr "1/6/2026"; CStr "NR_SUM-SU-AKR-0011_DU"]] |}).
  - reflexivity.
  - unfold ColumnIndex.MANAGED_ELEMENT_NAME. simpl. lia.
Defined.

Lemma worker_counts_witness :
  Worker.run (fun _ => "nan") to_numeric_words Strptime.strptime
    (fun _ => Py.Raise Py.TypeError) (fun _ => Py.Ok tt) sample_archive =
    Worker.Finished 1 1 0 /\
  1 + 0 = 1.
Proof.
  assert (H : Worker.run (fun _ => "nan") to_numeric_words Strptime.strptime
                (fun _ => Py.Raise Py.TypeError) (fun _ => Py.Ok tt) sample_archive =
              Worker.Finished 1 1 0)
    by (vm_compute; reflexivity).
  split; [exact H|].
  exact (proj1 (worker_counts _ _ _ _ _ _ _ _ _ H)).
Defined.

(** ** Evaluation of a report *)

Lemma SFcompare_refl_not_nan (a : spec_float) :
  SFcompare a a <> Some Eq -> a = S754_nan.
Proof.
  destruct a as [s|s| |s m e]; simpl; intros H; try reflexivity; exfalso; apply H.
  - reflexivity.
  - destruct s; reflexivity.
  - destruct s; rewrite Z.compare_refl;
      fold (Pos.compare m m); rewrite Pos.compare_refl; reflexivity.
Qed.

(** No comparison holds of a value that is not a number. *)
Lemma leb_nan (x y : float) :
  PrimFloat.is_nan x = true -> PrimFloat.leb x y = false /\ PrimFloat.leb y x = false.
Proof.
  unfold PrimFloat.is_nan. rewrite eqb_spec, !leb_spec. unfold SFeqb, SFleb.
  intros H.
  assert (E : Prim2SF x = S754_nan).
  { apply SFcompare_refl_not_nan. intros E. rewrite E in H. discriminate. }
  rewrite E. split; [reflexivity|].
  destruct (Prim2SF y) as [s|s| |s m e]; reflexivity.
Qed.

Lemma evaluate_kpi_ge_not_fail (v : option float) (t : float) :
  Evaluator.evaluate_kpi v t ">=" <> "FAIL" <-> missing_or (fun x => PrimFloat.leb t x) v.
Proof.
  destruct v as [x|]; simpl; [|split; [intros _; exact I|discriminate]].
  destruct (PrimFloat.leb t x); split; intros H; try reflexivity; try discriminate.
  exfalso. apply H. reflexivity.
Qed.

Lemma evaluate_kpi_le_not_fail (v : option float) (t : float) :
  Evaluator.evaluate_kpi v t "<=" <> "FAIL" <-> missing_or (fun x => PrimFloat.leb x t) v.
Proof.
  destruct v as [x|]; simpl; [|split; [intros _; exact I|discriminate]].
  destruct (PrimFloat.leb x t); split; intros H; try reflexivity; try discriminate.
  exfalso. apply H. reflexivity.
Qed.

Lemma evaluate_kpi_na (v : option float) (t : float) (compare : string) :
  Evaluator.evaluate_kpi v t compare = "N/A" <-> v = None.
Proof.
  unfold Evaluator.evaluate_kpi. destruct v as [x|]; [|split; reflexivity].
  destruct (String.eqb compare ">=");
    [destruct (PrimFloat.leb t x)|destruct (PrimFloat.leb x t)]; split; discriminate.
Qed.

(** X7.  [evaluate_all] gives the overall status ["PASS"] exactly when every
    KPI value is missing or on the passing side of its threshold (at least
    95 for the SgNB Add Success Rate, at most 5 for the SgNB Drop Rate, at
    least 5, 1.5 and 0.9 for the two throughputs and the spectrum
    efficiency), and ["FAIL"] otherwise; a status is ["N/A"] exactly when
    its value is missing.  A value that is not a number is on no passing
    side. *)
Theorem evaluate_all_pass_iff (kv : KPIValues) :
  let (status, overall) := Evaluator.evaluate_all kv in
  (overall = "PASS" <->
     missing_or (fun x => PrimFloat.leb KPIThreshold.SGNB_ADD_SUCCESS_RATE_MIN x)
       (v_sgnb_add_success_rate kv) /\
     missing_or (fun x => PrimFloat.leb x KPIThreshold.SGNB_DROP_RATE_MAX)
       (v_sgnb_drop_rate kv) /\
     missing_or (fun x => PrimFloat.leb KPIThreshold.DL_THROUGHPUT_MIN x)
       (v_dl_user_throughput kv) /\
     missing_or (fun x => PrimFloat.leb KPIThreshold.UL_THROUGHPUT_MIN x)
       (v_ul_user_throughput kv) /\
     missing_or (fun x => PrimFloat.leb KPIThreshold.DL_SPECTRUM_EFFICIENCY_MIN x)
       (v_dl_spectrum_efficiency kv)) /\
  (overall = "PASS" \/ overall = "FAIL") /\
  (sgnb_add_success_rate status = "N/A" <-> v_sgnb_add_success_rate kv = None) /\
  (sgnb_drop_rate status = "N/A" <-> v_sgnb_drop_rate kv = None) /\
  (dl_user_throughput status = "N/A" <-> v_dl_user_throughput kv = None) /\
  (ul_user_throughput status = "N/A" <-> v_ul_user_throughput kv = None) /\
  (dl_spectrum_efficiency status = "N/A" <-> v_dl_spectrum_efficiency kv = None) /\
  (forall x, PrimFloat.is_nan x = true ->
     forall threshold compare,
       Evaluator.evaluate_kpi (Some x) threshold compare = "FAIL").
Proof.
  unfold Evaluator.evaluate_all.
  set (status := {| sgnb_add_success_rate := _ |}).
  destruct (overall_cases status) as [Hfail Hpass].
  split; [|split; [|repeat split]].
  - rewrite <- evaluate_kpi_ge_not_fail, <- evaluate_kpi_le_not_fail,
      <- !evaluate_kpi_ge_not_fail.
    split.
    + intros H. repeat split; intros F;
        assert (HF : Evaluator.overall status = "FAIL")
          by (apply Hfail; subst status; cbn; tauto);
        rewrite H in HF; discriminate.
    + intros (H1 & H2 & H3 & H4 & H5). apply Hpass. intros HF. apply Hfail in HF.
      subst status. cbn in HF. tauto.
  - destruct (string_dec (Evaluator.overall status) "FAIL") as [F|F]; [right|left]; auto.
  - apply evaluate_kpi_na.
  - apply evaluate_kpi_na.
  - apply evaluate_kpi_na.
  - apply evaluate_kpi_na.
  - apply evaluate_kpi_na.
  - apply evaluate_kpi_na.
  - apply evaluate_kpi_na.
  - apply evaluate_kpi_na.
  - apply evaluate_kpi_na.
  - apply evaluate_kpi_na.
  - intros x Hx threshold compare. unfold Evaluator.evaluate_kpi.
    destruct (String.eqb compare ">=");
      [rewrite (proj2 (leb_nan x threshold Hx))|rewrite (proj1 (leb_nan x threshold Hx))];
      reflexivity.
Qed.

(** ** A tower without traffic *)

Lemma sum_from_no_traffic (col : list cell) :
  Forall (fun c => no_traffic c = true) col ->
  KPICalculator.sum_from 0 col = Py.Ok 0%float.
Proof.
  induction 1 as [|c col Hc _ IH]; [reflexivity|].
  destruct c as [s|x|]; simpl in Hc; [discriminate| |]; cbn [KPICalculator.sum_from
    KPICalculator.summand Py.bind].
  - fold (nz x). destruct (nz_zero_or_missing x Hc) as [-> | ->]; exact IH.
  - exact IH.
Qed.

Lemma sum_from_no_text (acc : float) (col : list cell) :
  Forall (fun c => is_text c = false) col ->
  exists x, KPICalculator.sum_from acc col = Py.Ok x.
Proof.
  intros H. revert acc. induction H as [|c col Hc _ IH]; intros acc; simpl.
  - eexists. reflexivity.
  - destruct c as [s|x|]; [discriminate| |]; apply IH.
Qed.

Lemma safe_divide_zero (n multiply : float) :
  KPICalculator.safe_divide (Some n) (Some 0%float) multiply = None.
Proof.
  unfold KPICalculator.safe_divide.
  change (PrimFloat.eqb 0 0) with true. rewrite orb_true_r. reflexivity.
Qed.

(** X8.  A group of the 123-column layout whose five denominator columns
    hold only zeros and missing values, and whose numerator columns hold no
    text, gets five missing KPI values, whatever the numerators are; its
    report reads ["N/A"] five times and its overall status is ["PASS"]. *)
Theorem no_traffic_report (tower : string) (dt : date) (group : ParsedFrame) :
  122 < width group ->
  (forall i, In i ProcessingThread.numeric_cols ->
     Forall (fun r => is_text (Pandas.cell_at i (cells r)) = false) (prows group)) ->
  (forall i, In i denominators ->
     Forall (fun r => no_traffic (Pandas.cell_at i (cells r)) = true) (prows group)) ->
  KPICalculator.calculate_kpis group = Py.Ok (mkKPIValues None None None None None) /\
  ProcessingThread.report ((tower, dt), group) =
    Py.Ok (mkTowerReport tower dt (mkKPIValues None None None None None)
             (mkKPIStatus "N/A" "N/A" "N/A" "N/A" "N/A") "PASS").
Proof.
  intros Hw Hnum Hden.
  assert (Hn : forall i, In i ProcessingThread.numeric_cols -> i < 123 ->
                 exists x, KPICalculator.column_sum i group = Py.Ok x).
  { intros i Hi Hlt. unfold KPICalculator.column_sum, KPICalculator.iloc.
    assert (E : (i <? width group) = true) by (apply Nat.ltb_lt; lia).
    rewrite E. cbn [Py.bind]. apply sum_from_no_text. apply Forall_map. apply Hnum, Hi. }
  assert (Hd : forall i, In i denominators -> i < 123 ->
                 KPICalculator.column_sum i group = Py.Ok 0%float).
  { intros i Hi Hlt. unfold KPICalculator.column_sum, KPICalculator.iloc.
    assert (E : (i <? width group) = true) by (apply Nat.ltb_lt; lia).
    rewrite E. cbn [Py.bind]. apply sum_from_no_traffic. apply Forall_map. apply Hden, Hi. }
  assert (Hk : KPICalculator.calculate_kpis group =
               Py.Ok (mkKPIValues None None None None None)).
  { unfold KPICalculator.calculate_kpis.
    destruct (Hn ColumnIndex.SN_ADDITION_NUM) as [n1 ->];
      [unfold ProcessingThread.numeric_cols; simpl; auto 15|cbv; lia|].
    rewrite (Hd ColumnIndex.SN_ADDITION_DEN)
      by (unfold denominators; simpl; auto 15 || (cbv; lia)).
    destruct (Hn ColumnIndex.ABNORMAL_SN_RELEASE_NUM) as [n2 ->];
      [unfold ProcessingThread.numeric_cols; simpl; auto 15|cbv; lia|].
    rewrite (Hd ColumnIndex.ABNORMAL_SN_RELEASE_DEN)
      by (unfold denominators; simpl; auto 15 || (cbv; lia)).
    destruct (Hn ColumnIndex.DL_UE_THROUGHPUT_NUM) as [n3 ->];
      [unfold ProcessingThread.numeric_cols; simpl; auto 15|cbv; lia|].
    rewrite (Hd ColumnIndex.DL_UE_THROUGHPUT_DEN)
      by (unfold denominators; simpl; auto 15 || (cbv; lia)).
    destruct (Hn ColumnIndex.UL_UE_THROUGHPUT_NUM) as [n4 ->];
      [unfold ProcessingThread.numeric_cols; simpl; auto 15|cbv; lia|].
    rewrite (Hd ColumnIndex.UL_UE_THROUGHPUT_DEN)
      by (unfold denominators; simpl; auto 15 || (cbv; lia)).
    destruct (Hn ColumnIndex.DL_SE_MAPPING_NUM) as [n5 ->];
      [unfold ProcessingThread.numeric_cols; simpl; auto 15|cbv; lia|].
    rewrite (Hd ColumnIndex.DL_SE_MAPPING_DEN)
      by (unfold denominators; simpl; auto 15 || (cbv; lia)).
    cbn [Py.bind]. rewrite !safe_divide_zero. reflexivity. }
  split; [exact Hk|].
  cbn [ProcessingThread.report]. rewrite Hk. reflexivity.
Qed.

Lemma no_traffic_report_witness :
  ProcessingThread.report
    (("SUM-SU-AKR-0011", mkdate 2026 1 6), {| width := 123; prows := [idle_row; idle_row] |}) =
  Py.Ok (mkTowerReport "SUM-SU-AKR-0011" (mkdate 2026 1 6)
           (mkKPIValues None None None None None)
           (mkKPIStatus "N/A" "N/A" "N/A" "N/A" "N/A") "PASS").
Proof.
  apply (no_traffic_report "SUM-SU-AKR-0011" (mkdate 2026 1 6)
           {| width := 123; prows := [idle_row; idle_row] |}).
  - simpl. lia.
  - intros i Hi. unfold ProcessingThread.numeric_cols in Hi. simpl in Hi.
    repeat (destruct Hi as [<-|Hi]; [repeat constructor|]). destruct Hi.
  - intros i Hi. unfold denominators in Hi. simpl in Hi.
    repeat (destruct Hi as [<-|Hi]; [repeat constructor|]). destruct Hi.
Defined.

(** ** What cleaning leaves alone *)

Lemma clean_column_row_lengths (str_of_float : float -> string)
  (to_numeric : string -> option float) (df : DataFrame) (j : nat) :
  map (@List.length cell) (rows (DataCleaner.clean_column str_of_float to_numeric df j)) =
  map (@List.length cell) (rows df).
Proof.
  rewrite clean_column_rows. destruct (j <? ncols df); [|reflexivity].
  rewrite map_map. apply map_ext. intros r. rewrite !map_at_length. reflexivity.
Qed.

Lemma clean_column_out_of_range (str_of_float : float -> string)
  (to_numeric : string -> option float) (df : DataFrame) (j : nat) :
  ncols df <= j -> DataCleaner.clean_column str_of_float to_numeric df j = df.
Proof.
  intros H. unfold DataCleaner.clean_column. apply Nat.ltb_ge in H. rewrite H. reflexivity.
Qed.

(** X9.  [clean_dataframe] keeps the shape of the table (its columns, its
    rows and the length of each row), changes no cell of a column that is
    not designated, and skips a designated position that is outside the
    table: the result is that of cleaning the in-range positions alone. *)
Theorem clean_dataframe_frame
  (str_of_float : float -> string) (to_numeric : string -> option float)
  (df : DataFrame) (numeric_columns : list nat) :
  let df_clean := DataCleaner.clean_dataframe str_of_float to_numeric df numeric_columns in
  ncols df_clean = ncols df /\
  map (@List.length cell) (rows df_clean) = map (@List.length cell) (rows df) /\
  (forall i, ~ In i numeric_columns ->
     map (Pandas.cell_at i) (rows df_clean) = map (Pandas.cell_at i) (rows df)) /\
  df_clean =
    DataCleaner.clean_dataframe str_of_float to_numeric df
      (filter (fun col_idx => col_idx <? ncols df) numeric_columns).
Proof.
  cbv zeta. split; [apply clean_dataframe_ncols|]. split; [|split].
  - unfold DataCleaner.clean_dataframe. revert df.
    induction numeric_columns as [|j cols IH]; intros df; simpl; [reflexivity|].
    rewrite IH. apply clean_column_row_lengths.
  - intros i Hi. apply clean_dataframe_other. exact Hi.
  - unfold DataCleaner.clean_dataframe. revert df.
    induction numeric_columns as [|j cols IH]; intros df; simpl; [reflexivity|].
    destruct (j <? ncols df) eqn:Hj.
    + simpl. rewrite IH, clean_column_ncols. reflexivity.
    + rewrite clean_column_out_of_range by (apply Nat.ltb_ge; exact Hj). apply IH.
Qed.

(** ** Loading: which members count *)

Lemma mapM_first_error {A B : Type} (f : A -> Py.result B) (before after : list A)
  (x : A) (e : Py.exn) :
  (forall y, In y before -> exists b, f y = Py.Ok b) ->
  f x = Py.Raise e ->
  Py.mapM f (before ++ x :: after)%list = Py.Raise e.
Proof.
  intros Hb Hx. induction before as [|y before IH]; simpl.
  - rewrite Hx. reflexivity.
  - destruct (Hb y (or_introl eq_refl)) as [b ->]. cbn [Py.bind].
    rewrite IH; [reflexivity|]. intros z Hz. apply Hb. right. exact Hz.
Qed.

(** X10.  [load_from_zip] reads the eligible members in archive order and
    stops at the first one [read_csv] fails on: it raises the exception of
    that member, whatever the members after it are. *)
Theorem load_from_zip_first_error (before after : DataLoader.archive)
  (m : DataLoader.member) (e : Py.exn) :
  (forall m', In m' before -> DataLoader.eligible (DataLoader.name m') = true ->
     exists t, DataLoader.read_csv m' = Py.Ok t) ->
  DataLoader.eligible (DataLoader.name m) = true ->
  DataLoader.read_csv m = Py.Raise e ->
  DataLoader.load_from_zip (before ++ m :: after)%list = Py.Raise e.
Proof.
  intros Hb Hm He. unfold DataLoader.load_from_zip.
  rewrite filter_app. cbn [filter]. rewrite Hm.
  rewrite (mapM_first_error DataLoader.read_csv _ _ m e).
  - destruct (filter _ before); reflexivity.
  - intros m' Hin. apply filter_In in Hin. apply Hb; tauto.
  - exact He.
Qed.

Lemma load_from_zip_first_error_witness :
  DataLoader.load_from_zip
    ([DataLoader.mkmember "readme.txt" (Py.Raise Py.IndexError);
      DataLoader.mkmember "cells.csv" (Py.Ok sample_csv)] ++
     DataLoader.mkmember "broken.csv" (Py.Raise (Py.ValueError "No columns to parse from file"))
     :: [DataLoader.mkmember "late.csv" (Py.Raise Py.TypeError)])%list =
  Py.Raise (Py.ValueError "No columns to parse from file").
Proof.
  apply load_from_zip_first_error.
  - intros m' [<-|[<-|[]]] H; [discriminate H|]. eexists. reflexivity.
  - reflexivity.
  - reflexivity.
Defined.

(** X11.  A member that is not eligible (its name does not end with [.csv],
    or ends with [_KPI(Counter).csv]) is never read: with or without it the
    archive loads to the same result, and what reading it would have
    returned or raised plays no part. *)
Theorem load_from_zip_skips_ineligible (before after : DataLoader.archive)
  (m : DataLoader.member) :
  DataLoader.eligible (DataLoader.name m) = false ->
  DataLoader.load_from_zip (before ++ m :: after)%list =
  DataLoader.load_from_zip (before ++ after)%list.
Proof.
  intros Hm. unfold DataLoader.load_from_zip.
  rewrite !filter_app. cbn [filter]. rewrite Hm. reflexivity.
Qed.

Lemma load_from_zip_skips_ineligible_witness :
  DataLoader.load_from_zip
    ([DataLoader.mkmember "cells.csv" (Py.Ok sample_csv)] ++
     DataLoader.mkmember "cells_KPI(Counter).csv" (Py.Raise Py.TypeError) :: [])%list =
  DataLoader.load_from_zip ([DataLoader.mkmember "cells.csv" (Py.Ok sample_csv)] ++ [])%list.
Proof.
  apply load_from_zip_skips_ineligible. reflexivity.
Defined.

(** ** The Summary sheet *)

Lemma update_nth_app {A : Type} (d : A) (f : A -> A) (pre : list A) (x : A)
  (rest : list A) :
  Openpyxl.update_nth d (List.length pre) f (pre ++ x :: rest)%list =
  (pre ++ f x :: rest)%list.
Proof.
  induction pre as [|y pre IH]; simpl; [reflexivity|]. rewrite IH. reflexivity.
Qed.

Lemma cell_in_row (pre : list (list Openpyxl.Cell)) (r : list Openpyxl.Cell)
  (rest : list (list Openpyxl.Cell)) (column : nat) (f : Openpyxl.Cell -> Openpyxl.Cell) :
  0 < column ->
  Openpyxl.cell (S (List.length pre)) column f (pre ++ r :: rest)%list =
  Py.Ok (pre ++ Openpyxl.update_nth (Openpyxl.new_cell Openpyxl.VNone) (column - 1) f r
             :: rest)%list.
Proof.
  intros Hc. unfold Openpyxl.cell.
  destruct column as [|c]; [lia|]. cbn [Nat.eqb orb Nat.sub].
  rewrite Nat.sub_0_r, update_nth_app. reflexivity.
Qed.

Section Summary.

Variable strftime : date -> string -> string.
Variable round2 : float -> float.
Variable str_of_float : float -> string.

Local Abbreviation raw_row :=
  (fun report => map Openpyxl.new_cell (ExcelGenerator.row strftime round2 report)).

Lemma append_rows (reports : list TowerReport) (ws : Openpyxl.Worksheet) :
  fold_left (fun ws report =>
               Openpyxl.append (ExcelGenerator.row strftime round2 report) ws) reports ws =
  (ws ++ map raw_row reports)%list.
Proof.
  revert ws. induction reports as [|r reports IH]; intros ws; simpl.
  - rewrite app_nil_r. reflexivity.
  - rewrite IH. unfold Openpyxl.append. rewrite <- app_assoc. reflexivity.
Qed.

(** One turn of the formatting loop finishes the row of its report. *)
Lemma format_row_finishes (pre : Openpyxl.Worksheet) (report : TowerReport)
  (rest : Openpyxl.Worksheet) :
  ExcelGenerator.format_row (pre ++ raw_row report :: rest)%list
    (S (List.length pre), report) =
  Py.Ok (pre ++ summary_row strftime round2 report :: rest)%list.
Proof.
  unfold ExcelGenerator.format_row.
  rewrite cell_in_row by lia. cbn [Py.bind Openpyxl.foldM].
  repeat (rewrite cell_in_row by lia; cbn [Py.bind Openpyxl.foldM seq]).
  reflexivity.
Qed.

(** The formatting loop, on the rows below [pre]. *)
Lemma format_rows (reports : list TowerReport) (pre : Openpyxl.Worksheet) :
  Openpyxl.foldM ExcelGenerator.format_row
    (combine (seq (S (List.length pre)) (List.length reports)) reports)
    (pre ++ map raw_row reports)%list =
  Py.Ok (pre ++ map (summary_row strftime round2) reports)%list.
Proof.
  revert pre. induction reports as [|r reports IH]; intros pre; [reflexivity|].
  cbn [List.length seq combine map Openpyxl.foldM].
  rewrite format_row_finishes. cbn [Py.bind].
  specialize (IH (pre ++ [summary_row strftime round2 r])%list).
  rewrite length_app, Nat.add_1_r, <- !app_assoc in IH. exact IH.
Qed.

(** The sheet [create_report] builds, before the widths are set. *)
Lemma create_report_sheet (reports : list TowerReport) :
  ExcelGenerator.create_report strftime round2 str_of_float reports =
  (widths <- ExcelGenerator.column_widths str_of_float
               (summary_header :: map (summary_row strftime round2) reports) ;;
   Py.Ok (summary_header :: map (summary_row strftime round2) reports, widths)).
Proof.
  unfold ExcelGenerator.create_report. cbv zeta.
  rewrite append_rows.
  change (ExcelGenerator.style_first_row (Openpyxl.append (map Openpyxl.VStr ExcelGenerator.headers) []))
    with [summary_header].
  pose proof (format_rows reports [summary_header]) as H. cbn [List.length] in H.
  rewrite H. reflexivity.
Qed.

Lemma fold_left_max_ge (xs : list nat) (x : nat) :
  x <= fold_left Nat.max xs x /\ Forall (fun y => y <= fold_left Nat.max xs x) xs.
Proof.
  revert x. induction xs as [|y xs IH]; intros x; simpl; [split; [lia|constructor]|].
  destruct (IH (Nat.max x y)) as [H1 H2]. split; [lia|].
  constructor; [lia|exact H2].
Qed.

(** The widths of a sheet that has a row: none above 50, and each wide
    enough for the text of every cell of its column plus 2, up to 50. *)
Lemma column_widths_spec (ws : Openpyxl.Worksheet) :
  ws <> [] ->
  exists widths,
    ExcelGenerator.column_widths str_of_float ws = Py.Ok widths /\
    Forall2
      (fun column w =>
         w <= 50 /\
         Forall (fun c =>
                   Nat.min (String.length (ExcelGenerator.str str_of_float (Openpyxl.value_ c)) + 2)
                     50 <= w) column)
      (Openpyxl.columns ws) widths.
Proof.
  intros Hne. unfold ExcelGenerator.column_widths.
  match goal with |- context [Py.mapM ?f _] => set (width_of := f) end.
  destruct (mapM_all_ok width_of (Openpyxl.columns ws)) as [widths [E HF]].
  - intros column Hin. unfold Openpyxl.columns in Hin. apply in_map_iff in Hin.
    destruct Hin as [c [<- _]]. unfold width_of, Openpyxl.max_row.
    destruct ws as [|r ws]; [contradiction|]. cbn [List.length seq map Openpyxl.max Py.bind].
    eexists. reflexivity.
  - exists widths. split; [exact E|].
    eapply Forall2_impl; [|exact HF]. intros column w Hw. unfold width_of in Hw.
    destruct column as [|c column]; [discriminate|].
    cbn [map Openpyxl.max Py.bind] in Hw. injection Hw as <-.
    split; [lia|].
    match goal with |- context [fold_left Nat.max ?xs ?x] =>
      destruct (fold_left_max_ge xs x) as [H1 H2] end.
    constructor; [lia|].
    rewrite Forall_map in H2. eapply Forall_impl; [|exact H2].
    intros c' Hc'. cbv beta in Hc'. lia.
Qed.

Lemma summary_max_column (reports : list TowerReport) :
  Openpyxl.max_column (summary_header :: map (summary_row strftime round2) reports) = 13.
Proof.
  unfold Openpyxl.max_column. cbn [map]. rewrite map_map.
  apply Nat.le_antisymm.
  - apply list_max_le. constructor; [reflexivity|].
    apply Forall_map, Forall_forall. intros r _. reflexivity.
  - change (13 <= Nat.max 13 (list_max (map (fun x => List.length (summary_row strftime round2 x))
                                          reports))).
    lia.
Qed.

Lemma summary_read (reports : list TowerReport) (i : nat) (report : TowerReport)
  (column : nat) :
  nth_error reports i = Some report ->
  Openpyxl.read (i + 2) column (summary_header :: map (summary_row strftime round2) reports) =
  nth (column - 1) (summary_row strftime round2 report) (Openpyxl.new_cell Openpyxl.VNone).
Proof.
  intros H. unfold Openpyxl.read.
  replace (i + 2 - 1) with (S i) by lia. cbn [nth].
  rewrite (nth_error_nth _ _ _ (map_nth_error (summary_row strftime round2) _ _ H)).
  reflexivity.
Qed.

(** X12.  The sheet [create_report] has built when it saves holds the
    thirteen headers in its first row and below it one row of thirteen
    cells per report, in the order of the reports: row [i + 2] starts with
    the tower identifier of report [i] and its date as [strftime] writes it
    in the format [%m/%d/%Y], both centred.  The three loops address no
    position outside the sheet, so none of their accesses fails. *)
Theorem summary_sheet_rows (reports : list TowerReport) :
  exists ws widths,
    ExcelGenerator.create_report strftime round2 str_of_float reports = Py.Ok (ws, widths) /\
    Openpyxl.max_row ws = 1 + List.length reports /\
    Forall (fun r => List.length r = 13) ws /\
    map Openpyxl.value_ (hd [] ws) = map Openpyxl.VStr ExcelGenerator.headers /\
    forall i report, nth_error reports i = Some report ->
      Openpyxl.read (i + 2) 1 ws = centered (Openpyxl.VStr (tower_id report)) /\
      Openpyxl.read (i + 2) 2 ws =
        centered (Openpyxl.VStr (strftime (report_date report) "%m/%d/%Y")).
Proof.
  destruct (column_widths_spec (summary_header :: map (summary_row strftime round2) reports))
    as [widths [E _]]; [discriminate|].
  eexists. exists widths. rewrite create_report_sheet, E. cbn [Py.bind].
  split; [reflexivity|]. split; [|split; [|split]].
  - unfold Openpyxl.max_row. cbn [List.length]. rewrite length_map. reflexivity.
  - constructor; [reflexivity|]. apply Forall_map, Forall_forall. reflexivity.
  - reflexivity.
  - intros i report H. rewrite !(summary_read reports i report _ H). split; reflexivity.
Qed.

(** X13.  In the finished sheet the cell that shows a status, in columns 3
    to 8 of the row of a report, reads [PASS] on the green fill if the
    status is ["PASS"], and [FAIL] on the red fill for every other status:
    a KPI whose status is ["N/A"] is shown as [FAIL], and no cell of these
    columns reads [N/A]. *)
Theorem summary_status_cells (reports : list TowerReport) :
  exists ws widths,
    ExcelGenerator.create_report strftime round2 str_of_float reports = Py.Ok (ws, widths) /\
    forall i report column status,
      nth_error reports i = Some report ->
      In (column, status) (status_columns report) ->
      (status = "PASS" ->
       Openpyxl.read (i + 2) column ws =
         Openpyxl.mkCell (Openpyxl.VStr "PASS") ExcelGenerator.GREEN_FILL
           ExcelGenerator.DARK_GREEN_TEXT ExcelGenerator.CENTER_ALIGNMENT) /\
      (status <> "PASS" ->
       Openpyxl.read (i + 2) column ws =
         Openpyxl.mkCell (Openpyxl.VStr "FAIL") ExcelGenerator.RED_FILL
           ExcelGenerator.DARK_RED_TEXT ExcelGenerator.CENTER_ALIGNMENT) /\
      (status = "N/A" ->
       Openpyxl.value_ (Openpyxl.read (i + 2) column ws) = Openpyxl.VStr "FAIL") /\
      Openpyxl.value_ (Openpyxl.read (i + 2) column ws) <> Openpyxl.VStr "N/A".
Proof.
  destruct (column_widths_spec (summary_header :: map (summary_row strftime round2) reports))
    as [widths [E _]]; [discriminate|].
  eexists. exists widths. rewrite create_report_sheet, E. cbn [Py.bind].
  split; [reflexivity|].
  intros i report column status H Hin. rewrite (summary_read reports i report _ H).
  assert (Hcell : nth (column - 1) (summary_row strftime round2 report)
                    (Openpyxl.new_cell Openpyxl.VNone) = pass_fail status).
  { unfold status_columns in Hin. cbn [In] in Hin.
    repeat (destruct Hin as [Hin|Hin]; [injection Hin as <- <-; reflexivity|]).
    destruct Hin. }
  rewrite Hcell. unfold pass_fail, ExcelGenerator._format_pass_fail.
  destruct (String.eqb_spec status "PASS") as [Heq|Hneq].
  - split; [reflexivity|]. split; [intros F; contradiction|].
    split; [|discriminate]. intros F. rewrite F in Heq. discriminate.
  - split; [intros F; contradiction|]. split; [reflexivity|]. split; [reflexivity|discriminate].
Qed.

(** X14.  In the finished sheet the cell that shows a KPI value, in columns
    9 to 13 of the row of a report, is centred and without fill; it is
    blank exactly when the value is missing or equal to zero, and holds the
    value rounded to two places otherwise: a rate of zero is not told from a
    missing one. *)
Theorem summary_value_cells (reports : list TowerReport) :
  exists ws widths,
    ExcelGenerator.create_report strftime round2 str_of_float reports = Py.Ok (ws, widths) /\
    forall i report column v,
      nth_error reports i = Some report ->
      In (column, v) (value_columns report) ->
      Openpyxl.read (i + 2) column ws = centered (ExcelGenerator.value_or_blank round2 v) /\
      (Openpyxl.value_ (Openpyxl.read (i + 2) column ws) = Openpyxl.VStr "" <->
         v = None \/ exists x, v = Some x /\ PrimFloat.eqb x 0 = true) /\
      (forall x, v = Some x -> PrimFloat.eqb x 0 = false ->
         Openpyxl.value_ (Openpyxl.read (i + 2) column ws) = Openpyxl.VNum (round2 x)).
Proof.
  destruct (column_widths_spec (summary_header :: map (summary_row strftime round2) reports))
    as [widths [E _]]; [discriminate|].
  eexists. exists widths. rewrite create_report_sheet, E. cbn [Py.bind].
  split; [reflexivity|].
  intros i report column v H Hin. rewrite (summary_read reports i report _ H).
  assert (Hcell : nth (column - 1) (summary_row strftime round2 report)
                    (Openpyxl.new_cell Openpyxl.VNone) =
                  centered (ExcelGenerator.value_or_blank round2 v)).
  { unfold value_columns in Hin. cbn [In] in Hin.
    repeat (destruct Hin as [Hin|Hin]; [injection Hin as <- <-; reflexivity|]).
    destruct Hin. }
  rewrite Hcell. split; [reflexivity|].
  unfold centered, ExcelGenerator.center, ExcelGenerator.value_or_blank, ExcelGenerator.truth.
  cbn [Openpyxl.value_ Openpyxl.new_cell].
  destruct v as [x|].
  - destruct (PrimFloat.eqb x 0) eqn:Hx; cbn [negb]; split.
    + split; [intros _; right; exists x; split; [reflexivity|exact Hx]|reflexivity].
    + intros y Hy Hy0. injection Hy as <-. rewrite Hx in Hy0. discriminate.
    + split; [discriminate|]. intros [F|[y [Hy Hy0]]]; [discriminate|].
      injection Hy as <-. rewrite Hx in Hy0. discriminate.
    + intros y Hy _. injection Hy as <-. reflexivity.
  - split.
    + split; [intros _; left; reflexivity|reflexivity].
    + intros y Hy. discriminate.
Qed.

Lemma Forall2_nth {A B : Type} (P : A -> B -> Prop) (l : list A) (l' : list B)
  (i : nat) (d : A) (d' : B) :
  Forall2 P l l' -> i < List.length l -> P (nth i l d) (nth i l' d').
Proof.
  intros H. revert i. induction H as [|x y l l' Hxy _ IH]; intros i Hi; simpl in *; [lia|].
  destruct i as [|i]; [exact Hxy|]. apply IH. lia.
Qed.

(** X15.  The width [create_report] gives a column of the sheet is never
    above 50 and, up to that cap, is the length of the longest text of the
    column plus 2: at least the length of the text of each cell of the
    column, the header included, plus 2. *)
Theorem summary_column_widths (reports : list TowerReport) :
  exists ws widths,
    ExcelGenerator.create_report strftime round2 str_of_float reports = Py.Ok (ws, widths) /\
    List.length widths = 13 /\
    Forall (fun w => 2 <= w <= 50) widths /\
    forall row column,
      1 <= row <= Openpyxl.max_row ws -> 1 <= column <= 13 ->
      Nat.min (String.length (ExcelGenerator.str str_of_float
                                (Openpyxl.value_ (Openpyxl.read row column ws))) + 2) 50
        <= nth (column - 1) widths 0.
Proof.
  set (ws := summary_header :: map (summary_row strftime round2) reports).
  assert (Hmc : Openpyxl.max_column ws = 13) by apply summary_max_column.
  destruct (column_widths_spec ws) as [widths [E HF]]; [discriminate|].
  exists ws, widths. rewrite create_report_sheet. fold ws. rewrite E. cbn [Py.bind].
  split; [reflexivity|].
  assert (Hlen : List.length (Openpyxl.columns ws) = 13).
  { unfold Openpyxl.columns. rewrite length_map, length_seq. exact Hmc. }
  assert (Hcell : forall row column,
            1 <= row <= Openpyxl.max_row ws -> 1 <= column <= 13 ->
            Nat.min (String.length (ExcelGenerator.str str_of_float
                                      (Openpyxl.value_ (Openpyxl.read row column ws))) + 2) 50
              <= nth (column - 1) widths 0).
  { intros row column Hr Hc.
    pose proof (Forall2_nth _ _ _ (column - 1) [] 0 HF) as H.
    destruct H as [_ H]; [lia|].
    unfold Openpyxl.columns in H at 1.
    rewrite (nth_indep _ [] (((fun column => map (fun row => Openpyxl.read row column ws)
                                  (seq 1 (Openpyxl.max_row ws))) 0))) in H
      by (rewrite length_map, length_seq, Hmc; lia).
    rewrite (map_nth (fun column => map (fun row => Openpyxl.read row column ws)
                                  (seq 1 (Openpyxl.max_row ws)))) in H.
    rewrite seq_nth in H by (rewrite Hmc; lia).
    replace (1 + (column - 1)) with column in H by lia.
    rewrite Forall_map, Forall_forall in H. apply H. apply in_seq. lia. }
  split; [|split; [|exact Hcell]].
  - rewrite <- (Forall2_length HF). exact Hlen.
  - apply Forall_forall. intros w Hw. apply (In_nth _ _ 0) in Hw.
    destruct Hw as [k [Hk <-]]. rewrite <- (Forall2_length HF), Hlen in Hk.
    split.
    + specialize (Hcell 1 (S k)). cbn [Nat.sub] in Hcell. rewrite Nat.sub_0_r in Hcell.
      assert (H1 : 1 <= 1 <= Openpyxl.max_row ws) by (unfold Openpyxl.max_row, ws; simpl; lia).
      specialize (Hcell H1). lia.
    + pose proof (Forall2_nth _ _ _ k [] 0 HF) as H. destruct H as [H _]; [lia|exact H].
Qed.

End Summary.

(** ** The detailed sheet *)

Lemma nth_update_nth {A : Type} (d : A) (f : A -> A) (n : nat) (l : list A) (i : nat) :
  nth i (Openpyxl.update_nth d n f l) d =
  if i =? n then f (nth i l d) else nth i l d.
Proof.
  revert l i. induction n as [|n IH]; intros [|x l] [|i]; cbn [Openpyxl.update_nth nth Nat.eqb];
    try reflexivity.
  - destruct i; reflexivity.
  - rewrite IH. destruct (i =? n); [|destruct i; reflexivity].
    destruct i; reflexivity.
  - apply IH.
Qed.

Lemma cell_ok (row column : nat) (f : Openpyxl.Cell -> Openpyxl.Cell)
  (ws : Openpyxl.Worksheet) :
  0 < row -> 0 < column ->
  Openpyxl.cell row column f ws =
  Py.Ok (Openpyxl.update_nth [] (row - 1)
           (Openpyxl.update_nth (Openpyxl.new_cell Openpyxl.VNone) (column - 1) f) ws).
Proof.
  intros Hr Hc. unfold Openpyxl.cell.
  destruct row; [lia|]. destruct column; [lia|]. reflexivity.
Qed.

(** A read after a write: the written cell is the image of the cell that
    was there, every other cell is as it was. *)
Lemma read_update (r c row column : nat) (f : Openpyxl.Cell -> Openpyxl.Cell)
  (ws : Openpyxl.Worksheet) :
  0 < r -> 0 < c -> 0 < row -> 0 < column ->
  Openpyxl.read r c
    (Openpyxl.update_nth [] (row - 1)
       (Openpyxl.update_nth (Openpyxl.new_cell Openpyxl.VNone) (column - 1) f) ws) =
  if (r =? row) && (c =? column) then f (Openpyxl.read r c ws) else Openpyxl.read r c ws.
Proof.
  intros Hr Hc Hrow Hcol. unfold Openpyxl.read. rewrite nth_update_nth.
  destruct (Nat.eqb_spec (r - 1) (row - 1)) as [E|E].
  - assert (E' : r = row) by lia. subst row. rewrite Nat.eqb_refl. cbn [andb].
    rewrite nth_update_nth.
    destruct (Nat.eqb_spec (c - 1) (column - 1)) as [F|F];
      destruct (Nat.eqb_spec c column) as [G|G]; try reflexivity; lia.
  - destruct (Nat.eqb_spec r row) as [G|G]; [lia|]. reflexivity.
Qed.

Lemma written_in_block (start_row row column : nat) :
  In (row, column) (written start_row) ->
  start_row <= row <= start_row + 12 /\ 1 <= column <= 8.
Proof.
  unfold written. cbn [In]. intros H.
  repeat (destruct H as [H|H]; [injection H as <- <-; lia|]). destruct H.
Qed.

Ltac on_position :=
  match goal with
  | |- context [(?r =? ?a) && (?c =? ?b)] =>
      first
        [ replace ((r =? a) && (c =? b)) with true
            by (symmetry; apply andb_true_iff; split; apply Nat.eqb_eq; lia)
        | replace ((r =? a) && (c =? b)) with false
            by (symmetry; apply andb_false_iff;
                first [left; apply Nat.eqb_neq; lia | right; apply Nat.eqb_neq; lia]) ]
  end.

Lemma written_by_none (row column : nat) (writes : list write) :
  ~ In (row, column) (map fst writes) -> written_by row column writes = None.
Proof.
  induction writes as [|[[r c] f] writes IH]; intros H; [reflexivity|].
  cbn [written_by]. destruct (Nat.eqb_spec row r) as [->|Hr];
    [destruct (Nat.eqb_spec column c) as [->|Hc]|]; cbn [andb].
  - exfalso. apply H. left. reflexivity.
  - apply IH. intros Hin. apply H. right. exact Hin.
  - apply IH. intros Hin. apply H. right. exact Hin.
Qed.

(** Writes at distinct positions: each written cell is the image of the
    cell that was there, every other cell is as it was. *)
Lemma apply_writes_read (writes : list write) (ws : Openpyxl.Worksheet) :
  Forall (fun w => 0 < fst (fst w) /\ 0 < snd (fst w)) writes ->
  NoDup (map fst writes) ->
  exists ws',
    Openpyxl.foldM apply_write writes ws = Py.Ok ws' /\
    forall row column, 0 < row -> 0 < column ->
      Openpyxl.read row column ws' =
      match written_by row column writes with
      | Some f => f (Openpyxl.read row column ws)
      | None => Openpyxl.read row column ws
      end.
Proof.
  intros Hpos. revert ws. induction Hpos as [|[[r c] f] writes [Hr Hc] _ IH]; intros ws Hnd.
  - exists ws. split; [reflexivity|]. intros. reflexivity.
  - inversion Hnd as [|? ? Hnotin Hnd']; subst. cbn [fst snd] in Hr, Hc.
    cbn [Openpyxl.foldM]. unfold apply_write at 1. cbn [fst snd].
    rewrite cell_ok by assumption. cbn [Py.bind].
    destruct (IH (Openpyxl.update_nth [] (r - 1)
                    (Openpyxl.update_nth (Openpyxl.new_cell Openpyxl.VNone) (c - 1) f) ws) Hnd')
      as [ws' [E Hread]].
    exists ws'. split; [exact E|].
    intros row column Hrow Hcol. rewrite (Hread row column Hrow Hcol).
    rewrite read_update by assumption. cbn [written_by].
    destruct (Nat.eqb_spec row r) as [->|Hne];
      [destruct (Nat.eqb_spec column c) as [->|Hne]|]; cbn [andb].
    + cbn [map fst] in Hnotin. rewrite (written_by_none _ _ _ Hnotin). reflexivity.
    + reflexivity.
    + reflexivity.
Qed.

Section Detail.

Variable strftime : date -> string -> string.
Variable round2 : float -> float.

Local Abbreviation fill_tower_data := (TemplateGenerator.fill_tower_data strftime round2).

Lemma fill_tower_data_as_writes (ws : Openpyxl.Worksheet) (start_row : nat)
  (report : TowerReport) :
  fill_tower_data ws start_row report =
  Openpyxl.foldM apply_write (tower_writes strftime round2 start_row report) ws.
Proof.
  unfold TemplateGenerator.fill_tower_data, TemplateGenerator.kpi_data,
    TemplateGenerator.fill_kpi, TemplateGenerator.KPI_RESULT_START, tower_writes, apply_write.
  cbv zeta. cbn [seq combine Openpyxl.foldM fst snd].
  repeat match goal with
         | |- context [Py.bind (Openpyxl.cell ?r ?c ?f ?w)] =>
             destruct (Openpyxl.cell r c f w); cbn [Py.bind]; [|reflexivity]
         end.
  reflexivity.
Qed.

Lemma tower_writes_positions (start_row : nat) (report : TowerReport) :
  map fst (tower_writes strftime round2 start_row report) =
  [ (start_row, 2); (start_row + 6, 1); (start_row + 3, 2);
    (start_row + 9 - 1 + 0, 7); (start_row + 9 - 1 + 0, 8);
    (start_row + 9 - 1 + 1, 7); (start_row + 9 - 1 + 1, 8);
    (start_row + 9 - 1 + 2, 7); (start_row + 9 - 1 + 2, 8);
    (start_row + 9 - 1 + 3, 7); (start_row + 9 - 1 + 3, 8);
    (start_row + 9 - 1 + 4, 7); (start_row + 9 - 1 + 4, 8) ].
Proof. reflexivity. Qed.

Lemma tower_writes_nodup (start_row : nat) (report : TowerReport) :
  NoDup (map fst (tower_writes strftime round2 start_row report)).
Proof.
  rewrite tower_writes_positions.
  repeat (constructor;
          [cbn [In]; intros H;
           repeat (destruct H as [H|H]; [injection H; intros; lia|]); destruct H|]).
  constructor.
Qed.

Lemma tower_writes_written (start_row row column : nat) (report : TowerReport) :
  In (row, column) (map fst (tower_writes strftime round2 start_row report)) <->
  In (row, column) (written start_row).
Proof.
  rewrite tower_writes_positions. unfold written.
  replace (start_row + 9 - 1 + 0) with (start_row + 8) by lia.
  replace (start_row + 9 - 1 + 1) with (start_row + 9) by lia.
  replace (start_row + 9 - 1 + 2) with (start_row + 10) by lia.
  replace (start_row + 9 - 1 + 3) with (start_row + 11) by lia.
  replace (start_row + 9 - 1 + 4) with (start_row + 12) by lia.
  reflexivity.
Qed.

(** X16.  [fill_tower_data] on the block that starts at [start_row] (at
    least 1; row 0 is rejected with a [ValueError]) writes the tower
    identifier in [B1] and [A7] of the block and the date in [B4]; in rows
    9 to 13 it writes, KPI by KPI, the value rounded to two places in column
    [G] ([N/A] exactly when the value is missing, so a zero is shown as a
    number) and the status as it is in column [H], ["N/A"] included, on
    green for ["PASS"], red for ["FAIL"] and the fill the cell had for any
    other status.  No other cell of the sheet is changed: all writes fall in
    the thirteen rows and eight columns of the block. *)
Theorem fill_tower_data_cells (ws : Openpyxl.Worksheet) (start_row : nat)
  (report : TowerReport) :
  fill_tower_data ws 0 report =
    Py.Raise (Py.ValueError "Row or column values must be at least 1") /\
  (0 < start_row ->
   exists ws',
     fill_tower_data ws start_row report = Py.Ok ws' /\
     Openpyxl.value_ (Openpyxl.read start_row 2 ws') = Openpyxl.VStr (tower_id report) /\
     Openpyxl.value_ (Openpyxl.read (start_row + 6) 1 ws') = Openpyxl.VStr (tower_id report) /\
     Openpyxl.value_ (Openpyxl.read (start_row + 3) 2 ws') =
       Openpyxl.VStr (strftime (report_date report) "%d-%b-%y") /\
     (forall idx v status,
        nth_error (TemplateGenerator.kpi_data report) idx = Some (v, status) ->
        Openpyxl.read (start_row + 8 + idx) 7 ws' =
          TemplateGenerator.result round2 v (Openpyxl.read (start_row + 8 + idx) 7 ws) /\
        Openpyxl.read (start_row + 8 + idx) 8 ws' =
          TemplateGenerator.remark status (Openpyxl.read (start_row + 8 + idx) 8 ws) /\
        (Openpyxl.value_ (Openpyxl.read (start_row + 8 + idx) 7 ws') = Openpyxl.VStr "N/A"
         <-> v = None) /\
        Openpyxl.value_ (Openpyxl.read (start_row + 8 + idx) 8 ws') = Openpyxl.VStr status) /\
     (forall row column, 0 < row -> 0 < column ->
        ~ In (row, column) (written start_row) ->
        Openpyxl.read row column ws' = Openpyxl.read row column ws) /\
     (forall row column, 0 < row -> 0 < column ->
        row < start_row \/ start_row + 12 < row \/ 8 < column ->
        Openpyxl.read row column ws' = Openpyxl.read row column ws)).
Proof.
  split; [reflexivity|]. intros Hs.
  destruct (apply_writes_read (tower_writes strftime round2 start_row report) ws)
    as [ws' [E Hread]].
  { unfold tower_writes. repeat (constructor; [cbn [fst snd]; lia|]). constructor. }
  { apply tower_writes_nodup. }
  exists ws'. rewrite fill_tower_data_as_writes. split; [exact E|].
  assert (Hframe : forall row column, 0 < row -> 0 < column ->
            ~ In (row, column) (written start_row) ->
            Openpyxl.read row column ws' = Openpyxl.read row column ws).
  { intros row column Hr Hc Hnot. rewrite (Hread row column Hr Hc).
    rewrite written_by_none; [reflexivity|].
    intros Hin. apply Hnot. apply (tower_writes_written start_row row column report).
    exact Hin. }
  split; [|split; [|split; [|split; [|split]]]].
  - rewrite Hread by lia. unfold tower_writes. cbn [written_by].
    repeat on_position. reflexivity.
  - rewrite Hread by lia. unfold tower_writes. cbn [written_by].
    repeat on_position. reflexivity.
  - rewrite Hread by lia. unfold tower_writes. cbn [written_by].
    repeat on_position. reflexivity.
  - intros idx v status Hnth.
    assert (Hg : Openpyxl.read (start_row + 8 + idx) 7 ws' =
                 TemplateGenerator.result round2 v (Openpyxl.read (start_row + 8 + idx) 7 ws) /\
                 Openpyxl.read (start_row + 8 + idx) 8 ws' =
                 TemplateGenerator.remark status (Openpyxl.read (start_row + 8 + idx) 8 ws)).
    { unfold TemplateGenerator.kpi_data in Hnth.
      do 5 (destruct idx as [|idx];
            [cbn [nth_error] in Hnth; injection Hnth as <- <-;
             split; (rewrite Hread by lia; unfold tower_writes; cbn [written_by];
                     repeat on_position; reflexivity)|]).
      destruct idx; discriminate. }
    destruct Hg as [Hg Hh]. split; [exact Hg|]. split; [exact Hh|].
    rewrite Hg, Hh. split.
    + unfold TemplateGenerator.result. cbn [Openpyxl.value_].
      destruct v; split; intros F; try discriminate; reflexivity.
    + unfold TemplateGenerator.remark.
      destruct (String.eqb status "PASS"); [reflexivity|].
      destruct (String.eqb status "FAIL"); reflexivity.
  - exact Hframe.
  - intros row column Hr Hc Hout. apply Hframe; [assumption..|].
    intros Hin. apply written_in_block in Hin. lia.
Qed.

End Detail.

(** ** Reports by date *)

Lemma date_eqb_eq (a b : date) : TemplateGenerator.date_eqb a b = true <-> a = b.
Proof.
  unfold TemplateGenerator.date_eqb. destruct a as [y m d], b as [y' m' d']. cbn [year month day].
  rewrite !andb_true_iff, !Z.eqb_eq. split.
  - intros [[-> ->] ->]. reflexivity.
  - intros H. injection H as -> -> ->. auto.
Qed.

Lemma date_eqb_refl (a : date) : TemplateGenerator.date_eqb a a = true.
Proof. apply date_eqb_eq. reflexivity. Qed.

Lemma date_eqb_neq (a b : date) : TemplateGenerator.date_eqb a b = false <-> a <> b.
Proof.
  split.
  - intros H E. apply date_eqb_eq in E. congruence.
  - intros H. destruct (TemplateGenerator.date_eqb a b) eqn:E; [|reflexivity].
    apply date_eqb_eq in E. contradiction.
Qed.

Lemma append_to_keys (key : date) (report : TowerReport)
  (grouped : list (date * list TowerReport)) :
  map fst (TemplateGenerator.append_to key report grouped) =
  if existsb (fun k => TemplateGenerator.date_eqb k key) (map fst grouped)
  then map fst grouped
  else (map fst grouped ++ [key])%list.
Proof.
  induction grouped as [|[k l] grouped IH]; [reflexivity|].
  cbn [TemplateGenerator.append_to map fst existsb].
  destruct (TemplateGenerator.date_eqb k key); [reflexivity|].
  cbn [map fst orb]. rewrite IH.
  destruct (existsb _ (map fst grouped)); reflexivity.
Qed.

Lemma append_to_in (key : date) (report : TowerReport)
  (grouped : list (date * list TowerReport)) (k : date) (l : list TowerReport) :
  NoDup (map fst grouped) ->
  In (k, l) (TemplateGenerator.append_to key report grouped) ->
  (k <> key /\ In (k, l) grouped) \/
  (k = key /\
   ((exists l0, In (k, l0) grouped /\ l = (l0 ++ [report])%list) \/
    (l = [report] /\ ~ In key (map fst grouped)))).
Proof.
  induction grouped as [|[k' l'] grouped IH]; cbn [TemplateGenerator.append_to]; intros Hnd.
  - intros [H|[]]. injection H as <- <-. right. split; [reflexivity|].
    right. split; [reflexivity|]. intros [].
  - cbn [map fst] in Hnd. inversion Hnd as [|? ? Hnotin Hnd']; subst.
    destruct (TemplateGenerator.date_eqb k' key) eqn:E.
    + apply date_eqb_eq in E. subst k'. intros [H|H].
      * injection H as <- <-. right. split; [reflexivity|]. left.
        exists l'. split; [left; reflexivity|reflexivity].
      * left. split; [|right; exact H].
        intros ->. apply Hnotin. apply in_map_iff. exists (key, l). split; [reflexivity|exact H].
    + apply date_eqb_neq in E. intros [H|H].
      * injection H as <- <-. left. split; [exact E|left; reflexivity].
      * destruct (IH Hnd' H) as [[Hne Hin]|[-> [[l0 [Hin ->]]|[-> Hnot]]]].
        -- left. split; [exact Hne|right; exact Hin].
        -- right. split; [reflexivity|]. left. exists l0. split; [right; exact Hin|reflexivity].
        -- right. split; [reflexivity|]. right. split; [reflexivity|].
           cbn [map fst In]. intros [F|F]; contradiction.
Qed.

Lemma reports_of_absent (d : date) (done : list TowerReport) :
  (forall r, In r done -> report_date r <> d) -> reports_of d done = [].
Proof.
  intros H. unfold reports_of. induction done as [|r done IH]; [reflexivity|].
  cbn [filter]. rewrite (proj2 (date_eqb_neq _ _) (H r (or_introl eq_refl))).
  apply IH. intros r' Hr'. apply H. right. exact Hr'.
Qed.

Lemma append_to_ok (done : list TowerReport) (report : TowerReport)
  (grouped : list (date * list TowerReport)) :
  grouped_ok done grouped ->
  grouped_ok (done ++ [report])
    (TemplateGenerator.append_to (report_date report) report grouped).
Proof.
  intros (Hnd & Hgroups & Hkeys).
  assert (Hk : forall k, In k (map fst grouped) \/ k = report_date report <->
                 In k (map fst (TemplateGenerator.append_to (report_date report) report
                                  grouped))).
  { intros k. rewrite append_to_keys.
    destruct (existsb _ (map fst grouped)) eqn:E.
    - apply existsb_exists in E. destruct E as [k' [Hin Hk']].
      apply date_eqb_eq in Hk'. subst k'. split; [intros [H| ->]; assumption|auto].
    - rewrite in_app_iff. cbn [In]. split; [intros [H| ->]; auto|intros [H|[<-|[]]]; auto]. }
  split; [|split].
  - rewrite append_to_keys. destruct (existsb _ (map fst grouped)) eqn:E; [exact Hnd|].
    apply NoDup_app; [exact Hnd|constructor; [intros []|constructor]|].
    intros k Hin [<-|[]].
    assert (F : existsb (fun k' => TemplateGenerator.date_eqb k' (report_date report))
                  (map fst grouped) = true).
    { apply existsb_exists. exists (report_date report). split; [exact Hin|apply date_eqb_refl]. }
    rewrite F in E. discriminate.
  - intros k l Hin. unfold reports_of. rewrite filter_app. cbn [filter].
    destruct (append_to_in _ _ _ _ _ Hnd Hin) as [[Hne Hin']|[-> [[l0 [Hin' ->]]|[-> Hnot]]]].
    + rewrite (proj2 (date_eqb_neq _ _) (fun E => Hne (eq_sym E))). rewrite app_nil_r.
      apply Hgroups. exact Hin'.
    + rewrite date_eqb_refl. destruct (Hgroups _ _ Hin') as [-> _].
      split; [reflexivity|]. intros F. apply app_eq_nil in F. destruct F as [_ F]. discriminate.
    + rewrite date_eqb_refl. fold (reports_of (report_date report) done).
      rewrite reports_of_absent; [split; [reflexivity|discriminate]|].
      intros r Hr E. apply Hnot. rewrite <- E. apply Hkeys. exact Hr.
  - intros r Hr. apply Hk. apply in_app_iff in Hr. destruct Hr as [Hr|[<-|[]]].
    + left. apply Hkeys. exact Hr.
    + right. reflexivity.
Qed.

Lemma group_reports_from (reports done : list TowerReport)
  (grouped : list (date * list TowerReport)) :
  grouped_ok done grouped ->
  grouped_ok (done ++ reports)
    (fold_left (fun grouped report =>
                  TemplateGenerator.append_to (report_date report) report grouped)
       reports grouped).
Proof.
  revert done grouped. induction reports as [|r reports IH]; intros done grouped H.
  - rewrite app_nil_r. exact H.
  - cbn [fold_left]. replace (done ++ r :: reports)%list with ((done ++ [r]) ++ reports)%list
      by (rewrite <- app_assoc; reflexivity).
    apply IH. apply append_to_ok. exact H.
Qed.

(** X17.  [group_reports_by_date] returns each date of the reports once,
    and no other date; under a date it lists the reports of that date, all
    of them and only them, in the order of the input, so no list is empty
    and each report is under exactly one date. *)
Theorem group_reports_by_date_groups (reports : list TowerReport) :
  let grouped := TemplateGenerator.group_reports_by_date reports in
  NoDup (map fst grouped) /\
  (forall d, In d (map fst grouped) <-> exists r, In r reports /\ report_date r = d) /\
  (forall d l, In (d, l) grouped ->
     l = reports_of d reports /\ l <> [] /\
     forall r, In r l <-> In r reports /\ report_date r = d).
Proof.
  cbv zeta.
  destruct (group_reports_from reports [] []) as (Hnd & Hgroups & Hkeys).
  { split; [constructor|]. split; [intros k l []|intros r []]. }
  cbn [app] in *. fold (TemplateGenerator.group_reports_by_date reports) in *.
  split; [exact Hnd|]. split.
  - intros d. split.
    + intros Hin. apply in_map_iff in Hin. destruct Hin as [[k l] [<- Hin]].
      destruct (Hgroups _ _ Hin) as [Hl Hne]. destruct l as [|r l]; [contradiction|].
      assert (Hr : In r (reports_of k reports)) by (rewrite <- Hl; left; reflexivity).
      apply filter_In in Hr. destruct Hr as [Hr Hd]. apply date_eqb_eq in Hd.
      exists r. split; assumption.
    + intros [r [Hr <-]]. apply Hkeys. exact Hr.
  - intros d l Hin. destruct (Hgroups _ _ Hin) as [Hl Hne].
    split; [exact Hl|]. split; [exact Hne|].
    intros r. rewrite Hl. unfold reports_of. rewrite filter_In, date_eqb_eq. reflexivity.
Qed.

(** ** What the calculation reads *)

(** X18.  On groups of the 123 columns of the layout or more whose ten
    metric columns hold numbers, as cleaning leaves them, [calculate_kpis]
    reads the ten metric columns and nothing else: it raises nothing, and
    two such groups whose ten metric columns hold the same cells, row by
    row, get the same KPI values, whatever their widths, their other
    columns, their tower identifiers and their dates are. *)
Theorem calculate_kpis_reads_metric_columns (group group' : ParsedFrame) :
  122 < width group ->
  122 < width group' ->
  (forall i, In i ProcessingThread.numeric_cols ->
     Forall (fun r => is_num (Pandas.cell_at i (cells r))) (prows group)) ->
  (forall i, In i ProcessingThread.numeric_cols ->
     column i (prows group) = column i (prows group')) ->
  exists kv,
    KPICalculator.calculate_kpis group = Py.Ok kv /\
    KPICalculator.calculate_kpis group' = Py.Ok kv.
Proof.
  intros Hw Hw' Hnum Hcols.
  destruct (calculate_kpis_ok group Hw Hnum) as [kv E].
  exists kv. split; [exact E|]. rewrite <- E. symmetry.
  apply calculate_kpis_ext. intros i Hi.
  assert (Hi' : i <= 122).
  { unfold ProcessingThread.numeric_cols in Hi. simpl in Hi.
    repeat (destruct Hi as [<-|Hi];
            [unfold ColumnIndex.SN_ADDITION_NUM, ColumnIndex.SN_ADDITION_DEN,
               ColumnIndex.ABNORMAL_SN_RELEASE_NUM, ColumnIndex.ABNORMAL_SN_RELEASE_DEN,
               ColumnIndex.DL_UE_THROUGHPUT_NUM, ColumnIndex.DL_UE_THROUGHPUT_DEN,
               ColumnIndex.UL_UE_THROUGHPUT_NUM, ColumnIndex.UL_UE_THROUGHPUT_DEN,
               ColumnIndex.DL_SE_MAPPING_NUM, ColumnIndex.DL_SE_MAPPING_DEN; lia|]).
    destruct Hi. }
  unfold KPICalculator.column_sum, KPICalculator.iloc.
  replace (i <? width group) with true by (symmetry; apply Nat.ltb_lt; lia).
  replace (i <? width group') with true by (symmetry; apply Nat.ltb_lt; lia).
  specialize (Hcols i Hi). unfold column in Hcols. rewrite Hcols. reflexivity.
Qed.

Lemma calculate_kpis_reads_metric_columns_witness :
  exists kv,
    KPICalculator.calculate_kpis {| width := 123; prows := [idle_row] |} = Py.Ok kv /\
    KPICalculator.calculate_kpis {| width := 123; prows := [idle_row_renamed] |} = Py.Ok kv.
Proof.
  apply calculate_kpis_reads_metric_columns.
  - simpl. lia.
  - simpl. lia.
  - intros i Hi. unfold ProcessingThread.numeric_cols in Hi. simpl in Hi.
    repeat (destruct Hi as [<-|Hi];
            [constructor; [exists 0%float; reflexivity|constructor]|]).
    destruct Hi.
  - intros i Hi. unfold ProcessingThread.numeric_cols in Hi. simpl in Hi.
    repeat (destruct Hi as [<-|Hi]; [reflexivity|]). destruct Hi.
Defined.

(** ** The shape of an extracted identifier *)

Ltac invert_denotes :=
  repeat match goal with
         | H : denotes (Re.Seq _ _) _ |- _ => inversion H; subst; clear H
         | H : denotes (Re.Many1 _) _ |- _ => inversion H; subst; clear H
         | H : denotes (Re.Cls _) _ |- _ => inversion H; subst; clear H
         end.

Lemma chr_eq (a c : ascii) : Re.chr a c = true -> c = a.
Proof. unfold Re.chr. intros H. apply Ascii.eqb_eq in H. congruence. Qed.

Lemma denotes_towerid (m : list ascii) :
  denotes TOWERID_PATTERN m ->
  Forall (fun c => id_char c = true) m /\ In "-"%char m /\ 7 <= List.length m.
Proof.
  unfold TOWERID_PATTERN, Re.seq. intros H. invert_denotes.
  repeat match goal with
         | H : Re.chr _ _ = true |- _ => apply chr_eq in H; subst
         end.
  assert (Hu : forall a, Re.upper a = true -> id_char a = true)
    by (intros a Ha; unfold id_char; rewrite Ha; reflexivity).
  assert (Hg : forall a, Re.digit a = true -> id_char a = true)
    by (intros a Ha; unfold id_char; rewrite Ha, orb_true_r; reflexivity).
  assert (Hh : id_char "-" = true) by reflexivity.
  split; [|split].
  - repeat (apply Forall_app; split);
      repeat (apply Forall_cons || apply Forall_nil); auto;
      try (eapply Forall_impl; [|eassumption]; cbv beta; auto).
  - apply in_or_app. right. left. reflexivity.
  - rewrite !length_app. cbn [List.length]. lia.
Qed.

Lemma string_of_list_length (m : list ascii) :
  String.length (string_of_list_ascii m) = List.length m.
Proof. induction m as [|a m IH]; simpl; [reflexivity|]. rewrite IH. reflexivity. Qed.

(** X19.  [extract_tower_id] returns the sentinel [UNKNOWN] exactly when no
    part of the text has the shape of the pattern: the sentinel has no
    hyphen, so it is never a match.  Every other result is a part of the
    text, made of capitals, digits and hyphens only, with a hyphen in it,
    and at least seven characters long. *)
Theorem extract_tower_id_shape (str_of_float : float -> string) (c : cell) :
  let text := list_ascii_of_string (DataCleaner.py_str str_of_float c) in
  let id := DataParser.extract_tower_id str_of_float c in
  (id = "UNKNOWN" <-> Re.search TOWERID_PATTERN text = None) /\
  (id <> "UNKNOWN" ->
   Forall (fun a => id_char a = true) (list_ascii_of_string id) /\
   In "-"%char (list_ascii_of_string id) /\
   7 <= String.length id /\
   exists before after, text = (before ++ list_ascii_of_string id ++ after)%list).
Proof.
  cbv zeta. unfold DataParser.extract_tower_id.
  destruct (Re.search TOWERID_PATTERN
              (list_ascii_of_string (DataCleaner.py_str str_of_float c))) as [m|] eqn:E.
  - destruct (search_sound _ _ _ E) as [Hd Hsub].
    destruct (denotes_towerid m Hd) as (Hchars & Hhyphen & Hlen).
    assert (Hne : string_of_list_ascii m <> "UNKNOWN").
    { intros F. apply (f_equal list_ascii_of_string) in F.
      rewrite list_ascii_of_string_of_list_ascii in F. subst m.
      cbn in Hhyphen. repeat (destruct Hhyphen as [Hhyphen|Hhyphen]; [discriminate|]).
      destruct Hhyphen. }
    split; [split; [intros F; contradiction|discriminate]|].
    intros _. rewrite list_ascii_of_string_of_list_ascii.
    split; [exact Hchars|]. split; [exact Hhyphen|]. split; [|exact Hsub].
    rewrite string_of_list_length. exact Hlen.
  - split; [split; reflexivity|]. intros F. contradiction.
Qed.
